(** * BusFlow: seat booking, fleet search and portal login

    A shallow embedding of the booking, fleet and authentication logic of the
    BusFlow application ([app/config.py], [app/models], [app/services],
    [app/controllers]) together with the properties that its specification
    states about it.

    The hosted database is an external service.  It is modelled as a set of
    in-memory tables held in insertion order ([World]); its filters [eq],
    [gte] and [lt] are the comparisons of the stored text values, and every
    call to it answers (the [except Exception] branches of the service layer,
    which only run when the service is unreachable, are therefore not
    represented).  The query for the bookings of a bus asks for no order;
    the rows come in the order of the table.  An update of the
    [buses] table writes the rows that the row-level security of the
    database lets the client update.  The wall clock read by
    [datetime.now()] is part of the world: a sequence of readings, one being
    consumed by each call. *)

From Stdlib Require Import String Ascii List ZArith NArith Lia Bool Arith PeanoNat.
From Stdlib Require Import DecimalString Permutation.
Import ListNotations.
Local Open Scope string_scope.
Local Open Scope nat_scope.

(** ** app/config.py *)

Module Config.

Definition USER_ROLE := "USER".
Definition DRIVER_ROLE := "DRIVER".
Definition ADMIN_ROLE := "ADMIN".

Definition BUS_STATUS_ACTIVE := "ACTIVE".
Definition BUS_STATUS_MAINTENANCE := "MAINTENANCE".
Definition BUS_STATUS_DECOMMISSIONED := "DECOMMISSIONED".

Definition BOOKING_STATUS_CONFIRMED := "CONFIRMED".
Definition BOOKING_STATUS_CANCELLED := "CANCELLED".

Definition MAX_SEATS_PER_BOOKING : nat := 5.
Definition DEFAULT_TOTAL_SEATS : Z := 40.
Definition DEFAULT_TICKET_PRICE : Z := 50.

Definition SEAT_ROWS : list string :=
  ["A"; "B"; "C"; "D"; "E"; "F"; "G"; "H"; "I"; "J"].
Definition LAST_ROW := "K".
Definition SEATS_PER_ROW : nat := 4.
Definition LAST_ROW_SEATS : nat := 5.

End Config.

(** ** The Python built-ins the code relies on *)

Module Py.

(** [x in xs] on a list of strings. *)
Definition str_in (x : string) (xs : list string) : bool :=
  existsb (String.eqb x) xs.

(** [xs.index(x)]: position of the first occurrence; [None] stands for the
    [ValueError] raised when there is none. *)
Fixpoint list_index (x : string) (xs : list string) : option nat :=
  match xs with
  | [] => None
  | y :: ys =>
      if String.eqb y x then Some 0
      else match list_index x ys with
           | Some i => Some (S i)
           | None => None
           end
  end.

(** [s.split('T')[0]]: the text before the first ['T'], all of [s] when it
    has none. *)
Fixpoint split_T_head (s : string) : string :=
  match s with
  | EmptyString => EmptyString
  | String c r => if Ascii.eqb c "T" then EmptyString
                  else String c (split_T_head r)
  end.

(** [c.lower()] on one byte of the UTF-8 text: the letters A..Z move to
    a..z, every other byte stays. *)
Definition lower_ascii (c : ascii) : ascii :=
  let n := nat_of_ascii c in
  if (65 <=? n) && (n <=? 90) then ascii_of_nat (n + 32) else c.

(** [s.lower()]. *)
Fixpoint lower (s : string) : string :=
  match s with
  | EmptyString => EmptyString
  | String c r => String (lower_ascii c) (lower r)
  end.

(** [str(n)] for a natural number, as used inside f-strings. *)
Definition str_of_nat (n : nat) : string :=
  NilEmpty.string_of_uint (Nat.to_uint n).

(** [range(1, n + 1)]. *)
Definition range1 (n : nat) : list nat := seq 1 n.

(** Python truthiness of [str or None]: [None] and [''] are falsy. *)
Definition truthy (s : option string) : bool :=
  match s with
  | None => false
  | Some t => negb (String.eqb t "")
  end.

(** Python exceptions as values: a call returns or raises. *)
Inductive outcome (A : Type) : Type :=
| Return (a : A)
| Raise (msg : string).
Arguments Return {A} a.
Arguments Raise {A} msg.

(** A [float]: the finite ones are the numbers [m * 2 ^ e]. *)
Inductive float : Type :=
| Finite (m e : Z)
| Infinite (negative : bool)
| NaN.

(** A value decoded from the JSON body of a request. *)
#[warnings="-register-all"] Inductive value : Type :=
| VNone
| VBool (b : bool)
| VInt (z : Z)
| VFloat (x : float)
| VStr (s : string)
| VList (items : list value)
| VDict (items : list (string * value)).

(** [bool(x)], the test made by [if], [not] and [all]. *)
Definition bool_ (x : value) : bool :=
  match x with
  | VNone => false
  | VBool b => b
  | VInt z => negb (Z.eqb z 0)
  | VFloat (Finite m _) => negb (Z.eqb m 0)
  | VFloat _ => true
  | VStr s => negb (String.eqb s "")
  | VList items => match items with [] => false | _ :: _ => true end
  | VDict items => match items with [] => false | _ :: _ => true end
  end.

Section Int.

(** [int(s)] for a text [s]: how Python reads a number in a text is not
    spelled out here. *)
Variable int_of_str : string -> outcome Z.

(** [int(x)]: a [float] is cut off towards zero; the message of [Raise]
    names the class of the exception. *)
Definition int_ (x : value) : outcome Z :=
  match x with
  | VInt z => Return z
  | VBool b => Return (if b then 1 else 0)%Z
  | VFloat (Finite m e) =>
      Return (if (0 <=? e)%Z then m * 2 ^ e else Z.quot m (2 ^ (- e)))%Z
  | VFloat (Infinite _) => Raise "OverflowError"
  | VFloat NaN => Raise "ValueError"
  | VStr s => int_of_str s
  | VNone | VList _ | VDict _ => Raise "TypeError"
  end.

End Int.

(** [d.get(k)] on a dictionary written [{key(x): x for x in xs}]: of the
    items with one key the last one stays. *)
Definition dict_get {V : Type} (k : string) (items : list (string * V))
  : option V :=
  match find (fun kv => String.eqb (fst kv) k) (rev items) with
  | Some kv => Some (snd kv)
  | None => None
  end.

(** Texts are kept as their UTF-8 bytes.  The white space of [str.strip()]
    is U+0009..000D, U+001C..0020, U+0085, U+00A0, U+1680, U+2000..200A,
    U+2028, U+2029, U+202F, U+205F and U+3000, of one, two or three
    bytes. *)
Definition is_space1 (c : ascii) : bool :=
  let n := nat_of_ascii c in
  ((9 <=? n) && (n <=? 13)) || ((28 <=? n) && (n <=? 32)).

Definition is_space2 (c1 c2 : ascii) : bool :=
  (nat_of_ascii c1 =? 194)
  && ((nat_of_ascii c2 =? 133) || (nat_of_ascii c2 =? 160)).

Definition is_space3 (c1 c2 c3 : ascii) : bool :=
  let n1 := nat_of_ascii c1 in
  let n2 := nat_of_ascii c2 in
  let n3 := nat_of_ascii c3 in
  ((n1 =? 225) && (n2 =? 154) && (n3 =? 128))
  || ((n1 =? 226) && (n2 =? 128)
      && (((128 <=? n3) && (n3 <=? 138)) || (n3 =? 168) || (n3 =? 169)
          || (n3 =? 175)))
  || ((n1 =? 226) && (n2 =? 129) && (n3 =? 159))
  || ((n1 =? 227) && (n2 =? 128) && (n3 =? 128)).

(** [s.lstrip()] *)
Fixpoint lstrip (s : string) : string :=
  match s with
  | EmptyString => EmptyString
  | String c1 r1 =>
      if is_space1 c1 then lstrip r1
      else
        match r1 with
        | EmptyString => s
        | String c2 r2 =>
            if is_space2 c1 c2 then lstrip r2
            else
              match r2 with
              | EmptyString => s
              | String c3 r3 =>
                  if is_space3 c1 c2 c3 then lstrip r3 else s
              end
        end
  end.

Fixpoint rev_bytes (s acc : string) : string :=
  match s with
  | EmptyString => acc
  | String c r => rev_bytes r (String c acc)
  end.

(** The same from the end: the bytes are met last one first. *)
Fixpoint rstrip_rev (s : string) : string :=
  match s with
  | EmptyString => EmptyString
  | String c1 r1 =>
      if is_space1 c1 then rstrip_rev r1
      else
        match r1 with
        | EmptyString => s
        | String c2 r2 =>
            if is_space2 c2 c1 then rstrip_rev r2
            else
              match r2 with
              | EmptyString => s
              | String c3 r3 =>
                  if is_space3 c3 c2 c1 then rstrip_rev r3 else s
              end
        end
  end.

(** [s.strip()] *)
Definition strip (s : string) : string :=
  rev_bytes (rstrip_rev (rev_bytes (lstrip s) "")) "".

(** [len(s)]: the characters of [s], one per byte that does not continue a
    character. *)
Fixpoint len (s : string) : nat :=
  match s with
  | EmptyString => 0
  | String c r =>
      let n := nat_of_ascii c in
      if (128 <=? n) && (n <=? 191) then len r else S (len r)
  end.

(** [c in s] for a character of one byte. *)
Fixpoint char_in (c : ascii) (s : string) : bool :=
  match s with
  | EmptyString => false
  | String d r => Ascii.eqb d c || char_in c r
  end.

(** [s.split(' ')[0]] *)
Fixpoint split_space_head (s : string) : string :=
  match s with
  | EmptyString => EmptyString
  | String c r => if Ascii.eqb c " " then EmptyString
                  else String c (split_space_head r)
  end.

End Py.

(** ** datetime.now().isoformat() *)

Module Datetime.

Record datetime := mkDatetime {
  year : N; month : N; day : N;
  hour : N; minute : N; second : N; microsecond : N }.

(** The ranges Python's [datetime] enforces on its fields. *)
Definition well_formed (t : datetime) : Prop :=
  (1 <= year t <= 9999 /\ 1 <= month t <= 12 /\ 1 <= day t <= 31 /\
   hour t < 24 /\ minute t < 60 /\ second t < 60 /\
   microsecond t < 1000000)%N.

Definition digit (n : N) : ascii := ascii_of_N (48 + n mod 10).

(** ["%02d"], ["%04d"] and ["%06d"] on values that fit the width, which is
    what the field ranges guarantee. *)
Definition pad2 (n : N) : string :=
  String (digit (n / 10)) (String (digit n) "").
Definition pad4 (n : N) : string :=
  String (digit (n / 1000)) (String (digit (n / 100)) (pad2 n)).
Definition pad6 (n : N) : string :=
  String (digit (n / 100000)) (String (digit (n / 10000)) (pad4 n)).

Definition iso_date (t : datetime) : string :=
  pad4 (year t) ++ "-" ++ pad2 (month t) ++ "-" ++ pad2 (day t).

(** The fraction is printed only when the microsecond field is not zero. *)
Definition iso_time (t : datetime) : string :=
  pad2 (hour t) ++ ":" ++ pad2 (minute t) ++ ":" ++ pad2 (second t) ++
  (if (microsecond t =? 0)%N then "" else "." ++ pad6 (microsecond t)).

Definition isoformat (t : datetime) : string :=
  iso_date t ++ "T" ++ iso_time t.

(** The last second of a day, 23:59:59, with any fraction. *)
Definition final_second (t : datetime) : bool :=
  ((hour t =? 23) && (minute t =? 59) && (second t =? 59))%N.

Definition same_day (a b : datetime) : Prop :=
  year a = year b /\ month a = month b /\ day a = day b.

End Datetime.

(** ** Rows of the database tables

    What the service layer receives and sends as Python dictionaries. *)

Module Row.

(** A row of the [bookings] table.  [id] and [created_at] are filled in by
    the database on insertion; [created_at] is kept as the rank of the
    insertion, which is all that [order('created_at')] uses. *)
Record BookingRow := mkBookingRow {
  id : string;
  user_id : string;
  bus_id : string;
  seat_number : string;
  source : string;
  destination : string;
  date : string;
  price : Z;
  status : string;
  created_at : nat }.

(** The dictionary [booking_data] handed to [insert]. *)
Record BookingData := mkBookingData {
  d_user_id : string;
  d_bus_id : string;
  d_seat_number : string;
  d_source : string;
  d_destination : string;
  d_date : string;
  d_price : Z;
  d_status : string }.

(** A row of the [buses] table. *)
Record BusRow := mkBusRow {
  b_id : string;
  b_name : string;
  b_route : list string;
  b_total_seats : Z;
  b_driver_id : option string;
  b_price : Z;
  b_status : string }.

(** A row of the [profiles] table. *)
Record ProfileRow := mkProfileRow {
  p_id : string;
  p_email : string;
  p_name : string;
  p_role : string }.

(** The dictionary handed to [update] on the [buses] table: the columns to
    write, each with its new value. *)
Record BusPatch := mkBusPatch {
  set_name : option string;
  set_route : option (list string);
  set_total_seats : option Z;
  set_driver_id : option (option string);
  set_price : option Z;
  set_status : option string }.

End Row.

(** ** app/models *)

Module Bus.

Record t := mk {
  id : string;
  name : string;
  route : list string;
  total_seats : Z;
  driver_id : option string;
  price : Z;
  status : string }.

Definition isActive (self : t) : bool :=
  String.eqb (status self) Config.BUS_STATUS_ACTIVE.

Definition is_valid_trip (self : t) (source destination : string) : bool :=
  if negb (Py.str_in source (route self))
     || negb (Py.str_in destination (route self))
  then false
  else
    match Py.list_index source (route self),
          Py.list_index destination (route self) with
    | Some source_index, Some destination_index =>
        source_index <? destination_index
    | _, _ => false
    end.

(** Every column is present in a row read from the table, so none of the
    defaults of [data.get] applies. *)
Definition from_dict (data : Row.BusRow) : t :=
  mk (Row.b_id data) (Row.b_name data) (Row.b_route data)
     (Row.b_total_seats data) (Row.b_driver_id data) (Row.b_price data)
     (Row.b_status data).

Definition start_stop (self : t) : string :=
  match route self with
  | [] => ""
  | stop :: _ => stop
  end.

Definition end_stop (self : t) : string := last (route self) "".

Definition hasDriver (self : t) : bool :=
  match driver_id self with
  | Some _ => true
  | None => false
  end.

Definition get_stop_count (self : t) : nat := length (route self).

End Bus.

Module Booking.

Record t := mk {
  id : string;
  user_id : string;
  bus_id : string;
  seat_number : string;
  source : string;
  destination : string;
  booking_date : string;
  price : Z;
  status : string;
  created_at : nat }.

Definition isConfirmed (self : t) : bool :=
  String.eqb (status self) Config.BOOKING_STATUS_CONFIRMED.

Definition isCancelled (self : t) : bool :=
  String.eqb (status self) Config.BOOKING_STATUS_CANCELLED.

(** The column [date] becomes the attribute [booking_date].  A row read
    from the table always carries [created_at], so the constructor does not
    fall back on the clock for it. *)
Definition from_dict (data : Row.BookingRow) : t :=
  mk (Row.id data) (Row.user_id data) (Row.bus_id data)
     (Row.seat_number data) (Row.source data) (Row.destination data)
     (Row.date data) (Row.price data) (Row.status data)
     (Row.created_at data).

End Booking.

Module User.

Record t := mk {
  id : string;
  email : string;
  name : string;
  role : string }.

Definition from_dict (data : Row.ProfileRow) : t :=
  mk (Row.p_id data) (Row.p_email data) (Row.p_name data) (Row.p_role data).

Definition isAdmin (self : t) : bool :=
  String.eqb (role self) Config.ADMIN_ROLE.

Definition isDriver (self : t) : bool :=
  String.eqb (role self) Config.DRIVER_ROLE.

Definition isUser (self : t) : bool :=
  String.eqb (role self) Config.USER_ROLE.

Definition first_name (self : t) : string :=
  if String.eqb (name self) "" then "" else Py.split_space_head (name self).

End User.

(** ** The hosted database and the wall clock *)

Module Backend.

(** An identity known to the authentication provider. *)
Record Account := mkAccount {
  a_id : string;
  a_email : string;
  a_password : string }.

(** The tables, the counter of the bookings inserted, the clock with the
    number of readings taken, and the row-level security of the [buses]
    table as it applies to the client: an update writes the rows that
    [may_update_bus] lets through and passes over the others without an
    error. *)
Record World := mkWorld {
  bookings : list Row.BookingRow;
  buses : list Row.BusRow;
  profiles : list Row.ProfileRow;
  accounts : list Account;
  next_id : nat;
  clock : nat -> Datetime.datetime;
  ticks : nat;
  may_update_bus : Row.BusRow -> bool }.

Definition set_bookings (bs : list Row.BookingRow) (w : World) : World :=
  mkWorld bs (buses w) (profiles w) (accounts w) (next_id w) (clock w)
          (ticks w) (may_update_bus w).

(** Computations that read and change the world. *)
Definition M (A : Type) : Type := World -> A * World.

Definition ret {A} (a : A) : M A := fun w => (a, w).

Definition bind {A B} (m : M A) (k : A -> M B) : M B :=
  fun w => let (a, w') := m w in k a w'.

(** [datetime.now()]: the next reading of the clock. *)
Definition now : M Datetime.datetime :=
  fun w =>
    (clock w (ticks w),
     mkWorld (bookings w) (buses w) (profiles w) (accounts w) (next_id w)
             (clock w) (S (ticks w)) (may_update_bus w)).

(** The database names a new row after its sequence number. *)
Definition fresh_id (n : nat) : string := "booking-" ++ Py.str_of_nat n.

(** The row stored for [booking_data] when it is the [n]-th insertion. *)
Definition new_row (d : Row.BookingData) (n : nat) : Row.BookingRow :=
  Row.mkBookingRow (fresh_id n) (Row.d_user_id d) (Row.d_bus_id d)
    (Row.d_seat_number d) (Row.d_source d) (Row.d_destination d)
    (Row.d_date d) (Row.d_price d) (Row.d_status d) (S n).

(** [table('bookings').insert(booking_data).execute()]: the row is appended
    and handed back as [response.data[0]]. *)
Definition insert_booking (d : Row.BookingData) : M (option Row.BookingRow) :=
  fun w =>
    let row := new_row d (next_id w) in
    (Some row,
     mkWorld (app (bookings w) [row]) (buses w) (profiles w) (accounts w)
             (S (next_id w)) (clock w) (ticks w) (may_update_bus w)).

(** [.gte('date', lo).lt('date', hi)] on the stored text. *)
Definition date_between (lo hi : string) (r : Row.BookingRow) : bool :=
  String.leb lo (Row.date r) && String.ltb (Row.date r) hi.

(** [.update({'status': s}).eq('id', booking_id)] *)
Definition set_status (s : string) (r : Row.BookingRow) : Row.BookingRow :=
  Row.mkBookingRow (Row.id r) (Row.user_id r) (Row.bus_id r)
    (Row.seat_number r) (Row.source r) (Row.destination r) (Row.date r)
    (Row.price r) s (Row.created_at r).

(** The text of the error of [.single()] when no row matches. *)
Definition single_row_error : string :=
  "JSON object requested, multiple (or no) rows returned".

End Backend.

Notation "x <- m ;; k" := (Backend.bind m (fun x => k))
  (at level 61, m at next level, right associativity).

(** ** app/services/supabase_service.py *)

Module SupabaseService.

Import Backend.

(** [sign_in_with_password] raises on unknown credentials; the profile of
    the signed-in identity is then read with [.single()]. *)
Definition login (email password : string) (w : World)
  : Py.outcome (option Row.ProfileRow) :=
  match find (fun a => String.eqb (a_email a) email
                       && String.eqb (a_password a) password)
             (accounts w) with
  | None => Py.Raise "Invalid email or password."
  | Some a =>
      match find (fun p => String.eqb (Row.p_id p) (a_id a)) (profiles w) with
      | Some p => Py.Return (Some p)
      | None => Py.Raise single_row_error
      end
  end.

(** [order('created_at', desc=False)]: the order of insertion. *)
Definition get_all_buses : M (list Row.BusRow) :=
  fun w => (buses w, w).

(** [order('created_at', desc=True)]: the latest row first. *)
Definition get_bookings_by_user (user_id : string) : M (list Row.BookingRow) :=
  fun w =>
    (rev (filter (fun r => String.eqb (Row.user_id r) user_id) (bookings w)),
     w).

(** No [order] is asked for: the rows come as the table holds them. *)
Definition get_bus_bookings_for_date (bus_id date_str : string)
  : M (list Row.BookingRow) :=
  fun w =>
    let date_prefix := Py.split_T_head date_str in
    (filter (fun r => String.eqb (Row.bus_id r) bus_id
                      && String.eqb (Row.status r) "CONFIRMED"
                      && date_between date_prefix
                           (date_prefix ++ "T23:59:59") r)
            (bookings w),
     w).

(** The rows that make [create_booking] refuse a seat. *)
Definition existing (booking_data : Row.BookingData) (w : World)
  : list Row.BookingRow :=
  let date_prefix := Py.split_T_head (Row.d_date booking_data) in
  filter (fun r => String.eqb (Row.bus_id r) (Row.d_bus_id booking_data)
                   && String.eqb (Row.seat_number r)
                        (Row.d_seat_number booking_data)
                   && String.eqb (Row.status r) "CONFIRMED"
                   && date_between date_prefix
                        (date_prefix ++ "T23:59:59") r)
         (bookings w).

Definition create_booking (booking_data : Row.BookingData)
  : M (Py.outcome (option Row.BookingRow)) :=
  fun w =>
    match existing booking_data w with
    | _ :: _ =>
        (Py.Raise ("Seat " ++ Row.d_seat_number booking_data
                   ++ " is already booked."), w)
    | [] =>
        let (created, w') := insert_booking booking_data w in
        (Py.Return created, w')
    end.

Definition cancel_booking (booking_id : string) : M bool :=
  fun w =>
    (true,
     set_bookings
       (map (fun r => if String.eqb (Row.id r) booking_id
                      then set_status "CANCELLED" r else r)
            (bookings w)) w).

Definition delete_booking (booking_id : string) : M bool :=
  fun w =>
    (true,
     set_bookings
       (filter (fun r => negb (String.eqb (Row.id r) booking_id))
               (bookings w)) w).

(** [.single()]: the row when exactly one matches; [None] stands for the
    error raised otherwise. *)
Definition single {A : Type} (rows : list A) : option A :=
  match rows with
  | [row] => Some row
  | _ => None
  end.

(** The error of [.single()] is caught and [None] returned. *)
Definition get_user_by_id (user_id : string) : M (option Row.ProfileRow) :=
  fun w =>
    (single (filter (fun p => String.eqb (Row.p_id p) user_id) (profiles w)),
     w).

Definition get_all_users : M (list Row.ProfileRow) :=
  fun w => (profiles w, w).

Definition get_users_by_role (role : string) : M (list Row.ProfileRow) :=
  fun w => (filter (fun p => String.eqb (Row.p_role p) role) (profiles w), w).

Definition get_bus_by_id (bus_id : string) : M (option Row.BusRow) :=
  fun w =>
    (single (filter (fun b => String.eqb (Row.b_id b) bus_id) (buses w)), w).

(** [.eq('driver_id', driver_id)]: a bus without driver matches no id. *)
Definition get_buses_by_driver (driver_id : string) : M (list Row.BusRow) :=
  fun w =>
    (filter (fun b => match Row.b_driver_id b with
                      | Some d => String.eqb d driver_id
                      | None => false
                      end) (buses w),
     w).

Definition apply_patch (bus_data : Row.BusPatch) (b : Row.BusRow)
  : Row.BusRow :=
  let put {A : Type} (o : option A) (old : A) : A :=
    match o with Some v => v | None => old end in
  Row.mkBusRow (Row.b_id b)
    (put (Row.set_name bus_data) (Row.b_name b))
    (put (Row.set_route bus_data) (Row.b_route b))
    (put (Row.set_total_seats bus_data) (Row.b_total_seats b))
    (put (Row.set_driver_id bus_data) (Row.b_driver_id b))
    (put (Row.set_price bus_data) (Row.b_price b))
    (put (Row.set_status bus_data) (Row.b_status b)).

(** The rows of that id which the database lets the client update are
    written, and come back as [response.data].  When none was written, the
    bus is looked up with [.single()]: a bus found is returned as it is
    stored, although nothing was updated; otherwise [.single()] raises, and
    the text of that error, free of '42501' and of 'row-level security', is
    passed on. *)
Definition update_bus (bus_id : string) (bus_data : Row.BusPatch)
  : M (Py.outcome (option Row.BusRow)) :=
  fun w =>
    let written b := String.eqb (Row.b_id b) bus_id && may_update_bus w b in
    match map (apply_patch bus_data) (filter written (buses w)) with
    | updated :: _ =>
        (Py.Return (Some updated),
         mkWorld (bookings w)
           (map (fun b => if written b then apply_patch bus_data b else b)
                (buses w))
           (profiles w) (accounts w) (next_id w) (clock w) (ticks w)
           (may_update_bus w))
    | [] =>
        match single (filter (fun b => String.eqb (Row.b_id b) bus_id)
                             (buses w)) with
        | Some check => (Py.Return (Some check), w)
        | None => (Py.Raise ("Failed to update bus: " ++ single_row_error), w)
        end
    end.

(** [sign_up] refuses an email that is registered already, with an error
    that tells so; a new identity gets an id of its own, and the trigger of
    the database writes its profile from the name and role sent along.  The
    dictionary returned is made from the arguments. *)
Definition register (name email password role : string)
  : M (Py.outcome (option Row.ProfileRow)) :=
  fun w =>
    if existsb (fun a => String.eqb (a_email a) email) (accounts w)
    then (Py.Raise "This email is already registered.", w)
    else
      let id := "user-" ++ Py.str_of_nat (length (accounts w)) in
      (Py.Return (Some (Row.mkProfileRow id email name role)),
       mkWorld (bookings w) (buses w)
         (app (profiles w) [Row.mkProfileRow id email name role])
         (app (accounts w) [mkAccount id email password])
         (next_id w) (clock w) (ticks w) (may_update_bus w)).

Definition create_driver (name email password : string)
  : M (Py.outcome (option Row.ProfileRow)) :=
  register name email password "DRIVER".

End SupabaseService.

(** ** app/controllers/booking_controller.py *)

Module BookingController.

Import Backend.

(** An entry of the seat layout. *)
Record Seat := mkSeat {
  number : string;
  row : string;
  position : nat;
  isOccupied : bool;
  isLastRow : bool }.

Definition get_user_bookings (user_id : string) : M (list Booking.t) :=
  booking_data_list <- SupabaseService.get_bookings_by_user user_id ;;
  ret (map Booking.from_dict booking_data_list).

Definition get_confirmed_bookings (user_id : string) : M (list Booking.t) :=
  all_bookings <- get_user_bookings user_id ;;
  ret (filter Booking.isConfirmed all_bookings).

(** [if not date_str] also catches the empty string. *)
Definition get_occupied_seats (bus_id : string) (date_str : option string)
  : M (list string) :=
  date_str <- match date_str with
              | Some s => if Py.truthy date_str then ret s
                          else t <- now ;; ret (Datetime.isoformat t)
              | None => t <- now ;; ret (Datetime.isoformat t)
              end ;;
  bookings <- SupabaseService.get_bus_bookings_for_date bus_id date_str ;;
  ret (map Row.seat_number bookings).

Definition get_seat_layout (bus_id : string) (date_str : option string)
  : M (list Seat) :=
  occupied_seats <- get_occupied_seats bus_id date_str ;;
  ret (app
         (flat_map
            (fun row =>
               map (fun seat_num =>
                      let seat_label := row ++ Py.str_of_nat seat_num in
                      mkSeat seat_label row seat_num
                             (Py.str_in seat_label occupied_seats) false)
                   (Py.range1 Config.SEATS_PER_ROW))
            Config.SEAT_ROWS)
         (map (fun seat_num =>
                 let seat_label := Config.LAST_ROW ++ Py.str_of_nat seat_num in
                 mkSeat seat_label Config.LAST_ROW seat_num
                        (Py.str_in seat_label occupied_seats) true)
              (Py.range1 Config.LAST_ROW_SEATS))).

(** The price is an [int] ([:type price: int]), on which [int(price)] is the
    identity. *)
Definition create_booking (user_id bus_id seat_number source destination
                           : string) (price : Z)
  : M (option Booking.t * option string) :=
  t <- now ;;
  let booking_data :=
    Row.mkBookingData user_id bus_id seat_number source destination
      (Datetime.isoformat t) price Config.BOOKING_STATUS_CONFIRMED in
  created <- SupabaseService.create_booking booking_data ;;
  match created with
  | Py.Return (Some created_data) =>
      ret (Some (Booking.from_dict created_data), None)
  | Py.Return None => ret (None, Some "Failed to create booking.")
  | Py.Raise e => ret (None, Some e)
  end.

(** The body of the [for] loop of [create_multiple_bookings], with the two
    lists it appends to. *)
Fixpoint book_each (user_id bus_id : string) (seat_numbers : list string)
    (source destination : string) (price_per_seat : Z)
    (successful_bookings : list Booking.t) (errors : list string)
  : M (list Booking.t * list string) :=
  match seat_numbers with
  | [] => ret (successful_bookings, errors)
  | seat_number :: rest =>
      r <- create_booking user_id bus_id seat_number source destination
             price_per_seat ;;
      match r with
      | (Some booking, _) =>
          book_each user_id bus_id rest source destination price_per_seat
            (app successful_bookings [booking]) errors
      | (None, error) =>
          book_each user_id bus_id rest source destination price_per_seat
            successful_bookings
            (app errors
                 ["Seat " ++ seat_number ++ ": "
                  ++ match error with Some e => e | None => "None" end])
      end
  end.

Definition create_multiple_bookings (user_id bus_id : string)
    (seat_numbers : list string) (source destination : string)
    (price_per_seat : Z)
  : M (list Booking.t * list string) :=
  if Config.MAX_SEATS_PER_BOOKING <? length seat_numbers
  then ret ([], ["Cannot book more than "
                 ++ Py.str_of_nat Config.MAX_SEATS_PER_BOOKING
                 ++ " seats at once."])
  else book_each user_id bus_id seat_numbers source destination
         price_per_seat [] [].

(** The same two methods for a price of any type, as a route hands it over:
    [int(price)] is evaluated once the clock has been read, outside the
    [try], and what it raises is caught nowhere. *)
Module Untyped.

Section Price.

Variable int_of_str : string -> Py.outcome Z.

Definition create_booking (user_id bus_id seat_number source destination
                           : string) (price : Py.value)
  : M (Py.outcome (option Booking.t * option string)) :=
  t <- now ;;
  match Py.int_ int_of_str price with
  | Py.Raise e => ret (Py.Raise e)
  | Py.Return price =>
      let booking_data :=
        Row.mkBookingData user_id bus_id seat_number source destination
          (Datetime.isoformat t) price Config.BOOKING_STATUS_CONFIRMED in
      created <- SupabaseService.create_booking booking_data ;;
      match created with
      | Py.Return (Some created_data) =>
          ret (Py.Return (Some (Booking.from_dict created_data), None))
      | Py.Return None =>
          ret (Py.Return (None, Some "Failed to create booking."))
      | Py.Raise e => ret (Py.Return (None, Some e))
      end
  end.

Fixpoint book_each (user_id bus_id : string) (seat_numbers : list string)
    (source destination : string) (price_per_seat : Py.value)
    (successful_bookings : list Booking.t) (errors : list string)
  : M (Py.outcome (list Booking.t * list string)) :=
  match seat_numbers with
  | [] => ret (Py.Return (successful_bookings, errors))
  | seat_number :: rest =>
      r <- create_booking user_id bus_id seat_number source destination
             price_per_seat ;;
      match r with
      | Py.Raise e => ret (Py.Raise e)
      | Py.Return (Some booking, _) =>
          book_each user_id bus_id rest source destination price_per_seat
            (app successful_bookings [booking]) errors
      | Py.Return (None, error) =>
          book_each user_id bus_id rest source destination price_per_seat
            successful_bookings
            (app errors
                 ["Seat " ++ seat_number ++ ": "
                  ++ match error with Some e => e | None => "None" end])
      end
  end.

Definition create_multiple_bookings (user_id bus_id : string)
    (seat_numbers : list string) (source destination : string)
    (price_per_seat : Py.value)
  : M (Py.outcome (list Booking.t * list string)) :=
  if Config.MAX_SEATS_PER_BOOKING <? length seat_numbers
  then ret (Py.Return ([], ["Cannot book more than "
                            ++ Py.str_of_nat Config.MAX_SEATS_PER_BOOKING
                            ++ " seats at once."]))
  else book_each user_id bus_id seat_numbers source destination
         price_per_seat [] [].

End Price.

End Untyped.

Definition cancel_booking (booking_id user_id : string)
  : M (bool * option string) :=
  user_bookings <- get_user_bookings user_id ;;
  let booking_ids := map Booking.id user_bookings in
  if negb (Py.str_in booking_id booking_ids)
  then ret (false, Some "Booking not found or access denied.")
  else
    success <- SupabaseService.cancel_booking booking_id ;;
    if success then ret (true, None)
    else ret (false, Some "Failed to cancel booking.").

Definition delete_booking (booking_id user_id : string)
  : M (bool * option string) :=
  user_bookings <- get_user_bookings user_id ;;
  let booking_ids := map Booking.id user_bookings in
  if negb (Py.str_in booking_id booking_ids)
  then ret (false, Some "Booking not found or access denied.")
  else
    success <- SupabaseService.delete_booking booking_id ;;
    if success then ret (true, None)
    else ret (false, Some "Failed to delete booking.").

End BookingController.

(** ** app/controllers/bus_controller.py *)

Module BusController.

Import Backend.

Definition get_all_buses : M (list Bus.t) :=
  bus_data_list <- SupabaseService.get_all_buses ;;
  ret (map Bus.from_dict bus_data_list).

Definition get_active_buses : M (list Bus.t) :=
  all_buses <- get_all_buses ;;
  ret (filter Bus.isActive all_buses).

Definition search_buses (source destination : string) : M (list Bus.t) :=
  all_buses <- get_active_buses ;;
  ret (filter (fun bus => Bus.is_valid_trip bus source destination)
              all_buses).

Definition get_bus_by_id (bus_id : string) : M (option Bus.t) :=
  bus_data <- SupabaseService.get_bus_by_id bus_id ;;
  match bus_data with
  | Some data => ret (Some (Bus.from_dict data))
  | None => ret None
  end.

Definition get_buses_for_driver (driver_id : string) : M (list Bus.t) :=
  bus_data_list <- SupabaseService.get_buses_by_driver driver_id ;;
  ret (map Bus.from_dict bus_data_list).

Definition assign_driver (bus_id driver_id : string)
  : M (bool * option string) :=
  result <- SupabaseService.update_bus bus_id
              (Row.mkBusPatch None None None (Some (Some driver_id)) None
                 None) ;;
  match result with
  | Py.Return (Some _) => ret (true, None)
  | Py.Return None =>
      ret (false, Some "Failed to assign driver. Update returned no result.")
  | Py.Raise e => ret (false, Some e)
  end.

Definition get_unassigned_buses : M (list Bus.t) :=
  all_buses <- get_all_buses ;;
  ret (filter (fun bus => negb (Bus.hasDriver bus)) all_buses).

Definition _get_all_drivers : M (list User.t) :=
  driver_data_list <- SupabaseService.get_users_by_role "DRIVER" ;;
  ret (map User.from_dict driver_data_list).

(** One entry per bus: the bus and the driver found for it, if any. *)
Definition get_bus_with_driver_info : M (list (Bus.t * option User.t)) :=
  buses <- get_all_buses ;;
  drivers <- _get_all_drivers ;;
  let driver_map := map (fun d => (User.id d, d)) drivers in
  ret (map (fun bus =>
              (bus,
               match Bus.driver_id bus with
               | Some driver_id =>
                   if Py.truthy (Some driver_id)
                   then Py.dict_get driver_id driver_map
                   else None
               | None => None
               end))
           buses).

End BusController.

(** ** app/controllers/user_controller.py *)

Module UserController.

Import Backend.

(** The dictionary returned by [get_user_statistics]. *)
Record Statistics := mkStatistics {
  total_users : nat;
  passengers : nat;
  drivers : nat;
  admins : nat }.

Definition get_all_users : M (list User.t) :=
  user_data_list <- SupabaseService.get_all_users ;;
  ret (map User.from_dict user_data_list).

Definition get_users_by_role (role : string) : M (list User.t) :=
  user_data_list <- SupabaseService.get_users_by_role role ;;
  ret (map User.from_dict user_data_list).

Definition get_all_drivers : M (list User.t) :=
  driver_data_list <- SupabaseService.get_users_by_role Config.DRIVER_ROLE ;;
  ret (map User.from_dict driver_data_list).

Definition get_all_passengers : M (list User.t) :=
  user_data_list <- SupabaseService.get_users_by_role Config.USER_ROLE ;;
  ret (map User.from_dict user_data_list).

Definition get_user_by_id (user_id : string) : M (option User.t) :=
  user_data <- SupabaseService.get_user_by_id user_id ;;
  match user_data with
  | Some data => ret (Some (User.from_dict data))
  | None => ret None
  end.

(** [sum(1 for u in all_users if u.role == role)] *)
Definition count_role (role : string) (all_users : list User.t) : nat :=
  length (filter (fun u => String.eqb (User.role u) role) all_users).

Definition get_user_statistics : M Statistics :=
  all_users <- get_all_users ;;
  let user_count := count_role Config.USER_ROLE all_users in
  let driver_count := count_role Config.DRIVER_ROLE all_users in
  let admin_count := count_role Config.ADMIN_ROLE all_users in
  ret (mkStatistics (length all_users) user_count driver_count admin_count).

Definition _validate_driver_input (name email password : string)
  : option string :=
  if String.eqb name "" || (Py.len (Py.strip name) <? 2)
  then Some "Name must be at least 2 characters long."
  else if String.eqb email "" || negb (Py.char_in "@" email)
  then Some "Please enter a valid email address."
  else if String.eqb password "" || (Py.len password <? 6)
  then Some "Password must be at least 6 characters long."
  else None.

Definition create_driver (name email password : string)
  : M (option User.t * option string) :=
  match _validate_driver_input name email password with
  | Some validation_error => ret (None, Some validation_error)
  | None =>
      driver_data <- SupabaseService.create_driver name email password ;;
      match driver_data with
      | Py.Return (Some data) => ret (Some (User.from_dict data), None)
      | Py.Return None => ret (None, Some "Failed to create driver account.")
      | Py.Raise e => ret (None, Some e)
      end
  end.

End UserController.

(** ** app/controllers/auth_controller.py *)

Module AuthController.

Import Backend.

(** [role_mapping.get(portal_type.lower())] *)
Definition _get_expected_role (portal_type : string) : option string :=
  let role_mapping := [("user", Config.USER_ROLE);
                       ("driver", Config.DRIVER_ROLE);
                       ("admin", Config.ADMIN_ROLE)] in
  match find (fun kv => String.eqb (fst kv) (Py.lower portal_type))
             role_mapping with
  | Some kv => Some (snd kv)
  | None => None
  end.

Definition login (email password portal_type : string) (w : World)
  : option User.t * option string :=
  match SupabaseService.login email password w with
  | Py.Raise e => (None, Some e)
  | Py.Return None => (None, Some "Invalid email or password.")
  | Py.Return (Some user_data) =>
      let user := User.from_dict user_data in
      let expected_role := _get_expected_role portal_type in
      if Py.truthy expected_role
         && negb (String.eqb (User.role user)
                    match expected_role with Some r => r | None => "" end)
      then (None, Some ("Access denied. This portal is for "
                        ++ portal_type ++ "s only."))
      else (Some user, None)
  end.

Definition _validate_registration_input (name email password : string)
  : option string :=
  if String.eqb name "" || (Py.len (Py.strip name) <? 2)
  then Some "Name must be at least 2 characters long."
  else if String.eqb email "" || negb (Py.char_in "@" email)
  then Some "Please enter a valid email address."
  else if String.eqb password "" || (Py.len password <? 6)
  then Some "Password must be at least 6 characters long."
  else None.

(** The service is called with its default role, 'USER'. *)
Definition register (name email password : string)
  : M (option User.t * option string) :=
  match _validate_registration_input name email password with
  | Some validation_error => ret (None, Some validation_error)
  | None =>
      user_data <- SupabaseService.register name email password "USER" ;;
      match user_data with
      | Py.Return (Some data) => ret (Some (User.from_dict data), None)
      | Py.Return None =>
          ret (None, Some "Registration failed. Please try again.")
      | Py.Raise e => ret (None, Some e)
      end
  end.

End AuthController.

(** ** app/views

    The routes, as functions of the signed-in user, of what the request
    carries and of the world; what they answer is kept as a value. *)

Module Flask.

Inductive response : Type :=
| redirect (endpoint : string)
| render_template (template : string) (portal_type : option string)
| json_error (status : nat) (error : string)
| json_booked (message : string) (bookings : list Booking.t)
              (total_price : Z) (partial_errors : option (list string))
| json_message (message : string).

(** A request that has been handled: the response, the messages flashed and
    the user signed in by [login_user], if any. *)
Record handled := mkHandled {
  resp : response;
  flashed : list (string * string);
  signed_in : option User.t }.

End Flask.

Module AuthViews.

Import Backend Flask.

(** A request to the login route: a GET, or a POST with its form fields. *)
Inductive request : Type :=
| GET
| POST (email password : option string).

Definition _redirect_to_portal (role : string) : response :=
  if String.eqb role "ADMIN" then redirect "admin_portal.dashboard"
  else if String.eqb role "DRIVER" then redirect "driver_portal.dashboard"
  else redirect "user_portal.dashboard".

Definition login (current_user : option User.t) (portal_type : string)
    (req : request) (w : World) : handled :=
  match current_user with
  | Some user => mkHandled (_redirect_to_portal (User.role user)) [] None
  | None =>
      if negb (Py.str_in portal_type ["user"; "driver"; "admin"])
      then mkHandled (redirect "landing.index")
             [("Invalid portal type.", "error")] None
      else
        match req with
        | POST email password =>
            let email :=
              Py.strip match email with Some e => e | None => "" end in
            let password :=
              match password with Some p => p | None => "" end in
            let (user, error) :=
              AuthController.login email password portal_type w in
            if Py.truthy error
            then mkHandled
                   (render_template "auth/login.html" (Some portal_type))
                   [(match error with Some e => e | None => "" end,
                     "error")] None
            else
              match user with
              | Some user =>
                  mkHandled (_redirect_to_portal (User.role user))
                    [("Welcome back, " ++ User.first_name user ++ "!",
                      "success")] (Some user)
              | None =>
                  mkHandled
                    (render_template "auth/login.html" (Some portal_type))
                    [] None
              end
        | GET =>
            mkHandled (render_template "auth/login.html" (Some portal_type))
              [] None
        end
  end.

End AuthViews.

Module UserPortal.

Import Backend Flask.

(** The JSON body of a booking request, with the bus, the stops and the
    seat labels as the texts that the booking page sends, and the price as
    whatever value the body carries; a key that is absent reads as [None],
    and [seats] as the empty list. *)
Record BookingRequest := mkBookingRequest {
  bus_id : option string;
  seats : list string;
  source : option string;
  destination : option string;
  price : Py.value }.

(** [all([bus_id, seat_numbers, source, destination, price_per_seat])] *)
Definition all_present (data : BookingRequest) : bool :=
  Py.truthy (bus_id data)
  && negb (match seats data with [] => true | _ :: _ => false end)
  && Py.truthy (source data)
  && Py.truthy (destination data)
  && Py.bool_ (price data).

Section Book.

Variable int_of_str : string -> Py.outcome Z.

(** The route below the sign-in guard, for the user signed in.  An
    exception of the controller leaves the route as it is. *)
Definition create_booking (current_user : User.t) (data : BookingRequest)
  : M (Py.outcome handled) :=
  if negb (User.isUser current_user)
  then ret (Py.Return
              (mkHandled (json_error 403 "Unauthorized")
                 [("Access denied. This portal is for passengers only.",
                   "error")] None))
  else if negb (all_present data)
  then ret (Py.Return
              (mkHandled
                 (json_error 400 "Missing required booking information.")
                 [] None))
  else
    let text o := match o with Some s => s | None => "" end in
    r <- BookingController.Untyped.create_multiple_bookings int_of_str
           (User.id current_user) (text (bus_id data)) (seats data)
           (text (source data)) (text (destination data)) (price data) ;;
    match r with
    | Py.Raise e => ret (Py.Raise e)
    | Py.Return ([], first_error :: _) =>
        ret (Py.Return (mkHandled (json_error 400 first_error) [] None))
    | Py.Return (successful_bookings, errors) =>
        ret (Py.Return
               (mkHandled
                  (json_booked
                     ("Successfully booked "
                      ++ Py.str_of_nat (length successful_bookings)
                      ++ " seat(s).")
                     successful_bookings
                     (fold_left Z.add
                        (map Booking.price successful_bookings) 0%Z)
                     match errors with
                     | [] => None
                     | _ :: _ => Some errors
                     end)
                  [] None))
    end.

End Book.

(** The route [/cancel/<booking_id>], for the user signed in; it calls
    [delete_booking]. *)
Definition cancel_booking (current_user : User.t) (booking_id : string)
  : M handled :=
  if negb (User.isUser current_user)
  then ret (mkHandled (json_error 403 "Unauthorized")
              [("Access denied. This portal is for passengers only.",
                "error")] None)
  else
    r <- BookingController.delete_booking booking_id
           (User.id current_user) ;;
    match r with
    | (true, _) =>
        ret (mkHandled (json_message "Ticket cancelled successfully.") []
               None)
    | (false, error) =>
        ret (mkHandled
               (json_error 400
                  (if Py.truthy error
                   then match error with Some e => e | None => "" end
                   else "Failed to cancel booking."))
               [] None)
    end.

End UserPortal.

(** ** Vocabulary of the specification *)

Module Ledger.

(** The calendar day of a stored journey date: its day prefix. *)
Definition calendar_day (r : Row.BookingRow) : string :=
  Py.split_T_head (Row.date r).

Definition confirmed (r : Row.BookingRow) : bool :=
  String.eqb (Row.status r) "CONFIRMED".

(** The CONFIRMED bookings of a seat of a bus on a calendar day. *)
Definition confirmed_on (bus seat day : string) (bs : list Row.BookingRow)
  : list Row.BookingRow :=
  filter (fun r => String.eqb (Row.bus_id r) bus
                   && String.eqb (Row.seat_number r) seat
                   && confirmed r
                   && String.eqb (calendar_day r) day) bs.

(** At most one CONFIRMED booking for any bus, seat label and day. *)
Definition no_double_booking (bs : list Row.BookingRow) : Prop :=
  forall bus seat day, length (confirmed_on bus seat day bs) <= 1.

(** Every stored date was written by the clock, outside the last second of
    its day. *)
Definition stamped_before_final_second (bs : list Row.BookingRow) : Prop :=
  forall r, In r bs ->
    exists t, Datetime.well_formed t /\ Datetime.final_second t = false /\
              Row.date r = Datetime.isoformat t.

(** The clock only shows well-formed readings outside the last second. *)
Definition clock_before_final_second (w : Backend.World) : Prop :=
  forall n, Datetime.well_formed (Backend.clock w n) /\
            Datetime.final_second (Backend.clock w n) = false.

(** A world whose clock stays clear of the last second and whose ledger
    holds no double booking. *)
Definition sound (w : Backend.World) : Prop :=
  clock_before_final_second w /\
  stamped_before_final_second (Backend.bookings w) /\
  no_double_booking (Backend.bookings w).

(** The requests that change the ledger. *)
Inductive request : Type :=
| CreateBooking (user_id bus_id seat_number source destination : string)
                (price : Z)
| CreateMultipleBookings (user_id bus_id : string)
                         (seat_numbers : list string)
                         (source destination : string) (price_per_seat : Z)
| CancelBooking (booking_id user_id : string)
| DeleteBooking (booking_id user_id : string).

Definition serve (q : request) (w : Backend.World) : Backend.World :=
  match q with
  | CreateBooking u b s src dst p =>
      snd (BookingController.create_booking u b s src dst p w)
  | CreateMultipleBookings u b ss src dst p =>
      snd (BookingController.create_multiple_bookings u b ss src dst p w)
  | CancelBooking i u => snd (BookingController.cancel_booking i u w)
  | DeleteBooking i u => snd (BookingController.delete_booking i u w)
  end.

(** Requests served one after the other. *)
Definition run (qs : list request) (w : Backend.World) : Backend.World :=
  fold_left (fun w q => serve q w) qs w.

(** The world of a deployment that has not taken a booking yet. *)
Definition fresh (buses : list Row.BusRow) (clock : nat -> Datetime.datetime)
  : Backend.World :=
  Backend.mkWorld [] buses [] [] 0 clock 0 (fun _ => true).

Definition set_buses (bs : list Row.BusRow) (w : Backend.World)
  : Backend.World :=
  Backend.mkWorld (Backend.bookings w) bs (Backend.profiles w)
    (Backend.accounts w) (Backend.next_id w) (Backend.clock w)
    (Backend.ticks w) (Backend.may_update_bus w).

(** The labels of the 45 seats, in layout order. *)
Definition seat_labels : list string :=
  ["A1"; "A2"; "A3"; "A4"; "B1"; "B2"; "B3"; "B4"; "C1"; "C2"; "C3"; "C4";
   "D1"; "D2"; "D3"; "D4"; "E1"; "E2"; "E3"; "E4"; "F1"; "F2"; "F3"; "F4";
   "G1"; "G2"; "G3"; "G4"; "H1"; "H2"; "H3"; "H4"; "I1"; "I2"; "I3"; "I4";
   "J1"; "J2"; "J3"; "J4"; "K1"; "K2"; "K3"; "K4"; "K5"].

(** The dictionary built by [create_booking] when the clock reads [t]. *)
Definition booking_data_at (user_id bus_id seat_number source destination
                            : string) (price : Z) (t : Datetime.datetime)
  : Row.BookingData :=
  Row.mkBookingData user_id bus_id seat_number source destination
    (Datetime.isoformat t) price Config.BOOKING_STATUS_CONFIRMED.

(** The layout entry of a seat label, given the occupied labels: the row is
    the letter of the label, the position its digit. *)
Definition seat_entry (occupied : list string) (label : string)
  : BookingController.Seat :=
  BookingController.mkSeat label (String.substring 0 1 label)
    match String.get 1 label with
    | Some c => nat_of_ascii c - 48
    | None => 0
    end
    (Py.str_in label occupied)
    (String.eqb (String.substring 0 1 label) "K").

Definition is_some {A} (o : option A) : bool :=
  match o with Some _ => true | None => false end.

(** The bus row after a driver has been written to it. *)
Definition with_driver (driver_id : string) (b : Row.BusRow) : Row.BusRow :=
  Row.mkBusRow (Row.b_id b) (Row.b_name b) (Row.b_route b)
    (Row.b_total_seats b) (Some driver_id) (Row.b_price b) (Row.b_status b).

End Ledger.

(** ** Concrete runs *)

Module Scenario.

Import Datetime.

Definition route_uttara : list string := ["Uttara"; "Banani"; "Farmgate"].

Definition red_express : Row.BusRow :=
  Row.mkBusRow "bus1" "Red Express 01" route_uttara 40 None 50 "ACTIVE".

Definition in_workshop : Row.BusRow :=
  Row.mkBusRow "bus9" "Green Line 09" route_uttara 40 None 50 "MAINTENANCE".

(** 15 December 2024, 10:00:00. *)
Definition morning : datetime := mkDatetime 2024 12 15 10 0 0 0.

(** Two readings within the last second of 15 December 2024. *)
Definition late1 : datetime := mkDatetime 2024 12 15 23 59 59 200000.
Definition late2 : datetime := mkDatetime 2024 12 15 23 59 59 700000.

(** Readings on either side of midnight. *)
Definition before_midnight : datetime := mkDatetime 2024 12 15 23 59 58 0.
Definition after_midnight : datetime := mkDatetime 2024 12 16 0 0 1 0.

(** New Year's Day 2025, 08:30:00. *)
Definition new_year : datetime := mkDatetime 2025 1 1 8 30 0 0.

Definition clock_morning : nat -> datetime := fun _ => morning.

Definition clock_new_year : nat -> datetime := fun _ => new_year.

Definition clock_final_second : nat -> datetime :=
  fun n => match n with 0 => late1 | _ => late2 end.

Definition clock_midnight : nat -> datetime :=
  fun n => match n with 0 => before_midnight | _ => after_midnight end.

(** The ledger after passenger u1 took seat A1 of bus1 in the morning, and
    after passenger u2 then took seat A2. *)
Definition booked_once : Backend.World :=
  snd (BookingController.create_booking "u1" "bus1" "A1" "Uttara" "Farmgate"
         50 (Ledger.fresh [red_express; in_workshop] clock_morning)).

Definition booked_twice : Backend.World :=
  snd (BookingController.create_booking "u2" "bus1" "A2" "Banani" "Farmgate"
         50 booked_once).

(** A fleet of two buses, one driven by a driver, one handed to a
    passenger, with the profiles and identities of both users. *)
Definition karim : Row.ProfileRow :=
  Row.mkProfileRow "id-3" "karim@example.com" "Karim Mia" "DRIVER".

Definition rahim : Row.ProfileRow :=
  Row.mkProfileRow "id-7" "rahim@example.com" "Rahim Khan" "USER".

Definition staffed : Backend.World :=
  Backend.mkWorld []
    [Row.mkBusRow "bus1" "Red Express 01" route_uttara 40 (Some "id-3") 50
       "ACTIVE";
     Row.mkBusRow "bus2" "Blue Line 02" route_uttara 40 (Some "id-7") 50
       "ACTIVE"]
    [karim; rahim]
    [Backend.mkAccount "id-3" "karim@example.com" "driver1";
     Backend.mkAccount "id-7" "rahim@example.com" "secret1"]
    0 clock_morning 0 (fun _ => true).

(** A fleet that the database does not let the client update. *)
Definition read_only_fleet : Backend.World :=
  Backend.mkWorld [] [red_express; in_workshop] [] [] 0 clock_morning 0
    (fun _ => false).

End Scenario.

(** * Properties *)

(** ** Text order and the day window *)

Section TextOrder.

Lemma compare_refl (s : string) : String.compare s s = Eq.
Proof.
  induction s as [|c s IH]; simpl; [reflexivity|].
  unfold Ascii.compare. now rewrite N.compare_refl.
Qed.

(** Two texts with equally long heads are ordered by the heads, and by the
    tails when the heads agree. *)
Lemma compare_app_same_length (a b x y : string) :
  String.length a = String.length b ->
  String.compare (a ++ x) (b ++ y) =
  match String.compare a b with
  | Eq => String.compare x y
  | c => c
  end.
Proof.
  revert b. induction a as [|c a IH]; intros [|d b] Hlen; simpl in *;
    try discriminate; [reflexivity|].
  injection Hlen as Hlen.
  destruct (Ascii.compare c d); auto.
Qed.

Lemma compare_common_prefix (p x y : string) :
  String.compare (p ++ x) (p ++ y) = String.compare x y.
Proof.
  rewrite compare_app_same_length by reflexivity.
  now rewrite compare_refl.
Qed.

Lemma append_empty_r (s : string) : s ++ "" = s.
Proof. induction s; simpl; congruence. Qed.

End TextOrder.

(** ** Clock readings as text *)

Section IsoFormat.

Import Datetime.

Lemma digit_not_T (n : N) : Ascii.eqb (digit n) "T" = false.
Proof.
  unfold digit.
  pose proof (N.mod_upper_bound n 10) as Hlt.
  destruct (n mod 10)%N as [|p]; [reflexivity|].
  assert (Hp : (N.pos p < 10)%N) by (apply Hlt; discriminate).
  clear Hlt.
  repeat (destruct p as [p|p|]; try reflexivity; try lia).
Qed.

Lemma split_T_head_isoformat (t : datetime) :
  Py.split_T_head (isoformat t) = iso_date t.
Proof.
  unfold isoformat, iso_date, pad4, pad2. simpl.
  rewrite !digit_not_T. reflexivity.
Qed.

Lemma N_below_forallb (k : nat) (P : N -> bool) :
  forallb P (map N.of_nat (seq 0 k)) = true ->
  forall n, (n < N.of_nat k)%N -> P n = true.
Proof.
  intros H n Hn. rewrite forallb_forall in H. apply H.
  rewrite <- (N2Nat.id n). apply in_map, in_seq. lia.
Qed.

Lemma compare_pad2_23 (n : N) :
  (n < 24)%N ->
  String.compare (pad2 n) "23" = if (n =? 23)%N then Eq else Lt.
Proof.
  intros Hn.
  pose proof (N_below_forallb 24
    (fun n => match String.compare (pad2 n) "23", (n =? 23)%N with
              | Eq, true | Lt, false => true
              | _, _ => false
              end) eq_refl n Hn) as H.
  cbv beta in H.
  destruct (String.compare (pad2 n) "23"), (n =? 23)%N;
    congruence.
Qed.

Lemma compare_pad2_59 (n : N) :
  (n < 60)%N ->
  String.compare (pad2 n) "59" = if (n =? 59)%N then Eq else Lt.
Proof.
  intros Hn.
  pose proof (N_below_forallb 60
    (fun n => match String.compare (pad2 n) "59", (n =? 59)%N with
              | Eq, true | Lt, false => true
              | _, _ => false
              end) eq_refl n Hn) as H.
  cbv beta in H.
  destruct (String.compare (pad2 n) "59"), (n =? 59)%N;
    congruence.
Qed.

(** A time of day precedes the text ["23:59:59"] unless it lies in the last
    second of the day. *)
Lemma iso_time_before_bound (t : datetime) :
  well_formed t ->
  String.ltb (iso_time t) "23:59:59" = negb (final_second t).
Proof.
  intros (_ & _ & _ & Hh & Hm & Hs & _).
  unfold String.ltb, iso_time, final_second.
  change "23:59:59" with ("23" ++ ":" ++ "59" ++ ":" ++ "59" ++ "").
  rewrite compare_app_same_length by reflexivity.
  rewrite (compare_pad2_23 _ Hh).
  destruct (hour t =? 23)%N; [|reflexivity].
  rewrite compare_common_prefix.
  rewrite compare_app_same_length by reflexivity.
  rewrite (compare_pad2_59 _ Hm).
  destruct (minute t =? 59)%N; [|reflexivity].
  rewrite compare_common_prefix.
  rewrite compare_app_same_length by reflexivity.
  rewrite (compare_pad2_59 _ Hs).
  destruct (second t =? 59)%N; [|reflexivity].
  now destruct (microsecond t =? 0)%N.
Qed.

(** The range filter of the bookings queries, on a stamp of the clock: the
    stamp passes when it bears the day of the query and does not lie in the
    last second of that day. *)
Lemma day_window (t q : datetime) :
  well_formed t ->
  String.leb (iso_date q) (isoformat t)
  && String.ltb (isoformat t) (iso_date q ++ "T23:59:59")
  = String.eqb (iso_date t) (iso_date q) && negb (final_second t).
Proof.
  intros Hwf.
  rewrite <- (iso_time_before_bound t Hwf).
  unfold String.leb, String.ltb, isoformat.
  rewrite <- (append_empty_r (iso_date q)) at 1.
  rewrite !compare_app_same_length by reflexivity.
  rewrite (String.compare_antisym (iso_date q) (iso_date t)).
  destruct (String.eqb_spec (iso_date t) (iso_date q)) as [He|Hne].
  - rewrite He, compare_refl. cbn [CompOpp andb].
    change "T23:59:59" with ("T" ++ "23:59:59").
    now rewrite (compare_common_prefix "T").
  - destruct (String.compare (iso_date t) (iso_date q)) eqn:Hc;
      cbn [CompOpp andb]; try reflexivity.
    apply String.compare_eq_iff in Hc. contradiction.
Qed.

End IsoFormat.

Section IsoDate.

Import Datetime.

#[local] Ltac Zify.zify_post_hook ::= Z.div_mod_to_equations.

Lemma digit_inj (a b : N) :
  digit a = digit b -> (Z.of_N a mod 10 = Z.of_N b mod 10)%Z.
Proof.
  unfold digit. intros H.
  apply (f_equal N_of_ascii) in H.
  pose proof (N.mod_upper_bound a 10 ltac:(discriminate)).
  pose proof (N.mod_upper_bound b 10 ltac:(discriminate)).
  rewrite !N_ascii_embedding in H by lia.
  change 10%Z with (Z.of_N 10). rewrite <- !N2Z.inj_mod. lia.
Qed.

Lemma pad2_inj (a b : N) :
  (a < 100)%N -> (b < 100)%N -> pad2 a = pad2 b -> a = b.
Proof.
  intros Ha Hb H. injection H as H1 H0.
  apply digit_inj in H1, H0.
  rewrite !N2Z.inj_div in H1. change (Z.of_N 10) with 10%Z in H1.
  apply N2Z.inj. lia.
Qed.

Lemma pad4_inj (a b : N) :
  (a < 10000)%N -> (b < 10000)%N -> pad4 a = pad4 b -> a = b.
Proof.
  intros Ha Hb H. injection H as H3 H2 H1 H0.
  apply digit_inj in H3, H2, H1, H0.
  rewrite !N2Z.inj_div in H3, H2, H1.
  change (Z.of_N 10) with 10%Z in H1.
  change (Z.of_N 100) with 100%Z in H2.
  change (Z.of_N 1000) with 1000%Z in H3.
  apply N2Z.inj. lia.
Qed.

(** Two well-formed readings print the same date exactly when they fall on
    the same calendar day. *)
Lemma iso_date_same_day (t q : datetime) :
  well_formed t -> well_formed q ->
  (iso_date t = iso_date q <-> same_day t q).
Proof.
  intros (Hy & Hm & Hd & _) (Hy' & Hm' & Hd' & _). split.
  - unfold iso_date. intros H.
    assert (H4 : pad4 (year t) = pad4 (year q) /\
                 pad2 (month t) = pad2 (month q) /\
                 pad2 (day t) = pad2 (day q)).
    { unfold pad4, pad2 in *. simpl in H. injection H as -> -> -> -> -> -> -> ->.
      auto. }
    destruct H4 as (E1 & E2 & E3).
    repeat split; [apply pad4_inj | apply pad2_inj | apply pad2_inj];
      auto; lia.
  - intros (E1 & E2 & E3). unfold iso_date. now rewrite E1, E2, E3.
Qed.

End IsoDate.

(** ** The effect of one booking attempt *)

Section Admission.

Import Backend.

Variables (user_id bus_id seat_number source destination : string).
Variable (price : Z).

#[local] Abbreviation booking_data_at :=
  (Ledger.booking_data_at user_id bus_id seat_number source destination
     price).

Lemma create_booking_unfold (w : World) :
  BookingController.create_booking user_id bus_id seat_number source
    destination price w =
  let d := booking_data_at (clock w (ticks w)) in
  match SupabaseService.existing d w with
  | [] =>
      (Some (Booking.from_dict (new_row d (next_id w))), None,
       mkWorld (app (bookings w) [new_row d (next_id w)]) (buses w)
         (profiles w) (accounts w) (S (next_id w)) (clock w) (S (ticks w))
         (may_update_bus w))
  | _ :: _ =>
      (None, Some ("Seat " ++ seat_number ++ " is already booked."),
       snd (now w))
  end.
Proof.
  unfold BookingController.create_booking, bind, now,
    SupabaseService.create_booking, Ledger.booking_data_at.
  cbn [fst snd].
  unfold SupabaseService.existing at 1. cbn [bookings].
  fold (SupabaseService.existing
          (Row.mkBookingData user_id bus_id seat_number source destination
             (Datetime.isoformat (clock w (ticks w))) price
             Config.BOOKING_STATUS_CONFIRMED) w).
  destruct (SupabaseService.existing _ w); reflexivity.
Qed.

(** What the seat check of [create_booking] looks for. *)
Lemma existing_spec (d : Row.BookingData) (w : World) (r : Row.BookingRow) :
  In r (SupabaseService.existing d w) <->
  In r (bookings w) /\ Row.bus_id r = Row.d_bus_id d /\
  Row.seat_number r = Row.d_seat_number d /\ Ledger.confirmed r = true /\
  date_between (Py.split_T_head (Row.d_date d))
    (Py.split_T_head (Row.d_date d) ++ "T23:59:59") r = true.
Proof.
  unfold SupabaseService.existing, Ledger.confirmed.
  rewrite filter_In, !andb_true_iff, !String.eqb_eq. tauto.
Qed.

Lemma create_booking_clock (w : World) :
  clock (snd (BookingController.create_booking user_id bus_id seat_number
                source destination price w)) = clock w.
Proof.
  rewrite create_booking_unfold. cbv zeta.
  now destruct (SupabaseService.existing _ w).
Qed.

(** An attempt leaves the ledger as it is or appends one CONFIRMED row. *)
Lemma create_booking_ledger (w : World) :
  let d := booking_data_at (clock w (ticks w)) in
  bookings (snd (BookingController.create_booking user_id bus_id seat_number
                   source destination price w)) =
  match SupabaseService.existing d w with
  | [] => app (bookings w) [new_row d (next_id w)]
  | _ :: _ => bookings w
  end.
Proof.
  rewrite create_booking_unfold. cbv zeta.
  now destruct (SupabaseService.existing _ w).
Qed.

(** Away from the last second of the day, a row stamped on the day of the
    attempt is found by the seat check. *)
Lemma stamped_row_is_found (w : World) (r : Row.BookingRow)
      (t : Datetime.datetime) :
  In r (bookings w) ->
  Row.bus_id r = bus_id -> Row.seat_number r = seat_number ->
  Ledger.confirmed r = true ->
  Datetime.well_formed t -> Datetime.final_second t = false ->
  Row.date r = Datetime.isoformat t ->
  Datetime.iso_date t = Datetime.iso_date (clock w (ticks w)) ->
  In r (SupabaseService.existing (booking_data_at (clock w (ticks w))) w).
Proof.
  intros Hin Hbus Hseat Hconf Hwf Hfin Hdate Hday.
  apply existing_spec. repeat split; auto.
  unfold date_between. cbn [Ledger.booking_data_at Row.d_date].
  rewrite split_T_head_isoformat, Hdate, (day_window _ _ Hwf).
  now rewrite Hday, String.eqb_refl, Hfin.
Qed.

End Admission.

(** ** Sequential requests away from the last second of the day *)

Section Sequential.

Import Backend.

Lemma filter_map_length {A} (f : A -> bool) (g : A -> A) (l : list A) :
  (forall x, f (g x) = true -> f x = true) ->
  length (filter f (map g l)) <= length (filter f l).
Proof.
  intros Hfg. induction l as [|x l IH]; simpl; [lia|].
  destruct (f (g x)) eqn:E.
  - rewrite (Hfg _ E). simpl. lia.
  - destruct (f x); simpl; lia.
Qed.

Lemma filter_filter_length {A} (f h : A -> bool) (l : list A) :
  length (filter f (filter h l)) <= length (filter f l).
Proof.
  induction l as [|x l IH]; simpl; [lia|].
  destruct (h x), (f x) eqn:E; simpl; rewrite ?E; simpl; lia.
Qed.

Lemma create_booking_sound u b s src dst p (w : World) :
  Ledger.sound w ->
  Ledger.sound (snd (BookingController.create_booking u b s src dst p w)).
Proof.
  intros (Hclock & Hstamp & Hnodup).
  unfold Ledger.sound, Ledger.clock_before_final_second.
  rewrite create_booking_clock, create_booking_ledger. cbv zeta.
  split; [exact Hclock|].
  destruct (SupabaseService.existing _ w) eqn:Hex; [|now split].
  set (d := Ledger.booking_data_at u b s src dst p (clock w (ticks w))) in *.
  split.
  - intros r Hin. apply in_app_or in Hin as [Hin|[<-|[]]]; [now apply Hstamp|].
    exists (clock w (ticks w)). destruct (Hclock (ticks w)).
    subst d. split; [assumption|split; [assumption|reflexivity]].
  - intros bus seat day. unfold Ledger.confirmed_on.
    rewrite filter_app, length_app.
    fold (Ledger.confirmed_on bus seat day (bookings w)).
    fold (Ledger.confirmed_on bus seat day [new_row d (next_id w)]).
    destruct (Ledger.confirmed_on bus seat day [new_row d (next_id w)])
      as [|x [|]] eqn:Hnew;
      [specialize (Hnodup bus seat day); simpl; lia | |
       apply (f_equal (@length _)) in Hnew; unfold Ledger.confirmed_on in Hnew;
       pose proof (filter_length_le
         (fun r => String.eqb (Row.bus_id r) bus
                   && String.eqb (Row.seat_number r) seat
                   && Ledger.confirmed r
                   && String.eqb (Ledger.calendar_day r) day)
         [new_row d (next_id w)]) as Hle; simpl in Hle, Hnew; lia].
    destruct (Ledger.confirmed_on bus seat day (bookings w)) as [|r rs] eqn:Hold;
      [simpl; lia|exfalso].
    assert (Hr : In r (Ledger.confirmed_on bus seat day (bookings w)))
      by (rewrite Hold; now left).
    unfold Ledger.confirmed_on in Hr, Hnew.
    apply filter_In in Hr as (Hin & Hr).
    rewrite !andb_true_iff, !String.eqb_eq in Hr.
    destruct Hr as (((Hbus & Hseat) & Hconf) & Hday).
    assert (Hmatch : In x (filter
      (fun r => String.eqb (Row.bus_id r) bus
                && String.eqb (Row.seat_number r) seat
                && Ledger.confirmed r
                && String.eqb (Ledger.calendar_day r) day)
      [new_row d (next_id w)])) by (rewrite Hnew; now left).
    apply filter_In in Hmatch as ([<-|[]] & Hmatch).
    rewrite !andb_true_iff, !String.eqb_eq in Hmatch.
    destruct Hmatch as (((Hbus' & Hseat') & _) & Hday').
    cbn in Hbus', Hseat'.
    unfold Ledger.calendar_day in Hday, Hday'.
    change (Row.date (new_row d (next_id w)))
      with (Datetime.isoformat (clock w (ticks w))) in Hday'.
    rewrite split_T_head_isoformat in Hday'.
    destruct (Hstamp r Hin) as (t & Hwf & Hfin & Hdate).
    rewrite Hdate, split_T_head_isoformat in Hday.
    assert (Hfound : In r (SupabaseService.existing d w)).
    { apply stamped_row_is_found with (t := t); auto; congruence. }
    rewrite Hex in Hfound. destruct Hfound.
Qed.

Lemma book_each_sound u b seats src dst p acc errs (w : World) :
  Ledger.sound w ->
  Ledger.sound (snd (BookingController.book_each u b seats src dst p acc
                       errs w)).
Proof.
  revert acc errs w.
  induction seats as [|s rest IH]; intros acc errs w Hw; [exact Hw|].
  cbn [BookingController.book_each]. unfold bind.
  pose proof (create_booking_sound u b s src dst p w Hw) as Hw1.
  destruct (BookingController.create_booking u b s src dst p w)
    as [[[booking|] error] w1]; cbn [snd] in Hw1; now apply IH.
Qed.

Lemma create_multiple_bookings_sound u b seats src dst p (w : World) :
  Ledger.sound w ->
  Ledger.sound (snd (BookingController.create_multiple_bookings u b seats
                       src dst p w)).
Proof.
  intros Hw. unfold BookingController.create_multiple_bookings.
  destruct (Config.MAX_SEATS_PER_BOOKING <? length seats); [exact Hw|].
  now apply book_each_sound.
Qed.

(** Changing the status of rows or removing rows keeps a sound world
    sound. *)
Lemma fewer_rows_sound (w : World) (bs : list Row.BookingRow) :
  Ledger.sound w ->
  (forall r, In r bs -> exists r', In r' (bookings w) /\
                                   Row.date r = Row.date r') ->
  (forall bus seat day,
      length (Ledger.confirmed_on bus seat day bs)
      <= length (Ledger.confirmed_on bus seat day (bookings w))) ->
  Ledger.sound (set_bookings bs w).
Proof.
  intros (Hclock & Hstamp & Hnodup) Hdates Hfewer.
  split; [exact Hclock|split].
  - intros r Hin. destruct (Hdates r Hin) as (r' & Hin' & ->).
    now apply Hstamp.
  - intros bus seat day. cbn [bookings set_bookings].
    specialize (Hfewer bus seat day). specialize (Hnodup bus seat day). lia.
Qed.

Lemma cancel_booking_sound i u (w : World) :
  Ledger.sound w ->
  Ledger.sound (snd (BookingController.cancel_booking i u w)).
Proof.
  intros Hw. unfold BookingController.cancel_booking,
    BookingController.get_user_bookings, SupabaseService.get_bookings_by_user,
    bind, ret. cbv beta iota zeta.
  destruct (negb _); [exact Hw|].
  unfold SupabaseService.cancel_booking. cbv beta iota zeta. cbn [snd].
  apply fewer_rows_sound; [exact Hw| |].
  - intros r Hin. apply in_map_iff in Hin as (r' & <- & Hin).
    exists r'. split; [exact Hin|]. now destruct (String.eqb (Row.id r') i).
  - intros bus seat day. apply filter_map_length. intros r.
    destruct (String.eqb (Row.id r) i); [|auto].
    unfold Ledger.confirmed. cbn. now rewrite andb_false_r.
Qed.

Lemma delete_booking_sound i u (w : World) :
  Ledger.sound w ->
  Ledger.sound (snd (BookingController.delete_booking i u w)).
Proof.
  intros Hw. unfold BookingController.delete_booking,
    BookingController.get_user_bookings, SupabaseService.get_bookings_by_user,
    bind, ret. cbv beta iota zeta.
  destruct (negb _); [exact Hw|].
  unfold SupabaseService.delete_booking. cbv beta iota zeta. cbn [snd].
  apply fewer_rows_sound; [exact Hw| |].
  - intros r Hin. apply filter_In in Hin as (Hin & _). now exists r.
  - intros bus seat day. apply filter_filter_length.
Qed.

Lemma serve_sound (q : Ledger.request) (w : World) :
  Ledger.sound w -> Ledger.sound (Ledger.serve q w).
Proof.
  destruct q; cbn [Ledger.serve];
    auto using create_booking_sound, create_multiple_bookings_sound,
      cancel_booking_sound, delete_booking_sound.
Qed.

Lemma run_sound (qs : list Ledger.request) (w : World) :
  Ledger.sound w -> Ledger.sound (Ledger.run qs w).
Proof.
  revert w. induction qs as [|q qs IH]; intros w Hw; [exact Hw|].
  cbn [Ledger.run fold_left]. apply IH. now apply serve_sound.
Qed.

(** Served one after the other by a clock that never reads the last second
    of a day, requests never lead to a double booking. *)
Theorem no_double_booking_outside_final_second
        (buses : list Row.BusRow) (clock : nat -> Datetime.datetime)
        (qs : list Ledger.request) :
  (forall n, Datetime.well_formed (clock n) /\
             Datetime.final_second (clock n) = false) ->
  Ledger.no_double_booking (bookings (Ledger.run qs (Ledger.fresh buses clock))).
Proof.
  intros Hclock. apply run_sound. split; [exact Hclock|split].
  - intros r [].
  - intros bus seat day. cbn. lia.
Qed.

End Sequential.

(** ** The no-double-booking invariant *)

Section DoubleBooking.

Import Backend.

(** C1: at most one CONFIRMED booking per bus, seat label and calendar day
    in every ledger reached by sequential requests.  The seat check of
    [create_booking] looks for stamps below [day ++ "T23:59:59"], so a
    booking stamped within the last second of a day is not seen by a later
    attempt: two attempts for seat A1 of the same bus at 23:59:59.2 and
    23:59:59.7 are both admitted, neither is refused as already booked, and
    the ledger then holds two CONFIRMED bookings of that seat on that day. *)
Theorem C1_double_booking_in_final_second :
  let w0 := Ledger.fresh [Scenario.red_express] Scenario.clock_final_second in
  let r1 := BookingController.create_booking
              "u1" "bus1" "A1" "Uttara" "Farmgate" 50 w0 in
  let r2 := BookingController.create_booking
              "u2" "bus1" "A1" "Uttara" "Farmgate" 50 (snd r1) in
  Ledger.is_some (fst (fst r1)) = true /\
  Ledger.is_some (fst (fst r2)) = true /\
  snd (fst r2) = None /\
  map (fun r => (Row.bus_id r, Row.seat_number r, Row.status r,
                 Ledger.calendar_day r)) (bookings (snd r2))
  = [("bus1", "A1", "CONFIRMED", "2024-12-15");
     ("bus1", "A1", "CONFIRMED", "2024-12-15")] /\
  ~ Ledger.no_double_booking (bookings (snd r2)).
Proof.
  cbv zeta. repeat split; try (vm_compute; reflexivity).
  intros H. specialize (H "bus1" "A1" "2024-12-15").
  vm_compute in H. lia.
Qed.

End DoubleBooking.

(** ** Occupancy and the seat layout *)

Section Occupancy.

Import Backend.

(** The occupancy query for a given date text: the seats of the CONFIRMED
    rows of the bus whose stamp lies in the window of the day prefix. *)
Lemma get_occupied_seats_given (bus_id date_str : string) (w : World) :
  date_str <> "" ->
  BookingController.get_occupied_seats bus_id (Some date_str) w =
  (map Row.seat_number
       (filter (fun r => String.eqb (Row.bus_id r) bus_id
                         && Ledger.confirmed r
                         && date_between (Py.split_T_head date_str)
                              (Py.split_T_head date_str ++ "T23:59:59") r)
               (bookings w)),
   w).
Proof.
  intros Hne. unfold BookingController.get_occupied_seats, Py.truthy.
  apply String.eqb_neq in Hne. rewrite Hne. reflexivity.
Qed.

(** On stamps of the clock the window reads: same calendar day, and not in
    its last second. *)
Lemma listed_row_calendar_day (r : Row.BookingRow) (t q : Datetime.datetime) :
  Datetime.well_formed t -> Datetime.well_formed q ->
  Row.date r = Datetime.isoformat t ->
  date_between (Py.split_T_head (Datetime.isoformat q))
    (Py.split_T_head (Datetime.isoformat q) ++ "T23:59:59") r = true <->
  Datetime.same_day t q /\ Datetime.final_second t = false.
Proof.
  intros Ht Hq Hdate. unfold date_between.
  rewrite split_T_head_isoformat, Hdate, (day_window _ _ Ht).
  rewrite andb_true_iff, String.eqb_eq, negb_true_iff.
  now rewrite (iso_date_same_day _ _ Ht Hq).
Qed.

(** On a ledger stamped by the clock, the seats listed for the day of [q]
    are those of the CONFIRMED bookings of the bus stamped on that calendar
    day before its last second. *)
Lemma occupied_seats_outside_final_second
      (bus_id seat : string) (q : Datetime.datetime) (w : World) :
  Datetime.well_formed q ->
  (forall r, In r (bookings w) ->
     exists t, Datetime.well_formed t /\ Row.date r = Datetime.isoformat t) ->
  In seat (fst (BookingController.get_occupied_seats bus_id
                  (Some (Datetime.isoformat q)) w)) <->
  exists r t,
    In r (bookings w) /\ Row.bus_id r = bus_id /\
    Ledger.confirmed r = true /\ Row.seat_number r = seat /\
    Row.date r = Datetime.isoformat t /\ Datetime.well_formed t /\
    Datetime.same_day t q /\ Datetime.final_second t = false.
Proof.
  intros Hq Hstamp.
  rewrite get_occupied_seats_given by discriminate. cbn [fst].
  rewrite in_map_iff. split.
  - intros (r & Hseat & Hin). apply filter_In in Hin as (Hin & Hr).
    rewrite !andb_true_iff, String.eqb_eq in Hr.
    destruct Hr as ((Hbus & Hconf) & Hwin).
    destruct (Hstamp r Hin) as (t & Ht & Hdate).
    destruct (proj1 (listed_row_calendar_day r t q Ht Hq Hdate) Hwin)
      as (Hday & Hfin).
    exists r, t. now repeat (split; [assumption|]).
  - intros (r & t & Hin & Hbus & Hconf & Hseat & Hdate & Ht & Hday & Hfin).
    exists r. split; [exact Hseat|]. apply filter_In. split; [exact Hin|].
    rewrite !andb_true_iff, String.eqb_eq. repeat split; auto.
    now apply (listed_row_calendar_day r t q Ht Hq Hdate).
Qed.

(** The end-to-end run of the specification, in the morning: A1 is
    confirmed at price 50, a second passenger is refused A1 on the same bus
    and day, and is given A2. *)
Example end_to_end_morning :
  let w0 := Ledger.fresh [Scenario.red_express] Scenario.clock_morning in
  let r1 := BookingController.create_booking
              "u1" "bus1" "A1" "Uttara" "Farmgate" 50 w0 in
  let r2 := BookingController.create_booking
              "u2" "bus1" "A1" "Uttara" "Farmgate" 50 (snd r1) in
  let r3 := BookingController.create_booking
              "u2" "bus1" "A2" "Uttara" "Farmgate" 50 (snd r2) in
  fst r1 = (Some (Booking.mk "booking-0" "u1" "bus1" "A1" "Uttara" "Farmgate"
                    "2024-12-15T10:00:00" 50 "CONFIRMED" 1), None) /\
  fst r2 = (None, Some "Seat A1 is already booked.") /\
  fst r3 = (Some (Booking.mk "booking-1" "u2" "bus1" "A2" "Uttara" "Farmgate"
                    "2024-12-15T10:00:00" 50 "CONFIRMED" 2), None) /\
  fst (BookingController.get_occupied_seats "bus1" (Some "2024-12-15")
         (snd r3)) = ["A1"; "A2"].
Proof. cbv zeta. repeat split. Qed.

(** C4: [occupied_seats(bus, date)] is meant to list the seats of all
    CONFIRMED bookings of the bus on the calendar day of [date].  A booking
    stamped within the last second of the day (here 23:59:59.2 on 15 December
    2024) is CONFIRMED and bears that calendar day, yet is left out, whether
    the day is queried by a time of that day, by the bare date, or by the
    clock a moment later. *)
Theorem C4_final_second_booking_not_listed :
  let w0 := Ledger.fresh [Scenario.red_express] Scenario.clock_final_second in
  let w1 := snd (BookingController.create_booking
                   "u1" "bus1" "A1" "Uttara" "Farmgate" 50 w0) in
  map (fun r => (Row.bus_id r, Row.seat_number r, Row.status r,
                 Ledger.calendar_day r)) (bookings w1)
  = [("bus1", "A1", "CONFIRMED", "2024-12-15")] /\
  Py.split_T_head "2024-12-15T10:00:00" = "2024-12-15" /\
  fst (BookingController.get_occupied_seats
         "bus1" (Some "2024-12-15T10:00:00") w1) = [] /\
  fst (BookingController.get_occupied_seats "bus1" (Some "2024-12-15") w1)
  = [] /\
  Datetime.isoformat (clock w1 (ticks w1)) = "2024-12-15T23:59:59.700000" /\
  fst (BookingController.get_occupied_seats "bus1" None w1) = [].
Proof. cbv zeta. repeat split; vm_compute; reflexivity. Qed.

Lemma str_in_In (x : string) (xs : list string) :
  Py.str_in x xs = true <-> In x xs.
Proof.
  unfold Py.str_in. rewrite existsb_exists. split.
  - intros (y & Hin & Heq). apply String.eqb_eq in Heq. now subst.
  - intros Hin. exists x. now rewrite String.eqb_refl.
Qed.

(** The layout is the fixed table of 45 seats, each marked by its membership
    in the occupancy list. *)
Lemma get_seat_layout_table (bus_id : string) (date_str : option string)
      (w : World) :
  fst (BookingController.get_seat_layout bus_id date_str w) =
  map (Ledger.seat_entry
         (fst (BookingController.get_occupied_seats bus_id date_str w)))
      Ledger.seat_labels.
Proof.
  unfold BookingController.get_seat_layout, bind.
  destruct (BookingController.get_occupied_seats bus_id date_str w)
    as [occupied w'].
  reflexivity.
Qed.

(** C5: for every bus and date the seat layout has exactly 45 entries, in
    the order A1..A4, B1..B4, ..., J1..J4, K1..K5; an entry is marked
    occupied exactly when its label is in [occupied_seats(bus, date)], and
    marked as last row exactly when it is one of the five K entries. *)
Theorem C5_seat_layout_fixed_order (bus_id : string)
        (date_str : option string) (w : World) :
  let layout := fst (BookingController.get_seat_layout bus_id date_str w) in
  let occupied :=
    fst (BookingController.get_occupied_seats bus_id date_str w) in
  length layout = 45 /\
  map BookingController.number layout = Ledger.seat_labels /\
  (forall seat, In seat layout ->
     (BookingController.isOccupied seat = true <->
      In (BookingController.number seat) occupied)) /\
  (forall seat, In seat layout ->
     (BookingController.isLastRow seat = true <->
      In (BookingController.number seat) ["K1"; "K2"; "K3"; "K4"; "K5"])) /\
  map BookingController.isLastRow layout
  = app (repeat false 40) (repeat true 5).
Proof.
  cbv zeta. rewrite get_seat_layout_table.
  set (occupied := fst (BookingController.get_occupied_seats _ _ _)).
  split; [reflexivity|].
  split; [reflexivity|].
  split; [|split; [|reflexivity]].
  - intros seat Hin. apply in_map_iff in Hin as (label & <- & _).
    cbn [Ledger.seat_entry BookingController.isOccupied
         BookingController.number].
    apply str_in_In.
  - intros seat Hin. apply in_map_iff in Hin as (label & <- & Hin).
    cbn [Ledger.seat_entry BookingController.isLastRow
         BookingController.number].
    unfold Ledger.seat_labels in Hin.
    repeat (destruct Hin as [<-|Hin];
            [vm_compute; split; [discriminate || tauto | intuition discriminate]|]).
    destruct Hin.
Qed.

End Occupancy.

(** ** Batches *)

(** C6: a batch of more than 5 seat labels is refused as a whole before any
    seat is attempted: no booking is returned, the one message tells that
    the maximum is exceeded, and the world (the ledger included) is left as
    it was. *)
Theorem C6_batch_over_limit_rejected
        (user_id bus_id : string) (seat_numbers : list string)
        (source destination : string) (price_per_seat : Z)
        (w : Backend.World) :
  5 < length seat_numbers ->
  BookingController.create_multiple_bookings user_id bus_id seat_numbers
    source destination price_per_seat w
  = (([], ["Cannot book more than 5 seats at once."]), w).
Proof.
  intros Hlen. unfold BookingController.create_multiple_bookings.
  change Config.MAX_SEATS_PER_BOOKING with 5.
  apply Nat.ltb_lt in Hlen. rewrite Hlen. reflexivity.
Qed.

Lemma C6_six_seats_rejected :
  let w := Ledger.fresh [Scenario.red_express] Scenario.clock_morning in
  5 < length ["A1"; "A2"; "A3"; "A4"; "B1"; "B2"] /\
  BookingController.create_multiple_bookings "u1" "bus1"
    ["A1"; "A2"; "A3"; "A4"; "B1"; "B2"] "Uttara" "Farmgate" 50 w
  = (([], ["Cannot book more than 5 seats at once."]), w).
Proof.
  split; [simpl; lia|].
  apply C6_batch_over_limit_rejected. simpl; lia.
Defined.

Section Batch.

Import Backend.

Variables (user_id bus_id source destination : string).
Variable (price_per_seat : Z).

(** The loop of a batch: the rows it appends to the ledger are the bookings
    it reports, every seat is accounted for in exactly one of the two
    lists, and nothing that was in the ledger is taken back. *)
Lemma book_each_spec (seat_numbers : list string)
      (successful_bookings : list Booking.t) (errors : list string)
      (w : World) :
  exists rows notes,
    fst (BookingController.book_each user_id bus_id seat_numbers source
           destination price_per_seat successful_bookings errors w)
    = (app successful_bookings (map Booking.from_dict rows),
       app errors notes) /\
    bookings (snd (BookingController.book_each user_id bus_id seat_numbers
                     source destination price_per_seat successful_bookings
                     errors w))
    = app (bookings w) rows /\
    length rows + length notes = length seat_numbers /\
    Forall (fun r => Ledger.confirmed r = true) rows.
Proof.
  revert successful_bookings errors w.
  induction seat_numbers as [|seat rest IH]; intros acc errs w.
  - exists [], []. cbn. now rewrite !app_nil_r.
  - cbn [BookingController.book_each]. unfold bind.
    rewrite create_booking_unfold. cbv zeta.
    set (row := new_row _ (next_id w)).
    destruct (SupabaseService.existing _ w) as [|r0 rs].
    + lazymatch goal with
      | |- context [BookingController.book_each _ _ _ _ _ _ ?a ?e ?w1] =>
          destruct (IH a e w1) as (rows & notes & Hres & Hledger & Hlen & Hall)
      end.
      exists (row :: rows), notes.
      rewrite Hres, Hledger. cbn [map length bookings].
      rewrite <- !app_assoc.
      split; [reflexivity|split; [reflexivity|split; [lia|]]].
      constructor; [reflexivity|exact Hall].
    + lazymatch goal with
      | |- context [BookingController.book_each _ _ _ _ _ _ ?a (app _ [?n]) ?w1] =>
          destruct (IH a (app errs [n]) w1)
            as (rows & notes & Hres & Hledger & Hlen & Hall);
          exists rows, (n :: notes)
      end.
      rewrite Hres, Hledger. cbn [map length bookings snd now].
      rewrite <- !app_assoc.
      split; [reflexivity|split; [reflexivity|split; [lia|exact Hall]]].
Qed.

(** The loop over two lists of seats one after the other is the loop over
    the first, followed by the loop over the second with what the first has
    gathered and in the world it has left. *)
Lemma book_each_app (first second : list string)
      (successful_bookings : list Booking.t) (errors : list string)
      (w : World) :
  BookingController.book_each user_id bus_id (app first second) source
    destination price_per_seat successful_bookings errors w
  = let done := BookingController.book_each user_id bus_id first source
                  destination price_per_seat successful_bookings errors w in
    BookingController.book_each user_id bus_id second source destination
      price_per_seat (fst (fst done)) (snd (fst done)) (snd done).
Proof.
  revert successful_bookings errors w.
  induction first as [|seat rest IH]; intros acc errs w; [reflexivity|].
  cbn [app BookingController.book_each]. unfold bind.
  destruct (BookingController.create_booking _ _ _ _ _ _ w)
    as [[[booking|] error] w1]; apply IH.
Qed.

(** A batch within the limit is the loop, started with two empty lists. *)
Lemma within_limit_is_loop (seat_numbers : list string) (w : World) :
  length seat_numbers <= 5 ->
  BookingController.create_multiple_bookings user_id bus_id seat_numbers
    source destination price_per_seat w
  = BookingController.book_each user_id bus_id seat_numbers source
      destination price_per_seat [] [] w.
Proof.
  intros Hlen. unfold BookingController.create_multiple_bookings.
  change Config.MAX_SEATS_PER_BOOKING with 5.
  apply Nat.leb_le in Hlen. now rewrite Nat.ltb_antisym, Hlen.
Qed.

End Batch.

Section DuplicateSeat.

Import Backend.

Lemma isoformat_not_empty (t : Datetime.datetime) :
  Datetime.isoformat t <> "".
Proof. discriminate. Qed.

(** A seat that the occupancy query does not list for the day of an attempt
    passes the seat check of that attempt. *)
Lemma free_seat_not_existing u b s src dst p (t : Datetime.datetime)
      (w : World) :
  ~ In s (fst (BookingController.get_occupied_seats b
                 (Some (Datetime.isoformat t)) w)) ->
  SupabaseService.existing (Ledger.booking_data_at u b s src dst p t) w = [].
Proof.
  rewrite (get_occupied_seats_given _ _ _ (isoformat_not_empty t)).
  cbn [fst]. intros Hfree.
  destruct (SupabaseService.existing _ w) as [|r rs] eqn:Hex; [reflexivity|].
  exfalso. apply Hfree.
  assert (Hr : In r (SupabaseService.existing
                       (Ledger.booking_data_at u b s src dst p t) w))
    by (rewrite Hex; now left).
  apply existing_spec in Hr as (Hin & Hbus & Hseat & Hconf & Hwin).
  cbn [Ledger.booking_data_at Row.d_bus_id Row.d_seat_number Row.d_date]
    in Hbus, Hseat, Hwin.
  rewrite <- Hseat. apply in_map, filter_In. split; [exact Hin|].
  now rewrite Hwin, Hconf, Hbus, String.eqb_refl.
Qed.

End DuplicateSeat.

(** C7, as stated, fails when the clock passes midnight between the two
    attempts of the batch [A1, A1]: each attempt is stamped with its own
    reading of the clock, the second A1 is looked for on the new day, and
    both seats are confirmed, with no failure reported. *)
Lemma C7_duplicate_seat_across_midnight :
  let w0 := Ledger.fresh [Scenario.red_express] Scenario.clock_midnight in
  let r := BookingController.create_multiple_bookings "u1" "bus1"
             ["A1"; "A1"] "Uttara" "Farmgate" 50 w0 in
  length ["A1"; "A1"] <= 5 /\
  Backend.bookings w0 = [] /\
  map (fun b => (Booking.seat_number b, Booking.status b,
                 Booking.booking_date b)) (fst (fst r))
  = [("A1", "CONFIRMED", "2024-12-15T23:59:58");
     ("A1", "CONFIRMED", "2024-12-16T00:00:01")] /\
  snd (fst r) = [].
Proof. cbv zeta. repeat split; vm_compute; auto. Qed.

(** C7: a batch of at most 5 seat labels is worked through seat by seat,
    each seat being attempted with the single-seat [create_booking] whatever
    happened to the seats before it: the batch up to and including a seat
    answers what the batch of the seats before it answers, with the outcome
    of [create_booking] for that seat, in the world left by them, added to
    the list of bookings or to the list of failures; and the seats after it
    only add to the two lists and to the ledger.  The confirmed bookings and
    the per-seat failures are both returned, each seat counting in exactly
    one of the two lists; the confirmed bookings are the CONFIRMED rows
    appended to the ledger, which keeps them and all earlier rows whatever
    happens to later seats.  In particular a batch [s, s] for a seat that
    the occupancy query shows free yields exactly one booking and one
    already-booked failure, when the two attempts are stamped on the same
    calendar day and the first of them before 23:59:59. *)
Theorem C7_batch_partial_success
        (user_id bus_id : string) (seat_numbers : list string)
        (source destination : string) (price_per_seat : Z)
        (w : Backend.World) :
  length seat_numbers <= 5 ->
  let batch := fun seats =>
    BookingController.create_multiple_bookings user_id bus_id seats source
      destination price_per_seat in
  let r := batch seat_numbers w in
  batch [] w = (([], []), w) /\
  (forall pre s post,
      seat_numbers = app pre (s :: post) ->
      let before := batch pre w in
      let one := BookingController.create_booking user_id bus_id s source
                   destination price_per_seat (snd before) in
      let upto := batch (app pre [s]) w in
      upto
      = (match fst one with
         | (Some booking, _) =>
             (app (fst (fst before)) [booking], snd (fst before))
         | (None, error) =>
             (fst (fst before),
              app (snd (fst before))
                  ["Seat " ++ s ++ ": "
                   ++ match error with Some e => e | None => "None" end])
         end, snd one) /\
      exists later_rows later_errors,
        fst r = (app (fst (fst upto)) (map Booking.from_dict later_rows),
                 app (snd (fst upto)) later_errors) /\
        Backend.bookings (snd r)
        = app (Backend.bookings (snd upto)) later_rows) /\
  (exists rows notes,
      fst r = (map Booking.from_dict rows, notes) /\
      Backend.bookings (snd r) = app (Backend.bookings w) rows /\
      length rows + length notes = length seat_numbers /\
      Forall (fun row => Ledger.confirmed row = true) rows) /\
  (forall s,
      seat_numbers = [s; s] ->
      let t1 := Backend.clock w (Backend.ticks w) in
      let t2 := Backend.clock w (S (Backend.ticks w)) in
      ~ In s (fst (BookingController.get_occupied_seats bus_id
                     (Some (Datetime.isoformat t1)) w)) ->
      Datetime.well_formed t1 ->
      Datetime.same_day t1 t2 ->
      Datetime.final_second t1 = false ->
      fst r =
      ([Booking.from_dict
          (Backend.new_row
             (Ledger.booking_data_at user_id bus_id s source destination
                price_per_seat t1) (Backend.next_id w))],
       ["Seat " ++ s ++ ": Seat " ++ s ++ " is already booked."])).
Proof.
  intros Hlen batch r.
  assert (Hr : r = BookingController.book_each user_id bus_id seat_numbers
                     source destination price_per_seat [] [] w)
    by (apply within_limit_is_loop, Hlen).
  split; [reflexivity|split; [|split]].
  - intros pre s post Hsplit before one upto.
    assert (Hpre : length pre <= 5 /\ length (app pre [s]) <= 5).
    { rewrite Hsplit in Hlen. rewrite length_app in *.
      cbn [length] in *. lia. }
    assert (Hupto : upto
      = BookingController.book_each user_id bus_id [s] source destination
          price_per_seat (fst (fst before)) (snd (fst before))
          (snd before)).
    { subst upto before batch. cbv beta.
      rewrite !within_limit_is_loop by apply Hpre.
      apply book_each_app. }
    split.
    + rewrite Hupto. cbn [BookingController.book_each].
      unfold Backend.bind, Backend.ret. fold one.
      now destruct one as [[[booking|] error] w1].
    + assert (Hwhole : r
        = BookingController.book_each user_id bus_id post source
            destination price_per_seat (fst (fst upto)) (snd (fst upto))
            (snd upto)).
      { rewrite Hr, Hsplit.
        change (s :: post) with (app [s] post). rewrite app_assoc.
        rewrite book_each_app. cbv zeta.
        subst upto batch. cbv beta.
        now rewrite within_limit_is_loop by apply Hpre. }
      destruct (book_each_spec user_id bus_id source destination
                  price_per_seat post (fst (fst upto)) (snd (fst upto))
                  (snd upto))
        as (rows & notes & Hres & Hledger & _).
      exists rows, notes. rewrite Hwhole. split; assumption.
  - rewrite Hr.
    destruct (book_each_spec user_id bus_id source destination price_per_seat
                seat_numbers [] [] w) as (rows & notes & H).
    now exists rows, notes.
  - intros s -> t1 t2 Hfree Hwf (Hy & Hm & Hd) Hfin. rewrite Hr.
    cbn [BookingController.book_each]. unfold Backend.bind.
    rewrite create_booking_unfold. cbv zeta. fold t1.
    rewrite (free_seat_not_existing _ _ _ _ _ _ _ _ Hfree).
    rewrite create_booking_unfold. cbv zeta.
    cbn [Backend.clock Backend.ticks Backend.next_id]. fold t2.
    set (row := Backend.new_row _ (Backend.next_id w)).
    set (w1 := Backend.mkWorld _ _ _ _ _ _ _ _).
    assert (Hfound : In row (SupabaseService.existing
              (Ledger.booking_data_at user_id bus_id s source destination
                 price_per_seat (Backend.clock w1 (Backend.ticks w1))) w1)).
    { apply stamped_row_is_found with (t := t1); auto.
      - subst w1. cbn [Backend.bookings]. apply in_or_app. right. now left.
      - subst w1. cbn [Backend.clock Backend.ticks]. fold t2.
        unfold Datetime.iso_date. now rewrite Hy, Hm, Hd. }
    change (Backend.clock w1 (Backend.ticks w1)) with t2 in Hfound.
    destruct (SupabaseService.existing _ w1); [destruct Hfound|].
    reflexivity.
Qed.

Lemma C7_duplicate_seat_same_morning :
  let w := Ledger.fresh [Scenario.red_express] Scenario.clock_morning in
  let t1 := Backend.clock w (Backend.ticks w) in
  let t2 := Backend.clock w (S (Backend.ticks w)) in
  length ["A1"; "A1"] <= 5 /\
  ~ In "A1" (fst (BookingController.get_occupied_seats "bus1"
                    (Some (Datetime.isoformat t1)) w)) /\
  Datetime.well_formed t1 /\ Datetime.same_day t1 t2 /\
  Datetime.final_second t1 = false /\
  fst (BookingController.create_multiple_bookings "u1" "bus1" ["A1"; "A1"]
         "Uttara" "Farmgate" 50 w)
  = ([Booking.mk "booking-0" "u1" "bus1" "A1" "Uttara" "Farmgate"
        "2024-12-15T10:00:00" 50 "CONFIRMED" 1],
     ["Seat A1: Seat A1 is already booked."]).
Proof.
  intros w t1 t2.
  assert (Hlen : length ["A1"; "A1"] <= 5) by (simpl; lia).
  assert (Hfree : ~ In "A1" (fst (BookingController.get_occupied_seats "bus1"
                                    (Some (Datetime.isoformat t1)) w)))
    by (vm_compute; tauto).
  assert (Hwf : Datetime.well_formed t1)
    by (vm_compute; repeat split; discriminate).
  assert (Hday : Datetime.same_day t1 t2) by (vm_compute; auto).
  assert (Hfin : Datetime.final_second t1 = false) by reflexivity.
  repeat (split; [assumption|]).
  destruct (C7_batch_partial_success "u1" "bus1" ["A1"; "A1"] "Uttara"
              "Farmgate" 50 w Hlen) as (_ & _ & _ & Hdup).
  exact (Hdup "A1" eq_refl Hfree Hwf Hday Hfin).
Defined.

(** ** What a booking records *)

(** C3, as stated, fails on the journey date: [create_booking] takes no
    date, so there is no date supplied with a call that every admitted
    booking of that call would bear.  The same call is recorded under
    15 December 2024 or under 1 January 2025 according to the clock. *)
Lemma C3_recorded_date_not_supplied :
  let call := BookingController.create_booking
                "u1" "bus1" "A1" "Uttara" "Farmgate" 50 in
  ~ exists date : string,
      forall clock booking,
        fst (fst (call (Ledger.fresh [Scenario.red_express] clock)))
        = Some booking ->
        Booking.booking_date booking = date.
Proof.
  intros call (date & H).
  pose proof (H Scenario.clock_morning _ eq_refl) as H1.
  pose proof (H Scenario.clock_new_year _ eq_refl) as H2.
  vm_compute in H1, H2. congruence.
Qed.

(** C3: every admitted [create_booking(user, bus, seat, source, destination,
    price)] returns a booking with status CONFIRMED whose journey date is
    the reading of the clock at the call, in ISO format, and whose price is
    the price supplied; user, bus, seat and stops are those of the call, and
    the booking is the row added to the ledger. *)
Theorem C3_booking_records_clock_and_price
        (user_id bus_id seat_number source destination : string)
        (price : Z) (w : Backend.World) (booking : Booking.t) :
  fst (fst (BookingController.create_booking user_id bus_id seat_number
              source destination price w)) = Some booking ->
  Booking.status booking = "CONFIRMED" /\
  Booking.booking_date booking
  = Datetime.isoformat (Backend.clock w (Backend.ticks w)) /\
  Booking.price booking = price /\
  (Booking.user_id booking, Booking.bus_id booking,
   Booking.seat_number booking)
  = (user_id, bus_id, seat_number) /\
  (Booking.source booking, Booking.destination booking)
  = (source, destination) /\
  exists row,
    booking = Booking.from_dict row /\
    Backend.bookings
      (snd (BookingController.create_booking user_id bus_id seat_number
              source destination price w))
    = app (Backend.bookings w) [row].
Proof.
  rewrite create_booking_unfold. cbv zeta.
  destruct (SupabaseService.existing _ w); cbn [fst snd]; [|discriminate].
  intros [= <-]. repeat split. eexists. split; reflexivity.
Qed.

Lemma C3_morning_booking :
  let w := Ledger.fresh [Scenario.red_express] Scenario.clock_morning in
  exists booking,
    fst (fst (BookingController.create_booking
                "u1" "bus1" "A1" "Uttara" "Farmgate" 50 w)) = Some booking /\
    Booking.status booking = "CONFIRMED" /\
    Booking.booking_date booking = "2024-12-15T10:00:00" /\
    Booking.price booking = 50%Z.
Proof.
  intros w. eexists. split; [reflexivity|].
  match goal with
  | |- Booking.status ?b = _ /\ _ =>
      destruct (C3_booking_records_clock_and_price
                  "u1" "bus1" "A1" "Uttara" "Farmgate" 50 w b eq_refl)
        as (Hs & Hd & Hp & _)
  end.
  split; [exact Hs|split; [exact Hd|exact Hp]].
Defined.

(** ** Ownership of bookings *)

Section Ownership.

Import Backend.

Lemma not_owned_not_listed (booking_id user_id : string) (w : World) :
  (forall r, In r (bookings w) -> Row.id r = booking_id ->
             Row.user_id r <> user_id) ->
  Py.str_in booking_id
    (map Booking.id
       (fst (BookingController.get_user_bookings user_id w))) = false.
Proof.
  intros Hforeign.
  destruct (Py.str_in _ _) eqn:E; [exfalso|reflexivity].
  apply str_in_In in E.
  unfold BookingController.get_user_bookings,
    SupabaseService.get_bookings_by_user, bind, ret in E. cbn [fst] in E.
  apply in_map_iff in E as (booking & Hid & E).
  apply in_map_iff in E as (r & <- & E).
  apply in_rev, filter_In in E as (Hin & Huser).
  apply String.eqb_eq in Huser.
  exact (Hforeign r Hin Hid Huser).
Qed.

End Ownership.

(** C8: a cancel or delete request made under a user id that does not own
    the booking is refused with the one message "Booking not found or access
    denied.", which is also the answer when no booking bears that id, and
    the world (ledger and booking status included) is left as it was. *)
Theorem C8_foreign_user_is_denied (booking_id user_id : string)
        (w : Backend.World) :
  (forall r, In r (Backend.bookings w) -> Row.id r = booking_id ->
             Row.user_id r <> user_id) ->
  BookingController.cancel_booking booking_id user_id w
  = ((false, Some "Booking not found or access denied."), w) /\
  BookingController.delete_booking booking_id user_id w
  = ((false, Some "Booking not found or access denied."), w) /\
  fst (BookingController.cancel_booking booking_id user_id w)
  = fst (BookingController.cancel_booking booking_id user_id
           (Backend.set_bookings [] w)).
Proof.
  intros Hforeign.
  pose proof (not_owned_not_listed booking_id user_id w Hforeign) as Hno.
  unfold BookingController.cancel_booking, BookingController.delete_booking.
  unfold Backend.bind at 1 3 5.
  destruct (BookingController.get_user_bookings user_id w) as [bs w'] eqn:E.
  assert (w' = w) as ->.
  { unfold BookingController.get_user_bookings,
      SupabaseService.get_bookings_by_user, Backend.bind, Backend.ret in E.
    now injection E. }
  cbn [fst] in Hno. rewrite Hno. cbn [negb].
  repeat split.
Qed.

Lemma C8_other_passenger_cannot_cancel :
  let w := snd (BookingController.create_booking
                  "u1" "bus1" "A1" "Uttara" "Farmgate" 50
                  (Ledger.fresh [Scenario.red_express]
                     Scenario.clock_morning)) in
  map (fun r => (Row.id r, Row.user_id r, Row.status r)) (Backend.bookings w)
  = [("booking-0", "u1", "CONFIRMED")] /\
  BookingController.cancel_booking "booking-0" "u2" w
  = ((false, Some "Booking not found or access denied."), w) /\
  BookingController.delete_booking "booking-0" "u2" w
  = ((false, Some "Booking not found or access denied."), w).
Proof.
  intros w. split; [reflexivity|].
  assert (Hforeign : forall r, In r (Backend.bookings w) ->
                       Row.id r = "booking-0" -> Row.user_id r <> "u2").
  { intros r [<-|[]] _. vm_compute. discriminate. }
  destruct (C8_foreign_user_is_denied "booking-0" "u2" w Hforeign)
    as (Hc & Hd & _).
  split; [exact Hc|exact Hd].
Defined.

(** ** Trips, bus status and the admission of bookings *)

Section Trips.

Lemma list_index_In (x : string) (xs : list string) :
  Py.str_in x xs = true <-> exists i, Py.list_index x xs = Some i.
Proof.
  induction xs as [|y ys IH]; cbn [Py.str_in existsb Py.list_index].
  - split; [discriminate|intros (i & H); discriminate].
  - rewrite (String.eqb_sym x y).
    destruct (String.eqb y x); cbn [orb].
    + split; eauto.
    + fold (Py.str_in x ys). rewrite IH.
      destruct (Py.list_index x ys); split; eauto;
        intros (i & H); discriminate.
Qed.

(** [is_valid_trip]: both stops are on the route, the source before the
    destination. *)
Lemma is_valid_trip_spec (bus : Bus.t) (source destination : string) :
  Bus.is_valid_trip bus source destination = true <->
  exists i j,
    Py.list_index source (Bus.route bus) = Some i /\
    Py.list_index destination (Bus.route bus) = Some j /\ i < j.
Proof.
  unfold Bus.is_valid_trip.
  destruct (Py.str_in source (Bus.route bus)) eqn:Hs; cbn [negb orb].
  - destruct (Py.str_in destination (Bus.route bus)) eqn:Hd; cbn [negb].
    + apply list_index_In in Hs as (i & Hi), Hd as (j & Hj).
      rewrite Hi, Hj, Nat.ltb_lt. split.
      * intros Hlt. now exists i, j.
      * intros (i' & j' & [= <-] & [= <-] & Hlt). exact Hlt.
    + split; [discriminate|]. intros (i & j & _ & Hj & _).
      assert (Py.str_in destination (Bus.route bus) = true)
        by (apply list_index_In; eauto).
      congruence.
  - split; [discriminate|]. intros (i & j & Hi & _).
    assert (Py.str_in source (Bus.route bus) = true)
      by (apply list_index_In; eauto).
    congruence.
Qed.

(** Whether an attempt is admitted depends on the ledger, the clock and the
    bus and seat asked for, and on nothing else. *)
Lemma admission_depends_on_seat_only
      u b s src dst p u' src' dst' p' (buses' : list Row.BusRow)
      (w : Backend.World) :
  Ledger.is_some
    (fst (fst (BookingController.create_booking u b s src dst p w)))
  = Ledger.is_some
      (fst (fst (BookingController.create_booking u' b s src' dst' p'
                   (Ledger.set_buses buses' w)))).
Proof.
  rewrite !create_booking_unfold. cbv zeta.
  unfold SupabaseService.existing.
  cbn [Ledger.set_buses Ledger.booking_data_at Backend.bookings
       Backend.clock Backend.ticks Row.d_date Row.d_bus_id
       Row.d_seat_number].
  now destruct (filter _ (Backend.bookings w)).
Qed.

End Trips.

(** C2, as stated, fails: [create_booking] never looks at the route.  On the
    route [Uttara, Banani, Farmgate] the trip from Farmgate to Uttara is not
    a valid trip, yet the request is admitted and a CONFIRMED booking for it
    enters the ledger. *)
Lemma C2_reversed_trip_is_admitted :
  let w := Ledger.fresh [Scenario.red_express] Scenario.clock_morning in
  let r := BookingController.create_booking
             "u1" "bus1" "A1" "Farmgate" "Uttara" 50 w in
  Bus.is_valid_trip (Bus.from_dict Scenario.red_express) "Farmgate" "Uttara"
  = false /\
  fst (fst r)
  = Some (Booking.mk "booking-0" "u1" "bus1" "A1" "Farmgate" "Uttara"
            "2024-12-15T10:00:00" 50 "CONFIRMED" 1) /\
  snd (fst r) = None /\
  length (Backend.bookings (snd r)) = 1.
Proof. cbv zeta. repeat split. Qed.

(** C2: the check that source and destination both occur in the route of the
    bus, with index(source) < index(destination), is [Bus.is_valid_trip]; on
    the route [Uttara, Banani, Farmgate] it refuses Farmgate to Uttara.
    [create_booking] does not apply it: whether a request is admitted is the
    same for any source and destination. *)
Theorem C2_trip_check_is_not_part_of_admission :
  (forall bus source destination,
      Bus.is_valid_trip bus source destination = true <->
      exists i j,
        Py.list_index source (Bus.route bus) = Some i /\
        Py.list_index destination (Bus.route bus) = Some j /\ i < j) /\
  Bus.is_valid_trip (Bus.from_dict Scenario.red_express) "Farmgate" "Uttara"
  = false /\
  Bus.is_valid_trip (Bus.from_dict Scenario.red_express) "Uttara" "Farmgate"
  = true /\
  (forall user_id bus_id seat_number source destination source'
          destination' price w,
      Ledger.is_some
        (fst (fst (BookingController.create_booking user_id bus_id
                     seat_number source destination price w)))
      = Ledger.is_some
          (fst (fst (BookingController.create_booking user_id bus_id
                       seat_number source' destination' price w)))).
Proof.
  split; [exact is_valid_trip_spec|].
  split; [reflexivity|split; [reflexivity|]].
  intros u b s src dst src' dst' p w.
  rewrite (admission_depends_on_seat_only u b s src dst p u src' dst' p
             (Backend.buses w) w).
  now destruct w.
Qed.

(** C9, as stated, fails on bookings: [create_booking] never reads the bus.
    A bus under maintenance is not returned by the search, yet a booking on
    it is admitted. *)
Lemma C9_bus_in_maintenance_is_booked :
  let w := Ledger.fresh [Scenario.red_express; Scenario.in_workshop]
             Scenario.clock_morning in
  let r := BookingController.create_booking
             "u1" "bus9" "A1" "Uttara" "Farmgate" 50 w in
  map Row.b_status
      (filter (fun b => String.eqb (Row.b_id b) "bus9") (Backend.buses w))
  = ["MAINTENANCE"] /\
  map Bus.id (fst (BusController.search_buses "Uttara" "Farmgate" w))
  = ["bus1"] /\
  fst (fst r)
  = Some (Booking.mk "booking-0" "u1" "bus9" "A1" "Uttara" "Farmgate"
            "2024-12-15T10:00:00" 50 "CONFIRMED" 1) /\
  snd (fst r) = None.
Proof. cbv zeta. repeat split. Qed.

(** C9: [search_buses] returns exactly the buses of the fleet whose status
    is ACTIVE and whose route has the source before the destination.
    [create_booking] does not read the fleet: its answer is the same
    whatever buses the fleet holds and whatever their status. *)
Theorem C9_search_returns_active_buses_only :
  (forall source destination w bus,
      In bus (fst (BusController.search_buses source destination w)) <->
      (exists row, In row (Backend.buses w) /\ bus = Bus.from_dict row) /\
      Bus.status bus = "ACTIVE" /\
      exists i j,
        Py.list_index source (Bus.route bus) = Some i /\
        Py.list_index destination (Bus.route bus) = Some j /\ i < j) /\
  (forall user_id bus_id seat_number source destination price buses w,
      fst (BookingController.create_booking user_id bus_id seat_number
             source destination price (Ledger.set_buses buses w))
      = fst (BookingController.create_booking user_id bus_id seat_number
               source destination price w)).
Proof.
  split.
  - intros source destination w bus.
    unfold BusController.search_buses, BusController.get_active_buses,
      BusController.get_all_buses, SupabaseService.get_all_buses,
      Backend.bind, Backend.ret.
    cbn [fst].
    rewrite !filter_In, in_map_iff, is_valid_trip_spec.
    unfold Bus.isActive. rewrite String.eqb_eq.
    change Config.BUS_STATUS_ACTIVE with "ACTIVE".
    split.
    + intros (((row & <- & Hin) & Hact) & Htrip). eauto.
    + intros ((row & Hin & ->) & Hact & Htrip). eauto.
  - intros u b s src dst p buses w.
    rewrite !create_booking_unfold. cbv zeta.
    unfold SupabaseService.existing.
    cbn [Ledger.set_buses Backend.bookings Backend.clock Backend.ticks
         Backend.next_id].
    now destruct (filter _ (Backend.bookings w)).
Qed.

(** ** Portal login *)

Section Portal.

Lemma expected_role_known (portal_type : string) :
  In (Py.lower portal_type) ["user"; "driver"; "admin"] ->
  AuthController._get_expected_role portal_type
  = Some (if String.eqb (Py.lower portal_type) "user" then "USER"
          else if String.eqb (Py.lower portal_type) "driver" then "DRIVER"
          else "ADMIN").
Proof.
  unfold AuthController._get_expected_role.
  intros [<-|[<-|[<-|[]]]]; reflexivity.
Qed.

Lemma expected_role_unknown (portal_type : string) :
  ~ In (Py.lower portal_type) ["user"; "driver"; "admin"] ->
  AuthController._get_expected_role portal_type = None.
Proof.
  intros Hnot. unfold AuthController._get_expected_role.
  cbn [find fst snd].
  destruct (String.eqb_spec "user" (Py.lower portal_type)) as [E|_];
    [exfalso; apply Hnot; rewrite <- E; cbn; tauto|].
  destruct (String.eqb_spec "driver" (Py.lower portal_type)) as [E|_];
    [exfalso; apply Hnot; rewrite <- E; cbn; tauto|].
  destruct (String.eqb_spec "admin" (Py.lower portal_type)) as [E|_];
    [exfalso; apply Hnot; rewrite <- E; cbn; tauto|].
  reflexivity.
Qed.

(** On the three known portals the role must be the one of the portal. *)
Lemma login_known_portal (email password portal_type : string)
      (w : Backend.World) (user_data : Row.ProfileRow) (role : string) :
  SupabaseService.login email password w = Py.Return (Some user_data) ->
  In (Py.lower portal_type, role)
     [("user", "USER"); ("driver", "DRIVER"); ("admin", "ADMIN")] ->
  AuthController.login email password portal_type w =
  if String.eqb (Row.p_role user_data) role
  then (Some (User.from_dict user_data), None)
  else (None, Some ("Access denied. This portal is for " ++ portal_type
                    ++ "s only.")).
Proof.
  intros Hauth Hportal. unfold AuthController.login. rewrite Hauth.
  rewrite expected_role_known.
  - destruct Hportal as [[= <- <-]|[[= <- <-]|[[= <- <-]|[]]]];
      cbn [String.eqb Ascii.eqb Bool.eqb Py.truthy negb andb User.role
           User.from_dict];
      now destruct (String.eqb (Row.p_role user_data) _).
  - destruct Hportal as [[= <- _]|[[= <- _]|[[= <- _]|[]]]]; cbn; tauto.
Qed.

End Portal.

(** C10: for a portal type that, lower-cased, is none of 'user', 'driver'
    and 'admin', no role is expected and [login] checks none: whoever
    authenticates is admitted, whatever the role.  The comparison of the
    role with the role of the portal is made for the three known portal
    types only. *)
Theorem C10_unknown_portal_skips_role_check
        (email password portal_type : string) (w : Backend.World)
        (user_data : Row.ProfileRow) :
  SupabaseService.login email password w = Py.Return (Some user_data) ->
  (~ In (Py.lower portal_type) ["user"; "driver"; "admin"] ->
   AuthController._get_expected_role portal_type = None /\
   AuthController.login email password portal_type w
   = (Some (User.from_dict user_data), None)) /\
  (forall role,
      In (Py.lower portal_type, role)
         [("user", "USER"); ("driver", "DRIVER"); ("admin", "ADMIN")] ->
      AuthController.login email password portal_type w =
      if String.eqb (Row.p_role user_data) role
      then (Some (User.from_dict user_data), None)
      else (None, Some ("Access denied. This portal is for " ++ portal_type
                        ++ "s only."))).
Proof.
  intros Hauth. split.
  - intros Hunknown.
    pose proof (expected_role_unknown portal_type Hunknown) as Hrole.
    split; [exact Hrole|].
    unfold AuthController.login. rewrite Hauth, Hrole. reflexivity.
  - intros role. now apply login_known_portal.
Qed.

Lemma C10_passenger_enters_staff_portal :
  let w := Backend.mkWorld [] []
             [Row.mkProfileRow "id-7" "rahim@example.com" "Rahim" "USER"]
             [Backend.mkAccount "id-7" "rahim@example.com" "secret1"]
             0 Scenario.clock_morning 0 (fun _ => true) in
  SupabaseService.login "rahim@example.com" "secret1" w
  = Py.Return (Some (Row.mkProfileRow "id-7" "rahim@example.com" "Rahim"
                       "USER")) /\
  ~ In (Py.lower "Staff") ["user"; "driver"; "admin"] /\
  AuthController.login "rahim@example.com" "secret1" "Staff" w
  = (Some (User.mk "id-7" "rahim@example.com" "Rahim" "USER"), None) /\
  AuthController.login "rahim@example.com" "secret1" "Admin" w
  = (None, Some "Access denied. This portal is for Admins only.").
Proof.
  intros w.
  assert (Hunknown : ~ In (Py.lower "Staff") ["user"; "driver"; "admin"]).
  { vm_compute. intros [H|[H|[H|[]]]]; discriminate. }
  split; [reflexivity|split; [exact Hunknown|split]].
  - apply (C10_unknown_portal_skips_role_check
             "rahim@example.com" "secret1" "Staff" w
             (Row.mkProfileRow "id-7" "rahim@example.com" "Rahim" "USER")
             eq_refl).
    exact Hunknown.
  - apply (proj2 (C10_unknown_portal_skips_role_check
                    "rahim@example.com" "secret1" "Admin" w
                    (Row.mkProfileRow "id-7" "rahim@example.com" "Rahim"
                       "USER") eq_refl) "ADMIN").
    vm_compute. tauto.
Defined.

(** * Further properties of the booking ledger *)

Section OwnerRequests.

Import Backend.

Lemma owned_is_listed (booking_id user_id : string) (w : World) :
  (exists r, In r (bookings w) /\ Row.id r = booking_id /\
             Row.user_id r = user_id) ->
  Py.str_in booking_id
    (map Booking.id
       (fst (BookingController.get_user_bookings user_id w))) = true.
Proof.
  intros (r & Hin & Hid & Huser). apply str_in_In.
  unfold BookingController.get_user_bookings,
    SupabaseService.get_bookings_by_user, bind, ret. cbn [fst].
  rewrite map_map. apply in_map_iff. exists r. split; [exact Hid|].
  apply -> in_rev. apply filter_In. split; [exact Hin|].
  now apply String.eqb_eq.
Qed.

Lemma cancel_booking_owned (booking_id user_id : string) (w : World) :
  (exists r, In r (bookings w) /\ Row.id r = booking_id /\
             Row.user_id r = user_id) ->
  BookingController.cancel_booking booking_id user_id w =
  ((true, None),
   set_bookings
     (map (fun r => if String.eqb (Row.id r) booking_id
                    then set_status "CANCELLED" r else r) (bookings w)) w).
Proof.
  intros Howned. pose proof (owned_is_listed _ _ _ Howned) as Hlisted.
  unfold BookingController.cancel_booking. unfold bind at 1.
  destruct (BookingController.get_user_bookings user_id w) as [bs w'] eqn:E.
  assert (w' = w) as ->.
  { unfold BookingController.get_user_bookings,
      SupabaseService.get_bookings_by_user, bind, ret in E.
    now injection E. }
  cbn [fst] in Hlisted. rewrite Hlisted. reflexivity.
Qed.

Lemma delete_booking_owned (booking_id user_id : string) (w : World) :
  (exists r, In r (bookings w) /\ Row.id r = booking_id /\
             Row.user_id r = user_id) ->
  BookingController.delete_booking booking_id user_id w =
  ((true, None),
   set_bookings
     (filter (fun r => negb (String.eqb (Row.id r) booking_id))
             (bookings w)) w).
Proof.
  intros Howned. pose proof (owned_is_listed _ _ _ Howned) as Hlisted.
  unfold BookingController.delete_booking. unfold bind at 1.
  destruct (BookingController.get_user_bookings user_id w) as [bs w'] eqn:E.
  assert (w' = w) as ->.
  { unfold BookingController.get_user_bookings,
      SupabaseService.get_bookings_by_user, bind, ret in E.
    now injection E. }
  cbn [fst] in Hlisted. rewrite Hlisted. reflexivity.
Qed.

Lemma requests_not_owned (booking_id user_id : string) (w : World) :
  (forall r, In r (bookings w) -> Row.id r = booking_id ->
             Row.user_id r <> user_id) ->
  BookingController.cancel_booking booking_id user_id w
  = ((false, Some "Booking not found or access denied."), w) /\
  BookingController.delete_booking booking_id user_id w
  = ((false, Some "Booking not found or access denied."), w).
Proof.
  intros Hforeign.
  pose proof (not_owned_not_listed booking_id user_id w Hforeign) as Hno.
  unfold BookingController.cancel_booking, BookingController.delete_booking.
  unfold bind at 1 3.
  destruct (BookingController.get_user_bookings user_id w) as [bs w'] eqn:E.
  assert (w' = w) as ->.
  { unfold BookingController.get_user_bookings,
      SupabaseService.get_bookings_by_user, bind, ret in E.
    now injection E. }
  cbn [fst] in Hno. rewrite Hno. split; reflexivity.
Qed.

End OwnerRequests.

(** X1: the owner of a booking can cancel it.  The request succeeds, every
    row bearing that id ends up CANCELLED, the rows with another id are
    exactly those of before, and no row is added or removed. *)
Theorem X1_owner_cancel_marks_cancelled (booking_id user_id : string)
        (w : Backend.World) :
  (exists r, In r (Backend.bookings w) /\ Row.id r = booking_id /\
             Row.user_id r = user_id) ->
  let res := BookingController.cancel_booking booking_id user_id w in
  fst res = (true, None) /\
  length (Backend.bookings (snd res)) = length (Backend.bookings w) /\
  (forall r, In r (Backend.bookings (snd res)) -> Row.id r = booking_id ->
             Row.status r = "CANCELLED") /\
  (forall r, Row.id r <> booking_id ->
             (In r (Backend.bookings (snd res)) <->
              In r (Backend.bookings w))) /\
  map Row.id (Backend.bookings (snd res)) = map Row.id (Backend.bookings w).
Proof.
  intros Howned res. subst res. rewrite (cancel_booking_owned _ _ _ Howned).
  cbn [fst snd Backend.bookings Backend.set_bookings].
  split; [reflexivity|]. split; [apply length_map|]. split; [|split].
  - intros r Hin Hid. apply in_map_iff in Hin as (r0 & Hr & _).
    destruct (String.eqb_spec (Row.id r0) booking_id) as [_|Hne].
    + now subst r.
    + subst r. contradiction.
  - intros r Hne. rewrite in_map_iff. split.
    + intros (r0 & Hr & Hin).
      destruct (String.eqb_spec (Row.id r0) booking_id) as [He|_].
      * subst r. cbn in Hne. contradiction.
      * now subst r0.
    + intros Hin. exists r. split; [|exact Hin].
      apply String.eqb_neq in Hne. now rewrite Hne.
  - rewrite map_map. apply map_ext. intros r.
    now destruct (String.eqb (Row.id r) booking_id).
Qed.

Lemma X1_passenger_cancels_own_booking :
  let w := Scenario.booked_twice in
  (exists r, In r (Backend.bookings w) /\ Row.id r = "booking-0" /\
             Row.user_id r = "u1") /\
  fst (BookingController.cancel_booking "booking-0" "u1" w) = (true, None) /\
  map (fun r => (Row.id r, Row.status r))
      (Backend.bookings
         (snd (BookingController.cancel_booking "booking-0" "u1" w)))
  = [("booking-0", "CANCELLED"); ("booking-1", "CONFIRMED")].
Proof.
  intros w.
  assert (Howned : exists r, In r (Backend.bookings w) /\
                             Row.id r = "booking-0" /\ Row.user_id r = "u1").
  { eexists. split; [left; reflexivity|split; reflexivity]. }
  split; [exact Howned|].
  split; [apply (X1_owner_cancel_marks_cancelled "booking-0" "u1" w Howned)|].
  reflexivity.
Defined.

(** X2: cancelling is repeatable.  When the owner cancels a booking a second
    time the request succeeds again and the world is the one the first
    cancellation left. *)
Theorem X2_second_cancel_changes_nothing (booking_id user_id : string)
        (w : Backend.World) :
  (exists r, In r (Backend.bookings w) /\ Row.id r = booking_id /\
             Row.user_id r = user_id) ->
  let w1 := snd (BookingController.cancel_booking booking_id user_id w) in
  BookingController.cancel_booking booking_id user_id w1 = ((true, None), w1).
Proof.
  intros Howned w1. subst w1. rewrite (cancel_booking_owned _ _ _ Howned).
  cbn [snd].
  rewrite cancel_booking_owned.
  - f_equal. unfold Backend.set_bookings. cbn [Backend.bookings Backend.buses
      Backend.profiles Backend.accounts Backend.next_id Backend.clock
      Backend.ticks].
    f_equal. rewrite map_map. apply map_ext. intros r.
    destruct (String.eqb (Row.id r) booking_id) eqn:E; cbn [Backend.set_status Row.id];
      now rewrite E.
  - destruct Howned as (r & Hin & Hid & Huser).
    exists (Backend.set_status "CANCELLED" r).
    cbn [Backend.bookings Backend.set_bookings].
    split; [|split; assumption].
    apply in_map_iff. exists r. split; [|exact Hin].
    apply String.eqb_eq in Hid. now rewrite Hid.
Qed.

Lemma X2_cancel_twice :
  let w := Scenario.booked_twice in
  let w1 := snd (BookingController.cancel_booking "booking-0" "u1" w) in
  (exists r, In r (Backend.bookings w) /\ Row.id r = "booking-0" /\
             Row.user_id r = "u1") /\
  BookingController.cancel_booking "booking-0" "u1" w1 = ((true, None), w1).
Proof.
  intros w w1.
  assert (Howned : exists r, In r (Backend.bookings w) /\
                             Row.id r = "booking-0" /\ Row.user_id r = "u1").
  { eexists. split; [left; reflexivity|split; reflexivity]. }
  split; [exact Howned|].
  apply (X2_second_cancel_changes_nothing "booking-0" "u1" w Howned).
Defined.

(** X3: the owner of a booking can delete it.  The request succeeds and
    removes the rows bearing that id and no other; asked again, whether to
    delete or to cancel, it is refused as not found, and changes nothing. *)
Theorem X3_owner_delete_removes_for_good (booking_id user_id : string)
        (w : Backend.World) :
  (exists r, In r (Backend.bookings w) /\ Row.id r = booking_id /\
             Row.user_id r = user_id) ->
  let res := BookingController.delete_booking booking_id user_id w in
  fst res = (true, None) /\
  (forall r, In r (Backend.bookings (snd res)) <->
             In r (Backend.bookings w) /\ Row.id r <> booking_id) /\
  BookingController.delete_booking booking_id user_id (snd res)
  = ((false, Some "Booking not found or access denied."), snd res) /\
  BookingController.cancel_booking booking_id user_id (snd res)
  = ((false, Some "Booking not found or access denied."), snd res).
Proof.
  intros Howned res. subst res. rewrite (delete_booking_owned _ _ _ Howned).
  cbn [fst snd].
  assert (Hgone : forall r,
             In r (Backend.bookings
                     (Backend.set_bookings
                        (filter (fun r => negb (String.eqb (Row.id r)
                                                  booking_id))
                                (Backend.bookings w)) w)) ->
             Row.id r = booking_id -> Row.user_id r <> user_id).
  { cbn [Backend.bookings Backend.set_bookings]. intros r Hin Hid.
    apply filter_In in Hin as (_ & Hne).
    apply String.eqb_eq in Hid. now rewrite Hid in Hne. }
  split; [reflexivity|split; [|split]].
  - intros r. cbn [Backend.bookings Backend.set_bookings].
    rewrite filter_In, negb_true_iff, String.eqb_neq. tauto.
  - apply (requests_not_owned _ _ _ Hgone).
  - apply (requests_not_owned _ _ _ Hgone).
Qed.

Lemma X3_passenger_deletes_own_booking :
  let w := Scenario.booked_twice in
  let res := BookingController.delete_booking "booking-0" "u1" w in
  (exists r, In r (Backend.bookings w) /\ Row.id r = "booking-0" /\
             Row.user_id r = "u1") /\
  fst res = (true, None) /\
  map Row.id (Backend.bookings (snd res)) = ["booking-1"] /\
  fst (BookingController.delete_booking "booking-0" "u1" (snd res))
  = (false, Some "Booking not found or access denied.").
Proof.
  intros w res.
  assert (Howned : exists r, In r (Backend.bookings w) /\
                             Row.id r = "booking-0" /\ Row.user_id r = "u1").
  { eexists. split; [left; reflexivity|split; reflexivity]. }
  destruct (X3_owner_delete_removes_for_good "booking-0" "u1" w Howned)
    as (Hres & _ & Hagain & _).
  split; [exact Howned|split; [exact Hres|split; [reflexivity|]]].
  subst res. now rewrite Hagain.
Defined.

Section History.

Import Backend.

Lemma get_user_bookings_spec (user_id : string) (w : World) (b : Booking.t) :
  In b (fst (BookingController.get_user_bookings user_id w)) <->
  exists r, In r (bookings w) /\ Row.user_id r = user_id /\
            b = Booking.from_dict r.
Proof.
  unfold BookingController.get_user_bookings,
    SupabaseService.get_bookings_by_user, bind, ret. cbn [fst].
  rewrite in_map_iff. split.
  - intros (r & <- & Hin). apply in_rev, filter_In in Hin as (Hin & Hu).
    apply String.eqb_eq in Hu. eauto.
  - intros (r & Hin & Hu & ->). exists r. split; [reflexivity|].
    apply -> in_rev. apply filter_In. split; [exact Hin|].
    now apply String.eqb_eq.
Qed.

Lemma get_confirmed_bookings_spec (user_id : string) (w : World)
      (b : Booking.t) :
  In b (fst (BookingController.get_confirmed_bookings user_id w)) <->
  In b (fst (BookingController.get_user_bookings user_id w)) /\
  Booking.status b = "CONFIRMED".
Proof.
  unfold BookingController.get_confirmed_bookings. unfold bind at 1.
  destruct (BookingController.get_user_bookings user_id w) as [bs w'].
  cbn [fst ret]. rewrite filter_In. unfold Booking.isConfirmed.
  now rewrite String.eqb_eq.
Qed.

End History.

(** X4: a cancelled booking stays in the history of its owner but leaves the
    confirmed ones, while a deleted booking leaves both: after the owner's
    cancel the bookings listed for the user still show that id, with status
    CANCELLED, and the confirmed bookings do not show it; after the owner's
    delete neither list shows it. *)
Theorem X4_cancel_keeps_history_delete_does_not
        (booking_id user_id : string) (w : Backend.World) :
  (exists r, In r (Backend.bookings w) /\ Row.id r = booking_id /\
             Row.user_id r = user_id) ->
  let cancelled :=
    snd (BookingController.cancel_booking booking_id user_id w) in
  let deleted :=
    snd (BookingController.delete_booking booking_id user_id w) in
  (exists b,
      In b (fst (BookingController.get_user_bookings user_id cancelled)) /\
      Booking.id b = booking_id /\ Booking.status b = "CANCELLED") /\
  (forall b,
      In b (fst (BookingController.get_confirmed_bookings user_id cancelled))
      -> Booking.id b <> booking_id) /\
  (forall b,
      In b (fst (BookingController.get_user_bookings user_id deleted)) ->
      Booking.id b <> booking_id).
Proof.
  intros Howned cancelled deleted. subst cancelled deleted.
  rewrite (cancel_booking_owned _ _ _ Howned),
    (delete_booking_owned _ _ _ Howned). cbn [snd].
  split; [|split].
  - destruct Howned as (r & Hin & Hid & Huser).
    exists (Booking.from_dict (Backend.set_status "CANCELLED" r)).
    split; [|split; [exact Hid|reflexivity]].
    apply get_user_bookings_spec.
    exists (Backend.set_status "CANCELLED" r).
    split; [|split; [exact Huser|reflexivity]].
    cbn [Backend.bookings Backend.set_bookings].
    apply in_map_iff. exists r. split; [|exact Hin].
    apply String.eqb_eq in Hid. now rewrite Hid.
  - intros b Hb Hid.
    apply get_confirmed_bookings_spec in Hb as (Hb & Hstatus).
    apply get_user_bookings_spec in Hb as (r & Hin & _ & ->).
    cbn [Backend.bookings Backend.set_bookings] in Hin.
    apply in_map_iff in Hin as (r0 & <- & _).
    cbn [Booking.from_dict Booking.id Booking.status] in Hid, Hstatus.
    destruct (String.eqb_spec (Row.id r0) booking_id) as [_|Hne].
    + cbn in Hstatus. discriminate.
    + contradiction.
  - intros b Hb Hid.
    apply get_user_bookings_spec in Hb as (r & Hin & _ & ->).
    cbn [Backend.bookings Backend.set_bookings] in Hin.
    apply filter_In in Hin as (_ & Hne).
    cbn [Booking.from_dict Booking.id] in Hid.
    apply String.eqb_eq in Hid. now rewrite Hid in Hne.
Qed.

Lemma X4_history_after_cancel_and_delete :
  let w := Scenario.booked_twice in
  (exists r, In r (Backend.bookings w) /\ Row.id r = "booking-0" /\
             Row.user_id r = "u1") /\
  map (fun b => (Booking.id b, Booking.status b))
      (fst (BookingController.get_user_bookings "u1"
              (snd (BookingController.cancel_booking "booking-0" "u1" w))))
  = [("booking-0", "CANCELLED")] /\
  (forall b,
      In b (fst (BookingController.get_user_bookings "u1"
                   (snd (BookingController.delete_booking "booking-0" "u1"
                           w)))) ->
      Booking.id b <> "booking-0").
Proof.
  intros w.
  assert (Howned : exists r, In r (Backend.bookings w) /\
                             Row.id r = "booking-0" /\ Row.user_id r = "u1").
  { eexists. split; [left; reflexivity|split; reflexivity]. }
  split; [exact Howned|split; [reflexivity|]].
  apply (X4_cancel_keeps_history_delete_does_not "booking-0" "u1" w Howned).
Defined.

(** X5: the bookings listed for a user are all the bookings of that user,
    cancelled ones included, and no booking of anybody else; listing them
    changes nothing. *)
Theorem X5_user_sees_own_bookings_only (user_id : string)
        (w : Backend.World) :
  (forall b,
      In b (fst (BookingController.get_user_bookings user_id w)) ->
      Booking.user_id b = user_id) /\
  (forall r, In r (Backend.bookings w) -> Row.user_id r = user_id ->
             In (Booking.from_dict r)
                (fst (BookingController.get_user_bookings user_id w))) /\
  snd (BookingController.get_user_bookings user_id w) = w.
Proof.
  split; [|split].
  - intros b Hb. apply get_user_bookings_spec in Hb as (r & _ & Hu & ->).
    exact Hu.
  - intros r Hin Hu. apply get_user_bookings_spec. eauto.
  - reflexivity.
Qed.

Section Monotone.

Import Backend.

Lemma create_multiple_bookings_appends u b seats src dst p (w : World) :
  exists rows notes,
    fst (BookingController.create_multiple_bookings u b seats src dst p w)
    = (map Booking.from_dict rows, notes) /\
    bookings (snd (BookingController.create_multiple_bookings u b seats src
                     dst p w))
    = app (bookings w) rows /\
    length rows <= 5 /\
    Forall (fun r => Ledger.confirmed r = true) rows.
Proof.
  unfold BookingController.create_multiple_bookings.
  change Config.MAX_SEATS_PER_BOOKING with 5.
  destruct (5 <? length seats) eqn:Hlen.
  - exists [], ["Cannot book more than 5 seats at once."].
    cbn [fst snd ret map length]. rewrite app_nil_r.
    split; [reflexivity|split; [reflexivity|split; [lia|constructor]]].
  - apply Nat.ltb_ge in Hlen.
    destruct (book_each_spec u b src dst p seats [] [] w)
      as (rows & notes & Hres & Hledger & Hcount & Hall).
    exists rows, notes.
    split; [exact Hres|split; [exact Hledger|split; [lia|exact Hall]]].
Qed.

Lemma cancel_or_delete_confirms_nothing (cancel : bool)
      (booking_id user_id : string) (w : World) (r : Row.BookingRow) :
  In r (bookings
          (snd (if cancel
                then BookingController.cancel_booking booking_id user_id w
                else BookingController.delete_booking booking_id user_id w)))
  -> Ledger.confirmed r = true -> In r (bookings w).
Proof.
  destruct cancel.
  - unfold BookingController.cancel_booking,
      BookingController.get_user_bookings,
      SupabaseService.get_bookings_by_user, bind, ret.
    cbv beta iota zeta. destruct (negb _); [auto|].
    unfold SupabaseService.cancel_booking. cbv beta iota zeta.
    cbn [snd bookings set_bookings]. intros Hin Hconf.
    apply in_map_iff in Hin as (r0 & Hr & Hin).
    destruct (String.eqb (Row.id r0) booking_id); [|now subst].
    subst r. discriminate.
  - unfold BookingController.delete_booking,
      BookingController.get_user_bookings,
      SupabaseService.get_bookings_by_user, bind, ret.
    cbv beta iota zeta. destruct (negb _); [auto|].
    unfold SupabaseService.delete_booking. cbv beta iota zeta.
    cbn [snd bookings set_bookings]. intros Hin _.
    now apply filter_In in Hin.
Qed.

End Monotone.

(** X6: no request brings a booking back to CONFIRMED.  Booking requests
    leave every row of the ledger as it is and only append CONFIRMED rows;
    after a cancel or delete request, by whomever, every CONFIRMED row was
    already in the ledger, CONFIRMED, before. *)
Theorem X6_cancelled_is_terminal (q : Ledger.request) (w : Backend.World) :
  match q with
  | Ledger.CreateBooking _ _ _ _ _ _
  | Ledger.CreateMultipleBookings _ _ _ _ _ _ =>
      exists rows,
        Backend.bookings (Ledger.serve q w) = app (Backend.bookings w) rows /\
        Forall (fun r => Ledger.confirmed r = true) rows
  | Ledger.CancelBooking _ _ | Ledger.DeleteBooking _ _ =>
      forall r, In r (Backend.bookings (Ledger.serve q w)) ->
                Ledger.confirmed r = true -> In r (Backend.bookings w)
  end.
Proof.
  destruct q as [u b s src dst p|u b ss src dst p|i u|i u];
    cbn [Ledger.serve].
  - rewrite create_booking_ledger. cbv zeta.
    destruct (SupabaseService.existing _ w).
    + eexists. split; [reflexivity|]. now constructor.
    + exists []. now rewrite app_nil_r.
  - destruct (create_multiple_bookings_appends u b ss src dst p w)
      as (rows & notes & _ & Hledger & _ & Hall).
    now exists rows.
  - intros r. apply (cancel_or_delete_confirms_nothing true).
  - intros r. apply (cancel_or_delete_confirms_nothing false).
Qed.

(** X7: one batch request never books more than 5 seats, however many
    labels it is given, and the ledger grows by exactly the bookings it
    reports. *)
Theorem X7_batch_books_at_most_five
        (user_id bus_id : string) (seat_numbers : list string)
        (source destination : string) (price_per_seat : Z)
        (w : Backend.World) :
  let r := BookingController.create_multiple_bookings user_id bus_id
             seat_numbers source destination price_per_seat w in
  length (fst (fst r)) <= 5 /\
  length (Backend.bookings (snd r))
  = length (Backend.bookings w) + length (fst (fst r)).
Proof.
  cbv zeta.
  destruct (create_multiple_bookings_appends user_id bus_id seat_numbers
              source destination price_per_seat w)
    as (rows & notes & Hres & Hledger & Hlen & _).
  rewrite Hres, Hledger. cbn [fst]. rewrite length_map, length_app.
  split; [exact Hlen|reflexivity].
Qed.

Section LayoutAndAdmission.

Import Backend.

(** The seat check finds a row exactly when the occupancy query, asked for
    the stamp of the attempt, lists the seat. *)
Lemma existing_iff_listed u b s src dst p (t : Datetime.datetime)
      (w : World) :
  SupabaseService.existing (Ledger.booking_data_at u b s src dst p t) w = []
  <-> ~ In s (fst (BookingController.get_occupied_seats b
                     (Some (Datetime.isoformat t)) w)).
Proof.
  split; [|apply free_seat_not_existing].
  intros Hnone Hin.
  rewrite (get_occupied_seats_given _ _ _ (isoformat_not_empty t)) in Hin.
  cbn [fst] in Hin. apply in_map_iff in Hin as (r & Hseat & Hin).
  apply filter_In in Hin as (Hin & Hr).
  rewrite !andb_true_iff, String.eqb_eq in Hr.
  destruct Hr as ((Hbus & Hconf) & Hwin).
  assert (Hfound : In r (SupabaseService.existing
                           (Ledger.booking_data_at u b s src dst p t) w)).
  { apply existing_spec. cbn [Ledger.booking_data_at Row.d_bus_id
      Row.d_seat_number Row.d_date]. auto. }
  rewrite Hnone in Hfound. destruct Hfound.
Qed.

End LayoutAndAdmission.

(** X8: what the seat map shows is what the admission decides.  An attempt
    is admitted exactly when the occupancy query, asked for the instant of
    the attempt, does not list the seat; when it lists the seat the attempt
    is refused with the message that the seat is already booked, and the
    ledger is left as it was. *)
Theorem X8_admitted_iff_seat_shown_free
        (user_id bus_id seat_number source destination : string)
        (price : Z) (w : Backend.World) :
  let t := Backend.clock w (Backend.ticks w) in
  let shown := fst (BookingController.get_occupied_seats bus_id
                      (Some (Datetime.isoformat t)) w) in
  let r := BookingController.create_booking user_id bus_id seat_number
             source destination price w in
  (Ledger.is_some (fst (fst r)) = true <-> ~ In seat_number shown) /\
  (In seat_number shown ->
   fst r = (None, Some ("Seat " ++ seat_number ++ " is already booked.")) /\
   Backend.bookings (snd r) = Backend.bookings w).
Proof.
  cbv zeta. rewrite create_booking_unfold. cbv zeta.
  pose proof (existing_iff_listed user_id bus_id seat_number source
                destination price
                (Backend.clock w (Backend.ticks w)) w) as Hiff.
  destruct (SupabaseService.existing _ w) as [|r0 rs].
  - split.
    + split; [intros _; now apply Hiff|reflexivity].
    + intros Hin. exfalso. now apply (proj1 Hiff).
  - split.
    + split; [discriminate|]. intros Hfree.
      apply Hiff in Hfree. discriminate.
    + intros _. split; reflexivity.
Qed.

Lemma X8_taken_seat_is_refused :
  let w := Scenario.booked_once in
  In "A1" (fst (BookingController.get_occupied_seats "bus1"
                  (Some (Datetime.isoformat
                           (Backend.clock w (Backend.ticks w)))) w)) /\
  fst (BookingController.create_booking "u2" "bus1" "A1" "Uttara" "Banani"
         50 w)
  = (None, Some "Seat A1 is already booked.").
Proof.
  intros w.
  assert (Hshown : In "A1"
            (fst (BookingController.get_occupied_seats "bus1"
                    (Some (Datetime.isoformat
                             (Backend.clock w (Backend.ticks w)))) w)))
    by (vm_compute; tauto).
  split; [exact Hshown|].
  apply (X8_admitted_iff_seat_shown_free "u2" "bus1" "A1" "Uttara" "Banani"
           50 w).
  exact Hshown.
Defined.

(** X9: a booking shows up on the seat map.  After an admitted attempt
    stamped before the last second of its day, the occupancy query for any
    instant of that calendar day lists the seat just booked together with
    the seats it listed before, each as often as before; for another bus it
    lists what it listed before.  Nothing is said about the order of the
    seats, for which the query does not ask. *)
Theorem X9_admitted_booking_is_listed
        (user_id bus_id seat_number source destination : string)
        (price : Z) (w : Backend.World) (q : Datetime.datetime) :
  let t := Backend.clock w (Backend.ticks w) in
  let r := BookingController.create_booking user_id bus_id seat_number
             source destination price w in
  Ledger.is_some (fst (fst r)) = true ->
  Datetime.well_formed t -> Datetime.final_second t = false ->
  Datetime.same_day t q ->
  Permutation
    (fst (BookingController.get_occupied_seats bus_id
            (Some (Datetime.isoformat q)) (snd r)))
    (seat_number
     :: fst (BookingController.get_occupied_seats bus_id
               (Some (Datetime.isoformat q)) w)) /\
  forall other,
    other <> bus_id ->
    Permutation
      (fst (BookingController.get_occupied_seats other
              (Some (Datetime.isoformat q)) (snd r)))
      (fst (BookingController.get_occupied_seats other
              (Some (Datetime.isoformat q)) w)).
Proof.
  cbv zeta. intros Hok Hwf Hfin (Hy & Hm & Hd).
  rewrite !(get_occupied_seats_given _ _ _ (isoformat_not_empty q)).
  rewrite create_booking_unfold in *. cbv zeta in *.
  destruct (SupabaseService.existing _ w); [|discriminate].
  cbn [fst snd Backend.bookings].
  assert (Hwin : Backend.date_between
                   (Py.split_T_head (Datetime.isoformat q))
                   (Py.split_T_head (Datetime.isoformat q) ++ "T23:59:59")
                   (Backend.new_row
                      (Ledger.booking_data_at user_id bus_id seat_number
                         source destination price
                         (Backend.clock w (Backend.ticks w)))
                      (Backend.next_id w)) = true).
  { unfold Backend.date_between.
    cbn [Backend.new_row Row.date Ledger.booking_data_at Row.d_date].
    rewrite split_T_head_isoformat, (day_window _ _ Hwf), Hfin.
    unfold Datetime.iso_date. rewrite Hy, Hm, Hd.
    now rewrite String.eqb_refl. }
  split.
  - rewrite filter_app, map_app.
    cbn [filter]. rewrite Hwin.
    cbn [Backend.new_row Row.bus_id Ledger.booking_data_at Row.d_bus_id
         Ledger.confirmed Row.status Row.d_status].
    rewrite String.eqb_refl.
    apply Permutation_sym, Permutation_cons_append.
  - intros other Hother.
    rewrite !(get_occupied_seats_given _ _ _ (isoformat_not_empty q)).
    cbn [fst Backend.bookings]. rewrite filter_app, map_app.
    cbn [filter Backend.new_row Row.bus_id Ledger.booking_data_at
         Row.d_bus_id].
    apply not_eq_sym, String.eqb_neq in Hother. rewrite Hother.
    cbn [andb map]. now rewrite app_nil_r.
Qed.

Lemma X9_morning_booking_is_listed :
  let w := Scenario.booked_once in
  let t := Backend.clock w (Backend.ticks w) in
  let r := BookingController.create_booking "u2" "bus1" "A2" "Banani"
             "Farmgate" 50 w in
  Ledger.is_some (fst (fst r)) = true /\
  Datetime.well_formed t /\ Datetime.final_second t = false /\
  Datetime.same_day t t /\
  Permutation
    (fst (BookingController.get_occupied_seats "bus1"
            (Some (Datetime.isoformat t)) (snd r)))
    ["A2"; "A1"].
Proof.
  intros w t r.
  assert (Hok : Ledger.is_some (fst (fst r)) = true) by reflexivity.
  assert (Hwf : Datetime.well_formed t)
    by (vm_compute; repeat split; discriminate).
  assert (Hfin : Datetime.final_second t = false) by reflexivity.
  assert (Hday : Datetime.same_day t t) by (repeat split).
  repeat (split; [assumption|]).
  destruct (X9_admitted_booking_is_listed "u2" "bus1" "A2" "Banani"
              "Farmgate" 50 w t Hok Hwf Hfin Hday) as (Hlisted & _).
  exact Hlisted.
Defined.

Section FreedSeat.

Import Backend.

(** The rows the occupancy query reads once the rows of one id have been
    set to CANCELLED. *)
Lemma listed_after_cancel (booking_id bus_id date_str : string)
      (bs : list Row.BookingRow) :
  filter (fun r => String.eqb (Row.bus_id r) bus_id
                   && Ledger.confirmed r
                   && date_between (Py.split_T_head date_str)
                        (Py.split_T_head date_str ++ "T23:59:59") r)
         (map (fun r => if String.eqb (Row.id r) booking_id
                        then set_status "CANCELLED" r else r) bs)
  = filter (fun r => negb (String.eqb (Row.id r) booking_id))
      (filter (fun r => String.eqb (Row.bus_id r) bus_id
                        && Ledger.confirmed r
                        && date_between (Py.split_T_head date_str)
                             (Py.split_T_head date_str ++ "T23:59:59") r)
              bs).
Proof.
  induction bs as [|r bs IH]; [reflexivity|].
  cbn [map filter]. rewrite IH.
  destruct (String.eqb (Row.id r) booking_id) eqn:Hid.
  - cbn [set_status Row.bus_id Ledger.confirmed Row.status String.eqb].
    replace (String.eqb "CANCELLED" "CONFIRMED") with false by reflexivity.
    rewrite andb_false_r. cbn [andb].
    destruct (_ && _ && _); cbn [filter]; now rewrite ?Hid.
  - destruct (_ && _ && _); cbn [filter]; now rewrite ?Hid.
Qed.

End FreedSeat.

(** X10: cancelling frees the seat.  After the owner's cancel the occupancy
    query lists, for any bus and date, the seats of the rows it read before
    except those of the cancelled booking; and when the cancelled booking
    was the only one holding a seat at that instant, a new attempt for the
    seat is admitted. *)
Theorem X10_cancel_frees_the_seat (booking_id user_id : string)
        (w : Backend.World) :
  (exists r, In r (Backend.bookings w) /\ Row.id r = booking_id /\
             Row.user_id r = user_id) ->
  let w1 := snd (BookingController.cancel_booking booking_id user_id w) in
  (forall bus_id date_str,
      date_str <> "" ->
      fst (BookingController.get_occupied_seats bus_id (Some date_str) w1)
      = map Row.seat_number
          (filter (fun r => negb (String.eqb (Row.id r) booking_id))
             (fst (SupabaseService.get_bus_bookings_for_date bus_id
                     date_str w)))) /\
  (forall other bus_id seat_number source destination price,
      (forall r,
          In r (fst (SupabaseService.get_bus_bookings_for_date bus_id
                       (Datetime.isoformat
                          (Backend.clock w (Backend.ticks w))) w)) ->
          Row.seat_number r = seat_number -> Row.id r = booking_id) ->
      Ledger.is_some
        (fst (fst (BookingController.create_booking other bus_id
                     seat_number source destination price w1))) = true).
Proof.
  intros Howned w1. subst w1. rewrite (cancel_booking_owned _ _ _ Howned).
  cbn [snd]. split.
  - intros bus_id date_str Hne.
    rewrite (get_occupied_seats_given _ _ _ Hne).
    cbn [fst Backend.bookings Backend.set_bookings].
    rewrite listed_after_cancel. reflexivity.
  - intros other bus_id seat src dst p Honly.
    pose proof (X := existing_iff_listed other bus_id seat src dst p
                       (Backend.clock w (Backend.ticks w))).
    rewrite create_booking_unfold. cbv zeta.
    cbn [Backend.clock Backend.ticks Backend.set_bookings].
    match goal with
    | |- context [SupabaseService.existing ?d ?w1] =>
        assert (Hex : SupabaseService.existing d w1 = [])
    end; [|now rewrite Hex].
    apply X.
    rewrite (get_occupied_seats_given _ _ _ (isoformat_not_empty _)).
    cbn [fst Backend.bookings Backend.set_bookings].
    rewrite listed_after_cancel. intros Hin.
    apply in_map_iff in Hin as (r & Hseat & Hin).
    apply filter_In in Hin as (Hin & Hid).
    assert (Hsame : Row.id r = booking_id) by (apply Honly; assumption).
    apply String.eqb_eq in Hsame. now rewrite Hsame in Hid.
Qed.

Lemma X10_cancelled_seat_can_be_booked_again :
  let w := Scenario.booked_twice in
  let w1 := snd (BookingController.cancel_booking "booking-0" "u1" w) in
  (exists r, In r (Backend.bookings w) /\ Row.id r = "booking-0" /\
             Row.user_id r = "u1") /\
  fst (BookingController.get_occupied_seats "bus1" (Some "2024-12-15") w)
  = ["A1"; "A2"] /\
  fst (BookingController.get_occupied_seats "bus1" (Some "2024-12-15") w1)
  = ["A2"] /\
  Ledger.is_some
    (fst (fst (BookingController.create_booking "u3" "bus1" "A1" "Uttara"
                 "Banani" 50 w1))) = true.
Proof.
  intros w w1.
  assert (Howned : exists r, In r (Backend.bookings w) /\
                             Row.id r = "booking-0" /\ Row.user_id r = "u1").
  { eexists. split; [left; reflexivity|split; reflexivity]. }
  destruct (X10_cancel_frees_the_seat "booking-0" "u1" w Howned)
    as (Hlist & Hfree).
  split; [exact Howned|split; [reflexivity|split]].
  - subst w1. rewrite Hlist by discriminate. reflexivity.
  - apply Hfree. intros r [<-|[<-|[]]]; vm_compute; congruence.
Defined.

Section FreeSeats.

Import Backend.

Variables (user_id bus_id source destination : string).
Variable (price_per_seat : Z).

(** The seat check depends on the stamp of an attempt through its calendar
    day only. *)
Lemma existing_same_day (s : string) (t t' : Datetime.datetime) (w : World) :
  Datetime.same_day t t' ->
  SupabaseService.existing
    (Ledger.booking_data_at user_id bus_id s source destination
       price_per_seat t) w
  = SupabaseService.existing
      (Ledger.booking_data_at user_id bus_id s source destination
         price_per_seat t') w.
Proof.
  intros (Hy & Hm & Hd). unfold SupabaseService.existing.
  cbn [Ledger.booking_data_at Row.d_date Row.d_bus_id Row.d_seat_number].
  rewrite !split_T_head_isoformat. unfold Datetime.iso_date.
  now rewrite Hy, Hm, Hd.
Qed.

(** Seats that are free and pairwise distinct are all confirmed by the loop
    of a batch whose attempts are stamped on one calendar day. *)
Lemma book_each_free_seats (t0 : Datetime.datetime)
      (seat_numbers : list string) (successful_bookings : list Booking.t)
      (errors : list string) (w : World) :
  NoDup seat_numbers ->
  (forall i, i < length seat_numbers ->
             Datetime.same_day (clock w (ticks w + i)) t0) ->
  (forall s, In s seat_numbers ->
             SupabaseService.existing
               (Ledger.booking_data_at user_id bus_id s source destination
                  price_per_seat t0) w = []) ->
  exists rows,
    fst (BookingController.book_each user_id bus_id seat_numbers source
           destination price_per_seat successful_bookings errors w)
    = (app successful_bookings (map Booking.from_dict rows), errors) /\
    map Row.seat_number rows = seat_numbers /\
    Forall (fun r => Row.status r = "CONFIRMED") rows.
Proof.
  revert successful_bookings errors w.
  induction seat_numbers as [|s rest IH]; intros acc errs w Hnodup Hday Hfree.
  - exists []. cbn. rewrite app_nil_r. auto.
  - cbn [BookingController.book_each]. unfold bind.
    rewrite create_booking_unfold. cbv zeta.
    assert (H0 : Datetime.same_day (clock w (ticks w)) t0).
    { rewrite <- (Nat.add_0_r (ticks w)). apply Hday. cbn. lia. }
    rewrite (existing_same_day s _ _ w H0), (Hfree s (or_introl eq_refl)).
    set (row := new_row _ (next_id w)).
    inversion Hnodup as [|s' rest' Hnotin Hnodup']; subst.
    lazymatch goal with
    | |- context [BookingController.book_each _ _ _ _ _ _ ?a ?e ?w1] =>
        destruct (IH a e w1 Hnodup') as (rows & Hres & Hseats & Hall)
    end.
    + intros i Hi. cbn [clock ticks].
      replace (S (ticks w) + i) with (ticks w + S i) by lia.
      apply Hday. cbn [length]. lia.
    + intros s' Hin. unfold SupabaseService.existing. cbn [bookings].
      rewrite filter_app.
      fold (SupabaseService.existing
              (Ledger.booking_data_at user_id bus_id s' source destination
                 price_per_seat t0) w).
      rewrite (Hfree s' (or_intror Hin)). cbn [app filter].
      subst row.
      cbn [new_row Row.seat_number Ledger.booking_data_at Row.d_seat_number
           Row.bus_id Row.d_bus_id].
      assert (Hne : String.eqb s s' = false).
      { apply String.eqb_neq. intros ->. contradiction. }
      rewrite Hne, andb_false_r. reflexivity.
    + exists (row :: rows). rewrite Hres. cbn [map].
      rewrite <- app_assoc. split; [reflexivity|split].
      * now rewrite Hseats.
      * constructor; [reflexivity|exact Hall].
Qed.

End FreeSeats.

(** X11: a batch of at most 5 pairwise distinct seats that the seat map
    shows free is confirmed in full, in the order asked and without any
    failure, when all its attempts are stamped on one calendar day. *)
Theorem X11_free_distinct_seats_all_booked
        (user_id bus_id : string) (seat_numbers : list string)
        (source destination : string) (price_per_seat : Z)
        (w : Backend.World) :
  let t0 := Backend.clock w (Backend.ticks w) in
  let r := BookingController.create_multiple_bookings user_id bus_id
             seat_numbers source destination price_per_seat w in
  length seat_numbers <= 5 ->
  NoDup seat_numbers ->
  (forall i, i < length seat_numbers ->
             Datetime.same_day (Backend.clock w (Backend.ticks w + i)) t0) ->
  (forall s, In s seat_numbers ->
             ~ In s (fst (BookingController.get_occupied_seats bus_id
                            (Some (Datetime.isoformat t0)) w))) ->
  snd (fst r) = [] /\
  map Booking.seat_number (fst (fst r)) = seat_numbers /\
  Forall (fun b => Booking.status b = "CONFIRMED") (fst (fst r)).
Proof.
  cbv zeta. intros Hlen Hnodup Hday Hfree.
  unfold BookingController.create_multiple_bookings.
  change Config.MAX_SEATS_PER_BOOKING with 5.
  apply Nat.leb_le in Hlen. rewrite Nat.ltb_antisym, Hlen. cbn [negb].
  destruct (book_each_free_seats user_id bus_id source destination
              price_per_seat (Backend.clock w (Backend.ticks w))
              seat_numbers [] [] w Hnodup Hday) as (rows & Hres & Hseats & Hall).
  { intros s Hin. apply existing_iff_listed. now apply Hfree. }
  rewrite Hres. cbn [fst snd app]. split; [reflexivity|split].
  - now rewrite map_map.
  - apply Forall_map. exact Hall.
Qed.

Lemma X11_three_free_seats :
  let w := Scenario.booked_once in
  let t0 := Backend.clock w (Backend.ticks w) in
  let r := BookingController.create_multiple_bookings "u2" "bus1"
             ["A2"; "B1"; "K5"] "Uttara" "Farmgate" 50 w in
  length ["A2"; "B1"; "K5"] <= 5 /\ NoDup ["A2"; "B1"; "K5"] /\
  map Booking.seat_number (fst (fst r)) = ["A2"; "B1"; "K5"] /\
  snd (fst r) = [].
Proof.
  intros w t0 r.
  assert (Hlen : length ["A2"; "B1"; "K5"] <= 5) by (simpl; lia).
  assert (Hnodup : NoDup ["A2"; "B1"; "K5"]).
  { repeat constructor; cbn; intuition discriminate. }
  destruct (X11_free_distinct_seats_all_booked "u2" "bus1"
              ["A2"; "B1"; "K5"] "Uttara" "Farmgate" 50 w Hlen Hnodup)
    as (Herr & Hseats & _).
  - intros i _. vm_compute. auto.
  - intros s [<-|[<-|[<-|[]]]]; vm_compute; intuition discriminate.
  - repeat (split; [assumption|]). exact Herr.
Defined.

(** * Further properties of the fleet and of the users *)

(** X12: on one route the valid trips form a strict order on stops.  No
    stop makes a trip to itself, a trip valid in one direction is not valid
    in the other, and two valid trips that meet make a valid trip. *)
Theorem X12_valid_trips_are_one_way (bus : Bus.t) (a b c : string) :
  Bus.is_valid_trip bus a a = false /\
  (Bus.is_valid_trip bus a b = true -> Bus.is_valid_trip bus b a = false) /\
  (Bus.is_valid_trip bus a b = true -> Bus.is_valid_trip bus b c = true ->
   Bus.is_valid_trip bus a c = true).
Proof.
  split; [|split].
  - destruct (Bus.is_valid_trip bus a a) eqn:E; [|reflexivity].
    apply is_valid_trip_spec in E as (i & j & Hi & Hj & Hlt).
    rewrite Hi in Hj. injection Hj as <-. lia.
  - intros Hab. destruct (Bus.is_valid_trip bus b a) eqn:E; [|reflexivity].
    apply is_valid_trip_spec in Hab as (i & j & Hi & Hj & Hlt).
    apply is_valid_trip_spec in E as (j' & i' & Hj' & Hi' & Hlt').
    rewrite Hi in Hi'. rewrite Hj in Hj'.
    injection Hi' as <-. injection Hj' as <-. lia.
  - intros Hab Hbc.
    apply is_valid_trip_spec in Hab as (i & j & Hi & Hj & Hlt).
    apply is_valid_trip_spec in Hbc as (j' & k & Hj' & Hk & Hlt').
    rewrite Hj in Hj'. injection Hj' as <-.
    apply is_valid_trip_spec. exists i, k. repeat split; auto. lia.
Qed.

Lemma X12_uttara_to_farmgate_only :
  let bus := Bus.from_dict Scenario.red_express in
  Bus.is_valid_trip bus "Uttara" "Banani" = true /\
  Bus.is_valid_trip bus "Banani" "Farmgate" = true /\
  Bus.is_valid_trip bus "Uttara" "Farmgate" = true /\
  Bus.is_valid_trip bus "Banani" "Uttara" = false.
Proof.
  intros bus.
  assert (H1 : Bus.is_valid_trip bus "Uttara" "Banani" = true)
    by reflexivity.
  assert (H2 : Bus.is_valid_trip bus "Banani" "Farmgate" = true)
    by reflexivity.
  destruct (X12_valid_trips_are_one_way bus "Uttara" "Banani" "Farmgate")
    as (_ & Hback & Htrans).
  split; [exact H1|split; [exact H2|split]].
  - exact (Htrans H1 H2).
  - exact (Hback H1).
Defined.

Section Search.

Import Backend.

Lemma search_buses_spec (source destination : string) (w : World)
      (bus : Bus.t) :
  In bus (fst (BusController.search_buses source destination w)) <->
  In bus (map Bus.from_dict (buses w)) /\ Bus.isActive bus = true /\
  Bus.is_valid_trip bus source destination = true.
Proof.
  unfold BusController.search_buses, BusController.get_active_buses,
    BusController.get_all_buses, SupabaseService.get_all_buses, bind, ret.
  cbn [fst]. rewrite !filter_In. tauto.
Qed.

End Search.

(** X13: a search from a stop to the same stop finds no bus, and a bus found
    for a trip is never found for the return trip; searching leaves the
    world as it is. *)
Theorem X13_search_is_one_way (source destination : string)
        (w : Backend.World) :
  fst (BusController.search_buses source source w) = [] /\
  (forall bus,
      In bus (fst (BusController.search_buses source destination w)) ->
      ~ In bus (fst (BusController.search_buses destination source w))) /\
  snd (BusController.search_buses source destination w) = w.
Proof.
  split; [|split; [|reflexivity]].
  - destruct (fst (BusController.search_buses source source w))
      as [|bus rest] eqn:E; [reflexivity|exfalso].
    assert (Hin : In bus (fst (BusController.search_buses source source w)))
      by (rewrite E; now left).
    apply search_buses_spec in Hin as (_ & _ & Hvalid).
    destruct (Bus.is_valid_trip bus source source) eqn:Hv; [|discriminate].
    apply is_valid_trip_spec in Hv as (i & j & Hi & Hj & Hlt).
    rewrite Hi in Hj. injection Hj as <-. lia.
  - intros bus Hin Hback.
    apply search_buses_spec in Hin as (_ & _ & Hab).
    apply search_buses_spec in Hback as (_ & _ & Hba).
    apply is_valid_trip_spec in Hab as (i & j & Hi & Hj & Hlt).
    apply is_valid_trip_spec in Hba as (j' & i' & Hj' & Hi' & Hlt').
    rewrite Hi in Hi'. rewrite Hj in Hj'.
    injection Hi' as <-. injection Hj' as <-. lia.
Qed.

Section Terminals.

Lemma list_index_head (x : string) (xs : list string) :
  Py.list_index x (x :: xs) = Some 0.
Proof. cbn. now rewrite String.eqb_refl. Qed.

Lemma last_in (x : string) (xs : list string) : In (last (x :: xs) "") (x :: xs).
Proof.
  revert x. induction xs as [|y ys IH]; intros x; [now left|].
  right. change (last (x :: y :: ys) "") with (last (y :: ys) "").
  apply IH.
Qed.

End Terminals.

(** X14: the trip from the first to the last stop of a route is valid
    exactly when the two stops differ.  A route that comes back to its first
    stop, or has a single stop or none, has no valid end-to-end trip. *)
Theorem X14_end_to_end_trip (bus : Bus.t) :
  Bus.is_valid_trip bus (Bus.start_stop bus) (Bus.end_stop bus)
  = negb (String.eqb (Bus.start_stop bus) (Bus.end_stop bus)).
Proof.
  unfold Bus.is_valid_trip, Bus.start_stop, Bus.end_stop.
  destruct (Bus.route bus) as [|x xs]; [reflexivity|].
  assert (Hx : Py.str_in x (x :: xs) = true)
    by (apply str_in_In; now left).
  assert (Hl : Py.str_in (last (x :: xs) "") (x :: xs) = true)
    by (apply str_in_In, last_in).
  rewrite Hx, Hl. cbn [negb orb].
  rewrite list_index_head.
  cbn [Py.list_index].
  destruct (String.eqb x (last (x :: xs) "")) eqn:E; [reflexivity|].
  apply list_index_In in Hl as (j & Hj). cbn [Py.list_index] in Hj.
  rewrite E in Hj.
  destruct (Py.list_index (last (x :: xs) "") xs); [reflexivity|discriminate].
Qed.

Lemma X13_no_return_trip_found :
  let w := Ledger.fresh [Scenario.red_express; Scenario.in_workshop]
             Scenario.clock_morning in
  map Bus.id (fst (BusController.search_buses "Uttara" "Farmgate" w))
  = ["bus1"] /\
  ~ In (Bus.from_dict Scenario.red_express)
       (fst (BusController.search_buses "Farmgate" "Uttara" w)).
Proof.
  intros w. split; [reflexivity|].
  apply (X13_search_is_one_way "Uttara" "Farmgate" w).
  left. reflexivity.
Defined.

Section Drivers.

Import Backend.

Variables (bus_id driver_id : string).

Lemma assign_driver_unfold (w : World) :
  BusController.assign_driver bus_id driver_id w =
  let written b := String.eqb (Row.b_id b) bus_id && may_update_bus w b in
  match filter written (buses w) with
  | _ :: _ =>
      ((true, None),
       mkWorld (bookings w)
         (map (fun b => if written b then Ledger.with_driver driver_id b else b)
              (buses w))
         (profiles w) (accounts w) (next_id w) (clock w) (ticks w)
         (may_update_bus w))
  | [] =>
      match filter (fun b => String.eqb (Row.b_id b) bus_id) (buses w) with
      | [_] => ((true, None), w)
      | _ => ((false, Some ("Failed to update bus: " ++ single_row_error)), w)
      end
  end.
Proof.
  unfold BusController.assign_driver, bind, SupabaseService.update_bus.
  cbv zeta.
  destruct (filter _ (buses w)) as [|b0 bs]; cbn [map]; [|reflexivity].
  unfold SupabaseService.single.
  destruct (filter _ (buses w)) as [|c [|c' cs]]; reflexivity.
Qed.

(** A bus of that id which the database lets the client update is among the
    rows written. *)
Lemma written_row (w : World) (b : Row.BusRow) :
  In b (buses w) -> Row.b_id b = bus_id -> may_update_bus w b = true ->
  In b (filter (fun b => String.eqb (Row.b_id b) bus_id
                         && may_update_bus w b) (buses w)).
Proof.
  intros Hin Hid Hmay. apply filter_In. split; [exact Hin|].
  now rewrite Hmay, Hid, String.eqb_refl.
Qed.

End Drivers.

(** X15: assigning a driver.  Success is answered only when the fleet has a
    bus of that id; a refusal changes nothing; and whatever is answered,
    name, route, seats, price and status of all buses and the other buses
    altogether stay as they were.  When the database lets the client update
    the buses of that id, the request succeeds exactly when there is such a
    bus, and then every bus of that id is listed among the buses of the
    driver and none of them as unassigned.  When the database passes over
    the one bus of that id, success is answered all the same, although
    nothing has changed: the bus has the driver it had. *)
Theorem X15_assign_driver_effect (bus_id driver_id : string)
        (w : Backend.World) :
  let r := BusController.assign_driver bus_id driver_id w in
  (fst (fst r) = true ->
   exists b, In b (Backend.buses w) /\ Row.b_id b = bus_id) /\
  (fst (fst r) = false -> snd r = w) /\
  map (fun b => (Row.b_id b, Row.b_name b, Row.b_route b,
                 Row.b_total_seats b, Row.b_price b, Row.b_status b))
      (Backend.buses (snd r))
  = map (fun b => (Row.b_id b, Row.b_name b, Row.b_route b,
                   Row.b_total_seats b, Row.b_price b, Row.b_status b))
        (Backend.buses w) /\
  (forall b, Row.b_id b <> bus_id ->
             (In b (Backend.buses (snd r)) <-> In b (Backend.buses w))) /\
  ((forall b, In b (Backend.buses w) -> Row.b_id b = bus_id ->
              Backend.may_update_bus w b = true) ->
   (fst (fst r) = true <->
    exists b, In b (Backend.buses w) /\ Row.b_id b = bus_id) /\
   (fst (fst r) = true ->
    forall bus, In bus (map Bus.from_dict (Backend.buses (snd r))) ->
                Bus.id bus = bus_id ->
                In bus (fst (BusController.get_buses_for_driver driver_id
                               (snd r))) /\
                ~ In bus (fst (BusController.get_unassigned_buses
                                 (snd r))))) /\
  (forall b,
      filter (fun b => String.eqb (Row.b_id b) bus_id) (Backend.buses w)
      = [b] ->
      Backend.may_update_bus w b = false ->
      r = ((true, None), w)).
Proof.
  cbv zeta. rewrite assign_driver_unfold. cbv zeta.
  set (written := fun b => String.eqb (Row.b_id b) bus_id
                           && Backend.may_update_bus w b).
  assert (Hsame : forall bs,
    map (fun b => (Row.b_id b, Row.b_name b, Row.b_route b,
                   Row.b_total_seats b, Row.b_price b, Row.b_status b))
        (map (fun b => if written b then Ledger.with_driver driver_id b else b)
             bs)
    = map (fun b => (Row.b_id b, Row.b_name b, Row.b_route b,
                     Row.b_total_seats b, Row.b_price b, Row.b_status b))
          bs).
  { intros bs. rewrite map_map. apply map_ext. intros b.
    now destruct (written b). }
  assert (Hothers : forall b, Row.b_id b <> bus_id ->
    (In b (map (fun b => if written b then Ledger.with_driver driver_id b
                         else b)
               (Backend.buses w))
     <-> In b (Backend.buses w))).
  { intros b Hne. rewrite in_map_iff. split.
    - intros (b1 & Hb & Hin). unfold written in Hb.
      destruct (String.eqb_spec (Row.b_id b1) bus_id) as [He|_];
        cbn [andb] in Hb.
      + destruct (Backend.may_update_bus w b1); [|now subst b1].
        subst b. cbn in Hne. contradiction.
      + now subst b1.
    - intros Hin. exists b. split; [|exact Hin]. unfold written.
      apply String.eqb_neq in Hne. now rewrite Hne. }
  assert (Hfound : forall b bs (P : Row.BusRow -> bool),
    filter P (Backend.buses w) = b :: bs ->
    In b (Backend.buses w) /\ P b = true).
  { intros b bs P HP. apply filter_In. rewrite HP. now left. }
  destruct (filter written (Backend.buses w)) as [|b0 bs] eqn:Hw;
    cbn [fst snd Backend.buses].
  - destruct (filter (fun b => String.eqb (Row.b_id b) bus_id)
                     (Backend.buses w)) as [|c [|c' cs]] eqn:Hf;
      cbn [fst snd].
    + split; [discriminate|split; [reflexivity|split; [reflexivity|]]].
      split; [tauto|split].
      * intros _. split; [|discriminate].
        split; [discriminate|]. intros (b & Hin & Hid). exfalso.
        assert (Hb : In b (filter (fun b => String.eqb (Row.b_id b) bus_id)
                                   (Backend.buses w))).
        { apply filter_In. split; [exact Hin|]. now apply String.eqb_eq. }
        rewrite Hf in Hb. destruct Hb.
      * discriminate.
    + destruct (Hfound _ _ _ Hf) as (Hin & Hid). apply String.eqb_eq in Hid.
      split; [intros _; now exists c|].
      split; [discriminate|split; [reflexivity|split; [tauto|split]]].
      * intros Hmay. exfalso.
        pose proof (written_row bus_id w c Hin Hid (Hmay c Hin Hid)) as Hb.
        fold written in Hb. rewrite Hw in Hb. destruct Hb.
      * reflexivity.
    + destruct (Hfound _ _ _ Hf) as (Hin & Hid). apply String.eqb_eq in Hid.
      split; [discriminate|split; [reflexivity|split; [reflexivity|]]].
      split; [tauto|split].
      * intros Hmay. exfalso.
        pose proof (written_row bus_id w c Hin Hid (Hmay c Hin Hid)) as Hb.
        fold written in Hb. rewrite Hw in Hb. destruct Hb.
      * discriminate.
  - destruct (Hfound _ _ _ Hw) as (Hin0 & Hw0). unfold written in Hw0.
    apply andb_true_iff in Hw0 as (Hid0 & Hmay0).
    apply String.eqb_eq in Hid0.
    split; [intros _; now exists b0|].
    split; [discriminate|split; [apply Hsame|split; [exact Hothers|split]]].
    + intros Hmay. split; [split; [intros _; now exists b0|reflexivity]|].
      intros _ bus Hin Hid.
      apply in_map_iff in Hin as (row & <- & Hin).
      apply in_map_iff in Hin as (b & Hrow & Hin).
      cbn [Bus.from_dict Bus.id] in Hid.
      assert (Hb : written b = true).
      { unfold written.
        destruct (String.eqb_spec (Row.b_id b) bus_id) as [He|Hne].
        - cbn [andb]. now apply Hmay.
        - exfalso. revert Hrow. unfold written.
          apply String.eqb_neq in Hne. rewrite Hne. cbn [andb].
          intros <-. apply String.eqb_neq in Hne. contradiction. }
      rewrite Hb in Hrow. subst row. split.
      * unfold BusController.get_buses_for_driver,
          SupabaseService.get_buses_by_driver, Backend.bind, Backend.ret.
        cbn [fst Backend.buses]. apply in_map, filter_In. split.
        -- apply in_map_iff. exists b. split; [|exact Hin]. now rewrite Hb.
        -- cbn. apply String.eqb_refl.
      * unfold BusController.get_unassigned_buses,
          BusController.get_all_buses, SupabaseService.get_all_buses,
          Backend.bind, Backend.ret.
        cbn [fst]. rewrite filter_In. intros (_ & Hno). discriminate.
    + intros b Hf Hmay. exfalso.
      assert (Hb : In b0 (filter (fun b => String.eqb (Row.b_id b) bus_id)
                                 (Backend.buses w))).
      { apply filter_In. split; [exact Hin0|]. now apply String.eqb_eq. }
      rewrite Hf in Hb. destruct Hb as [<-|[]]. congruence.
Qed.

Lemma X15_driver_assigned_to_red_express :
  let w := Ledger.fresh [Scenario.red_express; Scenario.in_workshop]
             Scenario.clock_morning in
  let r := BusController.assign_driver "bus1" "driver-3" w in
  fst (fst r) = true /\
  map Bus.id (fst (BusController.get_buses_for_driver "driver-3" (snd r)))
  = ["bus1"] /\
  map Bus.id (fst (BusController.get_unassigned_buses (snd r))) = ["bus9"] /\
  (fst (fst (BusController.assign_driver "bus7" "driver-3" w)) = false /\
   snd (BusController.assign_driver "bus7" "driver-3" w) = w) /\
  (let locked := Scenario.read_only_fleet in
   BusController.assign_driver "bus1" "driver-3" locked
   = ((true, None), locked) /\
   fst (BusController.get_buses_for_driver "driver-3" locked) = []).
Proof.
  intros w r.
  assert (Hok : fst (fst r) = true) by reflexivity.
  split; [exact Hok|split; [reflexivity|split; [reflexivity|split]]].
  - split; [reflexivity|].
    apply (X15_assign_driver_effect "bus7" "driver-3" w). reflexivity.
  - cbv zeta. split; [|reflexivity].
    destruct (X15_assign_driver_effect "bus1" "driver-3"
                Scenario.read_only_fleet) as (_ & _ & _ & _ & _ & Hlocked).
    apply (Hlocked Scenario.red_express); reflexivity.
Defined.

Section DriverInfo.

Import Backend.

Lemma dict_get_by_id_sound (k : string) (users : list User.t) (u : User.t) :
  Py.dict_get k (map (fun d => (User.id d, d)) users) = Some u ->
  In u users /\ User.id u = k.
Proof.
  unfold Py.dict_get. intros H.
  destruct (find _ _) as [kv|] eqn:E; [|discriminate].
  injection H as <-. apply find_some in E as (Hin & Hk).
  apply in_rev, in_map_iff in Hin as (d & <- & Hin).
  cbn [fst snd] in *. apply String.eqb_eq in Hk. auto.
Qed.

Lemma dict_get_by_id_complete (k : string) (users : list User.t) :
  (exists d, In d users /\ User.id d = k) ->
  exists u, Py.dict_get k (map (fun d => (User.id d, d)) users) = Some u.
Proof.
  intros (d & Hin & Hid). unfold Py.dict_get.
  destruct (find _ _) as [kv|] eqn:E; [eauto|exfalso].
  assert (Hnone : String.eqb (fst (User.id d, d)) k = false).
  { apply (find_none _ _ E (User.id d, d)).
    apply -> in_rev. apply in_map_iff. now exists d. }
  cbn [fst] in Hnone. apply String.eqb_neq in Hnone. contradiction.
Qed.

End DriverInfo.

(** X16: the fleet with its drivers.  The list has one entry per bus, in
    fleet order.  A driver shown beside a bus is a profile with role DRIVER
    whose id is the driver id of that bus; and a bus whose driver id is not
    empty and is the id of some profile with role DRIVER is shown with a
    driver.  A bus assigned to a user who is not a driver is shown without
    one. *)
Theorem X16_driver_shown_is_the_assigned_driver (w : Backend.World) :
  let info := fst (BusController.get_bus_with_driver_info w) in
  map fst info = map Bus.from_dict (Backend.buses w) /\
  (forall bus driver,
      In (bus, Some driver) info ->
      User.role driver = "DRIVER" /\
      Bus.driver_id bus = Some (User.id driver) /\
      In driver (map User.from_dict (Backend.profiles w))) /\
  (forall bus driver_id p,
      In (bus, None) info -> Bus.driver_id bus = Some driver_id ->
      driver_id <> "" ->
      In p (Backend.profiles w) -> Row.p_id p = driver_id ->
      Row.p_role p <> "DRIVER").
Proof.
  cbv zeta.
  unfold BusController.get_bus_with_driver_info, BusController.get_all_buses,
    BusController._get_all_drivers, SupabaseService.get_all_buses,
    SupabaseService.get_users_by_role, Backend.bind, Backend.ret.
  cbn [fst].
  split; [|split].
  - rewrite map_map. cbn [fst]. now rewrite map_id.
  - intros bus driver Hin.
    apply in_map_iff in Hin as (b & Hb & _).
    injection Hb as -> Hd. revert Hd.
    destruct (Bus.driver_id bus) as [d|]; [|intros [=]].
    destruct (negb (String.eqb d "")); [|intros [=]].
    intros Hd. apply dict_get_by_id_sound in Hd as (Hin & Hid).
    apply in_map_iff in Hin as (p & <- & Hin).
    apply filter_In in Hin as (Hin & Hrole).
    apply String.eqb_eq in Hrole.
    split; [exact Hrole|split; [now rewrite <- Hid|]].
    now apply in_map.
  - intros bus driver_id p Hin Hd Hne Hp Hid Hrole.
    apply in_map_iff in Hin as (b & Hb & _).
    injection Hb as -> Hnone. rewrite Hd in Hnone.
    unfold Py.truthy in Hnone.
    apply String.eqb_neq in Hne. rewrite Hne in Hnone. cbn [negb] in Hnone.
    destruct (dict_get_by_id_complete driver_id
                (map User.from_dict
                   (filter (fun p => String.eqb (Row.p_role p) "DRIVER")
                           (Backend.profiles w))))
      as (u & Hu).
    + exists (User.from_dict p). split; [|exact Hid].
      apply in_map, filter_In. split; [exact Hp|].
      now apply String.eqb_eq.
    + rewrite Hu in Hnone. discriminate.
Qed.

Section Statistics.

Lemma count_role_rows (role : string) (ps : list Row.ProfileRow) :
  UserController.count_role role (map User.from_dict ps)
  = length (filter (fun p => String.eqb (Row.p_role p) role) ps).
Proof.
  unfold UserController.count_role.
  induction ps as [|p ps IH]; [reflexivity|].
  cbn [map filter User.from_dict User.role].
  destruct (String.eqb (Row.p_role p) role); cbn [length]; now rewrite IH.
Qed.

(** Every profile is counted once: as passenger, driver, admin or other. *)
Lemma roles_partition (ps : list Row.ProfileRow) :
  length ps
  = length (filter (fun p => String.eqb (Row.p_role p) "USER") ps)
    + length (filter (fun p => String.eqb (Row.p_role p) "DRIVER") ps)
    + length (filter (fun p => String.eqb (Row.p_role p) "ADMIN") ps)
    + length (filter (fun p => negb (Py.str_in (Row.p_role p)
                                       ["USER"; "DRIVER"; "ADMIN"])) ps).
Proof.
  induction ps as [|p ps IH]; [reflexivity|].
  cbn [filter]. unfold Py.str_in at 1. cbn [existsb].
  destruct (String.eqb_spec (Row.p_role p) "USER") as [E|_].
  - rewrite E. cbn [String.eqb Ascii.eqb Bool.eqb andb orb negb length].
    rewrite IH at 1. lia.
  - destruct (String.eqb_spec (Row.p_role p) "DRIVER") as [E|_].
    + rewrite E. cbn [String.eqb Ascii.eqb Bool.eqb andb orb negb length].
      rewrite IH at 1. lia.
    + destruct (String.eqb_spec (Row.p_role p) "ADMIN") as [E|_];
        cbn [orb negb length]; rewrite IH at 1; lia.
Qed.

End Statistics.

(** X17: the user statistics add up.  The total is the number of profiles,
    and it is the sum of the passengers, the drivers, the admins and the
    profiles whose role is none of USER, DRIVER and ADMIN; so the three
    counts never exceed the total.  The passengers and the drivers counted
    are as many as the passengers and the drivers listed. *)
Theorem X17_user_statistics_add_up (w : Backend.World) :
  let stats := fst (UserController.get_user_statistics w) in
  UserController.total_users stats = length (Backend.profiles w) /\
  UserController.total_users stats
  = UserController.passengers stats + UserController.drivers stats
    + UserController.admins stats
    + length (filter (fun p => negb (Py.str_in (Row.p_role p)
                                       ["USER"; "DRIVER"; "ADMIN"]))
                     (Backend.profiles w)) /\
  UserController.passengers stats
  = length (fst (UserController.get_all_passengers w)) /\
  UserController.drivers stats
  = length (fst (UserController.get_all_drivers w)).
Proof.
  cbv zeta.
  unfold UserController.get_user_statistics, UserController.get_all_users,
    UserController.get_all_passengers, UserController.get_all_drivers,
    SupabaseService.get_all_users, SupabaseService.get_users_by_role,
    Backend.bind, Backend.ret.
  cbn [fst UserController.total_users UserController.passengers
       UserController.drivers UserController.admins].
  rewrite !count_role_rows, !length_map.
  split; [reflexivity|split; [|split; reflexivity]].
  apply roles_partition.
Qed.

Lemma X16_passenger_is_not_shown_as_driver :
  let info := fst (BusController.get_bus_with_driver_info Scenario.staffed) in
  map (fun e => (Bus.id (fst e),
                 match snd e with
                 | Some d => Some (User.id d)
                 | None => None
                 end)) info
  = [("bus1", Some "id-3"); ("bus2", None)] /\
  Row.p_role Scenario.rahim <> "DRIVER".
Proof.
  intros info. split; [reflexivity|].
  destruct (X16_driver_shown_is_the_assigned_driver Scenario.staffed)
    as (_ & _ & Hnone).
  apply (Hnone (Bus.mk "bus2" "Blue Line 02" Scenario.route_uttara 40
                  (Some "id-7") 50 "ACTIVE") "id-7" Scenario.rahim).
  - right. left. reflexivity.
  - reflexivity.
  - discriminate.
  - right. left. reflexivity.
  - reflexivity.
Defined.

(** * Further properties of the routes *)

Section LoginRoute.

Import Backend.

(** On a known portal the controller returns a user only when the role is
    the one of the portal. *)
Lemma login_returns_matching_role (email password portal_type role : string)
      (w : World) (user : User.t) (error : option string) :
  In (portal_type, role)
     [("user", "USER"); ("driver", "DRIVER"); ("admin", "ADMIN")] ->
  AuthController.login email password portal_type w = (Some user, error) ->
  User.role user = role.
Proof.
  intros Hportal Hlogin.
  unfold AuthController.login in Hlogin.
  destruct (SupabaseService.login email password w) as [[user_data|]|msg];
    try discriminate.
  rewrite expected_role_known in Hlogin.
  - destruct Hportal as [[= <- <-]|[[= <- <-]|[[= <- <-]|[]]]];
      cbn [Py.lower Py.lower_ascii String.eqb Ascii.eqb Bool.eqb Py.truthy
           negb andb] in Hlogin;
      match type of Hlogin with
      | context [String.eqb ?a ?b] =>
          destruct (String.eqb_spec a b) as [E|_];
            cbn [negb] in Hlogin; [|discriminate]
      end;
      injection Hlogin as <- _; exact E.
  - destruct Hportal as [[= <- _]|[[= <- _]|[[= <- _]|[]]]]; cbn; tauto.
Qed.

End LoginRoute.

(** X18: nobody gets into a portal other than the one of their role through
    the login route.  A visitor is signed in only on one of the portals
    'user', 'driver' and 'admin', written so, and only with the role of that
    portal, and is then sent to the dashboard of that portal.  Any other
    portal type, 'Admin' included, is answered with "Invalid portal type."
    and signs nobody in. *)
Theorem X18_login_route_enforces_role (portal_type : string)
        (req : AuthViews.request) (w : Backend.World) :
  (forall user,
      Flask.signed_in (AuthViews.login None portal_type req w) = Some user ->
      In (portal_type, User.role user)
         [("user", "USER"); ("driver", "DRIVER"); ("admin", "ADMIN")] /\
      Flask.resp (AuthViews.login None portal_type req w)
      = Flask.redirect (portal_type ++ "_portal.dashboard")) /\
  (~ In portal_type ["user"; "driver"; "admin"] ->
   AuthViews.login None portal_type req w
   = Flask.mkHandled (Flask.redirect "landing.index")
       [("Invalid portal type.", "error")] None).
Proof.
  unfold AuthViews.login. split.
  - intros user.
    destruct (Py.str_in portal_type ["user"; "driver"; "admin"]) eqn:Hknown;
      cbn [negb]; [|discriminate].
    apply str_in_In in Hknown.
    destruct req as [|email password]; [discriminate|]. cbv zeta.
    destruct (AuthController.login _ _ portal_type w) as [u error] eqn:Hlogin.
    destruct (Py.truthy error); [discriminate|].
    destruct u as [u|]; [|discriminate].
    cbn [Flask.signed_in Flask.resp]. intros [= ->].
    assert (Hrole : exists role,
               In (portal_type, role)
                  [("user", "USER"); ("driver", "DRIVER");
                   ("admin", "ADMIN")]).
    { destruct Hknown as [<-|[<-|[<-|[]]]]; eexists; cbn; eauto. }
    destruct Hrole as (role & Hrole).
    pose proof (login_returns_matching_role _ _ _ _ _ _ _ Hrole Hlogin)
      as Hmatch.
    rewrite Hmatch. split; [exact Hrole|].
    destruct Hrole as [[= <- <-]|[[= <- <-]|[[= <- <-]|[]]]]; reflexivity.
  - intros Hunknown.
    destruct (Py.str_in portal_type ["user"; "driver"; "admin"]) eqn:Hknown;
      [|reflexivity].
    apply str_in_In in Hknown. contradiction.
Qed.

Lemma X18_passenger_signs_in_as_passenger_only :
  let w := Scenario.staffed in
  let form := AuthViews.POST (Some " rahim@example.com ") (Some "secret1") in
  Flask.signed_in (AuthViews.login None "user" form w)
  = Some (User.from_dict Scenario.rahim) /\
  Flask.resp (AuthViews.login None "user" form w)
  = Flask.redirect "user_portal.dashboard" /\
  Flask.signed_in (AuthViews.login None "admin" form w) = None /\
  ~ In "Admin" ["user"; "driver"; "admin"] /\
  AuthViews.login None "Admin" form w
  = Flask.mkHandled (Flask.redirect "landing.index")
      [("Invalid portal type.", "error")] None.
Proof.
  intros w form.
  assert (Hin : Flask.signed_in (AuthViews.login None "user" form w)
                = Some (User.from_dict Scenario.rahim)) by reflexivity.
  assert (Hunknown : ~ In "Admin" ["user"; "driver"; "admin"]).
  { intros [H|[H|[H|[]]]]; discriminate. }
  split; [exact Hin|split; [|split; [reflexivity|split; [exact Hunknown|]]]].
  - apply (X18_login_route_enforces_role "user" form w) in Hin.
    exact (proj2 Hin).
  - apply (X18_login_route_enforces_role "Admin" form w). exact Hunknown.
Defined.

Section BookRoute.

Import Backend.

Variables (user_id bus_id source destination : string).
Variable (price_per_seat : Z).



End BookRoute.

Section UntypedPrice.

Import Backend.

Variable int_of_str : string -> Py.outcome Z.
Variables (user_id bus_id source destination : string).
Variable (price : Py.value).






End UntypedPrice.



Section CancelRoute.

Import Backend.

Lemma listed_is_owned (booking_id user_id : string) (w : World) :
  Py.str_in booking_id
    (map Booking.id
       (fst (BookingController.get_user_bookings user_id w))) = true ->
  exists r, In r (bookings w) /\ Row.id r = booking_id /\
            Row.user_id r = user_id.
Proof.
  intros H. apply str_in_In, in_map_iff in H as (b & Hid & Hb).
  apply get_user_bookings_spec in Hb as (r & Hin & Hu & ->).
  now exists r.
Qed.

Lemma delete_booking_cases (booking_id user_id : string) (w : World) :
  (BookingController.delete_booking booking_id user_id w
   = ((true, None),
      set_bookings
        (filter (fun r => negb (String.eqb (Row.id r) booking_id))
                (bookings w)) w) /\
   exists r, In r (bookings w) /\ Row.id r = booking_id /\
             Row.user_id r = user_id) \/
  BookingController.delete_booking booking_id user_id w
  = ((false, Some "Booking not found or access denied."), w).
Proof.
  destruct (Py.str_in booking_id
              (map Booking.id
                 (fst (BookingController.get_user_bookings user_id w))))
    eqn:Hlisted.
  - left. apply listed_is_owned in Hlisted.
    split; [now apply delete_booking_owned|exact Hlisted].
  - right. apply requests_not_owned. intros r Hin Hid Hu.
    assert (Hl : Py.str_in booking_id
              (map Booking.id
                 (fst (BookingController.get_user_bookings user_id w)))
            = true) by (apply owned_is_listed; eauto).
    congruence.
Qed.

End CancelRoute.

(** X20: a ticket cancelled from the passenger portal is deleted, not kept
    as CANCELLED.  The route answers "Ticket cancelled successfully." only
    to a passenger who owns a booking of that id, and then no row of that id
    is left in the ledger, whatever its status; every other answer is an
    error, 403 for a user who is not a passenger and 400 with the one denial
    message otherwise, and leaves the world as it was. *)
Theorem X20_portal_cancel_deletes_the_booking
        (current_user : User.t) (booking_id : string) (w : Backend.World) :
  let h := UserPortal.cancel_booking current_user booking_id w in
  match Flask.resp (fst h) with
  | Flask.json_message message =>
      message = "Ticket cancelled successfully." /\
      User.role current_user = "USER" /\
      (exists r, In r (Backend.bookings w) /\ Row.id r = booking_id /\
                 Row.user_id r = User.id current_user) /\
      (forall r, In r (Backend.bookings (snd h)) <->
                 In r (Backend.bookings w) /\ Row.id r <> booking_id)
  | Flask.json_error status error =>
      snd h = w /\
      ((status = 403 /\ User.role current_user <> "USER") \/
       (status = 400 /\ error = "Booking not found or access denied."))
  | _ => False
  end.
Proof.
  cbv zeta. unfold UserPortal.cancel_booking.
  destruct (User.isUser current_user) eqn:Hrole; cbn [negb].
  - apply String.eqb_eq in Hrole. unfold Backend.bind.
    destruct (delete_booking_cases booking_id (User.id current_user) w)
      as [(Hdel & Howned)| Hdel]; rewrite Hdel;
      cbn [Backend.ret fst snd Flask.resp Py.truthy String.eqb negb].
    + split; [reflexivity|split; [exact Hrole|split; [exact Howned|]]].
      intros r. cbn [Backend.bookings Backend.set_bookings].
      rewrite filter_In, negb_true_iff, String.eqb_neq. tauto.
    + split; [reflexivity|right; split; reflexivity].
  - cbn [Backend.ret fst snd Flask.resp].
    split; [reflexivity|left; split; [reflexivity|]].
    now apply String.eqb_neq in Hrole.
Qed.

Lemma X20_cancelled_ticket_is_gone :
  let h := UserPortal.cancel_booking (User.mk "u1" "u1@example.com" "Umar"
                                        "USER")
             "booking-0" Scenario.booked_twice in
  Flask.resp (fst h) = Flask.json_message "Ticket cancelled successfully." /\
  map (fun r => (Row.id r, Row.status r)) (Backend.bookings (snd h))
  = [("booking-1", "CONFIRMED")] /\
  (forall r, In r (Backend.bookings (snd h)) -> Row.id r <> "booking-0").
Proof.
  intros h. split; [reflexivity|split; [reflexivity|]].
  pose proof (X20_portal_cancel_deletes_the_booking
                (User.mk "u1" "u1@example.com" "Umar" "USER") "booking-0"
                Scenario.booked_twice) as H.
  cbv zeta in H. fold h in H.
  change (Flask.resp (fst h))
    with (Flask.json_message "Ticket cancelled successfully.") in H.
  destruct H as (_ & _ & _ & Hgone).
  intros r Hin. now apply Hgone in Hin.
Defined.

Section Registration.

Import Backend.

Lemma validation_passed (name email password : string) :
  AuthController._validate_registration_input name email password = None ->
  2 <= Py.len (Py.strip name) /\ Py.char_in "@" email = true /\
  6 <= Py.len password.
Proof.
  unfold AuthController._validate_registration_input.
  destruct (String.eqb name ""); cbn [orb]; [discriminate|].
  destruct (Py.len (Py.strip name) <? 2) eqn:Hn; [discriminate|].
  destruct (String.eqb email ""); cbn [orb]; [discriminate|].
  destruct (Py.char_in "@" email); cbn [negb]; [|discriminate].
  destruct (String.eqb password ""); cbn [orb]; [discriminate|].
  destruct (Py.len password <? 6) eqn:Hp; [discriminate|].
  apply Nat.ltb_ge in Hn, Hp. auto.
Qed.

Lemma register_unfold (name email password : string) (w : World) :
  AuthController.register name email password w =
  match AuthController._validate_registration_input name email password with
  | Some validation_error => ((None, Some validation_error), w)
  | None =>
      if existsb (fun a => String.eqb (a_email a) email) (accounts w)
      then ((None, Some "This email is already registered."), w)
      else
        let id := "user-" ++ Py.str_of_nat (length (accounts w)) in
        ((Some (User.mk id email name "USER"), None),
         mkWorld (bookings w) (buses w)
           (app (profiles w) [Row.mkProfileRow id email name "USER"])
           (app (accounts w) [mkAccount id email password])
           (next_id w) (clock w) (ticks w) (may_update_bus w))
  end.
Proof.
  unfold AuthController.register.
  destruct (AuthController._validate_registration_input _ _ _);
    [reflexivity|].
  unfold bind, SupabaseService.register.
  destruct (existsb _ (accounts w)); reflexivity.
Qed.

Lemma create_driver_unfold (name email password : string) (w : World) :
  UserController.create_driver name email password w =
  match AuthController._validate_registration_input name email password with
  | Some validation_error => ((None, Some validation_error), w)
  | None =>
      if existsb (fun a => String.eqb (a_email a) email) (accounts w)
      then ((None, Some "This email is already registered."), w)
      else
        let id := "user-" ++ Py.str_of_nat (length (accounts w)) in
        ((Some (User.mk id email name "DRIVER"), None),
         mkWorld (bookings w) (buses w)
           (app (profiles w) [Row.mkProfileRow id email name "DRIVER"])
           (app (accounts w) [mkAccount id email password])
           (next_id w) (clock w) (ticks w) (may_update_bus w))
  end.
Proof.
  unfold UserController.create_driver.
  change (UserController._validate_driver_input name email password)
    with (AuthController._validate_registration_input name email password).
  destruct (AuthController._validate_registration_input _ _ _);
    [reflexivity|].
  unfold bind, SupabaseService.create_driver, SupabaseService.register.
  destruct (existsb _ (accounts w)); reflexivity.
Qed.

End Registration.

(** X21: who registers becomes a passenger, who is created as a driver
    becomes a driver, and bad input creates nobody.  A user returned by
    [register] has role USER, one returned by [create_driver] has role
    DRIVER; either bears the name and email submitted, and was submitted
    with a name of at least 2 characters once stripped, an email with an
    '@' and a password of at least 6 characters.  When no user is returned,
    the world is left as it was. *)
Theorem X21_registration_roles_and_gate (name email password : string)
        (w : Backend.World) :
  let r := AuthController.register name email password w in
  let d := UserController.create_driver name email password w in
  (forall user,
      fst (fst r) = Some user ->
      User.role user = "USER" /\
      User.name user = name /\ User.email user = email /\
      2 <= Py.len (Py.strip name) /\ Py.char_in "@" email = true /\
      6 <= Py.len password) /\
  (forall user,
      fst (fst d) = Some user ->
      User.role user = "DRIVER" /\
      User.name user = name /\ User.email user = email /\
      2 <= Py.len (Py.strip name) /\ Py.char_in "@" email = true /\
      6 <= Py.len password) /\
  (fst (fst r) = None -> snd r = w) /\
  (fst (fst d) = None -> snd d = w).
Proof.
  cbv zeta. rewrite register_unfold, create_driver_unfold.
  destruct (AuthController._validate_registration_input name email password)
    as [e|] eqn:Hvalid.
  - cbn [fst snd]. repeat split; try discriminate.
  - apply validation_passed in Hvalid.
    destruct (existsb _ (Backend.accounts w)); cbv zeta; cbn [fst snd].
    + repeat split; try discriminate.
    + split; [|split; [|split; discriminate]].
      * intros user [= <-]. cbn [User.role User.name User.email]. tauto.
      * intros user [= <-]. cbn [User.role User.name User.email]. tauto.
Qed.

Lemma X21_new_passenger_and_bad_password :
  let w := Scenario.staffed in
  let r := AuthController.register "Salma Begum" "salma@example.com"
             "secret7" w in
  fst (fst r)
  = Some (User.mk "user-2" "salma@example.com" "Salma Begum" "USER") /\
  User.role (User.mk "user-2" "salma@example.com" "Salma Begum" "USER")
  = "USER" /\
  fst (fst (AuthController.register "Salma Begum" "salma@example.com"
              "abc" w)) = None /\
  snd (AuthController.register "Salma Begum" "salma@example.com" "abc" w)
  = w.
Proof.
  intros w r.
  assert (Hok : fst (fst r)
                = Some (User.mk "user-2" "salma@example.com" "Salma Begum"
                          "USER")) by reflexivity.
  assert (Hbad : fst (fst (AuthController.register "Salma Begum"
                             "salma@example.com" "abc" w)) = None)
    by reflexivity.
  split; [exact Hok|split; [|split; [exact Hbad|]]].
  - apply (X21_registration_roles_and_gate "Salma Begum"
             "salma@example.com" "secret7" w). exact Hok.
  - apply (X21_registration_roles_and_gate "Salma Begum"
             "salma@example.com" "abc" w). exact Hbad.
Defined.

Lemma X5_second_passenger_sees_one_booking :
  let w := Scenario.booked_twice in
  map (fun b => (Booking.id b, Booking.user_id b))
      (fst (BookingController.get_user_bookings "u2" w))
  = [("booking-1", "u2")] /\
  (forall b, In b (fst (BookingController.get_user_bookings "u2" w)) ->
             Booking.user_id b = "u2").
Proof.
  intros w. split; [reflexivity|].
  apply (X5_user_sees_own_bookings_only "u2" w).
Defined.

Lemma X6_foreign_cancel_confirms_nothing :
  let w := snd (BookingController.cancel_booking "booking-0" "u1"
                  Scenario.booked_twice) in
  map Row.status (Backend.bookings w) = ["CANCELLED"; "CONFIRMED"] /\
  (forall r,
      In r (Backend.bookings
              (Ledger.serve (Ledger.CancelBooking "booking-0" "u2") w)) ->
      Ledger.confirmed r = true -> In r (Backend.bookings w)) /\
  (exists rows,
      Backend.bookings
        (Ledger.serve (Ledger.CreateBooking "u2" "bus1" "A1" "Uttara"
                         "Banani" 50) w)
      = app (Backend.bookings w) rows).
Proof.
  intros w. split; [reflexivity|split].
  - apply (X6_cancelled_is_terminal (Ledger.CancelBooking "booking-0" "u2")
             w).
  - destruct (X6_cancelled_is_terminal
                (Ledger.CreateBooking "u2" "bus1" "A1" "Uttara" "Banani" 50)
                w) as (rows & Hrows & _).
    now exists rows.
Defined.
